(** * rag_langchain_v1: ingestion, routing, content analysis and store
      management, embedded from the Python sources.

    Layout of the development:
    - [PyStr]: Python [str] values as lists of code points, with the
      string methods the sources call ([in], [count], [strip], [split],
      [lower], f-string formatting of integers).
    - [PyPath]: [os.path.splitext] and [pathlib.Path(...).name/.stem]
      (POSIX flavour).
    - [Runtime]: the third-party libraries the sources call (PyMuPDF, pypdf,
      pandas, docx2txt, markdown, BeautifulSoup, the langchain splitter,
      [re]) as an interface; every definition below is parametric in it.
    - [FileProcessors]: utils/file_processors.py.
    - [Ingestion]: services/ingestion.py (and the identical legacy
      ingestion.py), plus the citation tag of services/agent.py.
    - [Router]: routers/file_router.py.
    - [Analyzer]: routers/content_analyzer.py.
    - [VectorStore]: services/vectorstore.py. *)

From Stdlib Require Import List ZArith NArith Bool Lia String Ascii QArith
  PeanoNat DecimalString DecimalNat Sorted.
Import ListNotations.
Close Scope Q_scope.
Open Scope nat_scope.

Set Implicit Arguments.

(* ================================================================== *)
(** ** Exceptions and results *)

(** A Python [str]: a sequence of Unicode code points. *)
Definition pystr := list N.

(** Raw [bytes]. *)
Definition bytes := list Byte.byte.

(** A raised exception: its class name and [str(e)].  Only subclasses of
    [Exception] are modelled ([except Exception] does not intercept
    [KeyboardInterrupt] or [SystemExit], which are not faults of the
    program). *)
Record exn : Type := mkExn { exn_class : pystr; exn_str : pystr }.

(** Outcome of a call that may raise. *)
Inductive result (A : Type) : Type :=
| Ok (a : A)
| Raise (e : exn).
Arguments Ok {A} a.
Arguments Raise {A} e.

Definition bind {A B : Type} (r : result A) (k : A -> result B) : result B :=
  match r with
  | Ok a => k a
  | Raise e => Raise e
  end.

(** [try: r except Exception as e: h e] *)
Definition try_except {A : Type} (r : result A) (h : exn -> result A) : result A :=
  match r with
  | Ok a => Ok a
  | Raise e => h e
  end.

Declare Scope result_scope.
Delimit Scope result_scope with result.
Notation "x <- c ;; k" := (bind c (fun x => k))
  (at level 61, c at next level, right associativity) : result_scope.
Notation "' pat <- c ;; k" := (bind c (fun x => match x with pat => k end))
  (at level 61, pat pattern, c at next level, right associativity) : result_scope.

(** [enumerate(l, start)] *)
Fixpoint enumerate_from {A : Type} (start : nat) (l : list A) : list (nat * A) :=
  match l with
  | [] => []
  | x :: l' => (start, x) :: enumerate_from (S start) l'
  end.

Definition enumerate {A : Type} (l : list A) : list (nat * A) := enumerate_from 0 l.

(* ================================================================== *)
(** ** Python strings *)

Module PyStr.

(** Decoding of a UTF-8 literal of this file into code points, so that
    the literals of the sources can be written as they are. *)
Fixpoint utf8_decode (l : list N) : pystr :=
  match l with
  | [] => []
  | b0 :: l1 =>
      if (b0 <? 128)%N then b0 :: utf8_decode l1
      else if (b0 <? 224)%N then
        match l1 with
        | b1 :: l2 => ((b0 - 192) * 64 + (b1 - 128))%N :: utf8_decode l2
        | _ => [b0]
        end
      else if (b0 <? 240)%N then
        match l1 with
        | b1 :: b2 :: l3 =>
            ((b0 - 224) * 4096 + (b1 - 128) * 64 + (b2 - 128))%N :: utf8_decode l3
        | _ => [b0]
        end
      else
        match l1 with
        | b1 :: b2 :: b3 :: l4 =>
            ((b0 - 240) * 262144 + (b1 - 128) * 4096 + (b2 - 128) * 64 + (b3 - 128))%N
              :: utf8_decode l4
        | _ => [b0]
        end
  end.

Definition str (s : string) : pystr :=
  utf8_decode (map N_of_ascii (list_ascii_of_string s)).

Definition eqb (a b : pystr) : bool :=
  if list_eq_dec N.eq_dec a b then true else false.

(** [x in collection] for a collection of strings. *)
Definition mem (x : pystr) (l : list pystr) : bool := existsb (eqb x) l.

(** [s.startswith(p)] *)
Fixpoint startswith (p s : pystr) : bool :=
  match p, s with
  | [], _ => true
  | _ :: _, [] => false
  | a :: p', b :: s' => (a =? b)%N && startswith p' s'
  end.

(** [sub in s]: literal substring test. *)
Fixpoint contains (sub s : pystr) : bool :=
  startswith sub s ||
  match s with
  | [] => false
  | _ :: s' => contains sub s'
  end.

(** [sub] occurs in [s] as a contiguous block. *)
Definition substring_of (sub s : pystr) : Prop :=
  exists a b, s = a ++ sub ++ b.

(** [s.count(pat)]: occurrences counted left to right without overlap;
    after a match the scan resumes behind it ([skip] characters are still
    covered by the last match).  The empty pattern matches between all
    characters. *)
Fixpoint count_from (pat : pystr) (skip : nat) (s : pystr) : nat :=
  match s with
  | [] => 0
  | _ :: s' =>
      match skip with
      | S k => count_from pat k s'
      | O =>
          if startswith pat s
          then S (count_from pat (List.length pat - 1) s')
          else count_from pat 0 s'
      end
  end.

Definition count (pat s : pystr) : nat :=
  match pat with
  | [] => S (List.length s)
  | _ => count_from pat 0 s
  end.

(** Number of positions of [s] at which [pat] occurs (overlaps included). *)
Fixpoint occurrences (pat s : pystr) : nat :=
  (if startswith pat s then 1 else 0) +
  match s with
  | [] => 0
  | _ :: s' => occurrences pat s'
  end.

(** [s.rfind(c)] for a one-character needle: the last index, or -1. *)
Fixpoint rfind_from (c : N) (i : Z) (best : Z) (s : pystr) : Z :=
  match s with
  | [] => best
  | x :: s' => rfind_from c (i + 1) (if (x =? c)%N then i else best) s'
  end.

Definition rfind (c : N) (s : pystr) : Z := rfind_from c 0 (-1) s.

(** [s[i:j]] for [0 <= i]. *)
Definition slice (s : pystr) (i j : nat) : pystr := firstn (j - i) (skipn i s).

(** [c.isspace()], the code points Python treats as whitespace. *)
Definition isspace (c : N) : bool :=
  ((9 <=? c) && (c <=? 13) || (28 <=? c) && (c <=? 32) || (c =? 133) || (c =? 160)
   || (c =? 5760) || (8192 <=? c) && (c <=? 8202) || (c =? 8232) || (c =? 8233)
   || (c =? 8239) || (c =? 8287) || (c =? 12288))%N.

Fixpoint lstrip (s : pystr) : pystr :=
  match s with
  | [] => []
  | c :: s' => if isspace c then lstrip s' else s
  end.

(** [s.strip()] *)
Definition strip (s : pystr) : pystr := rev (lstrip (rev (lstrip s))).

(** Truthiness of a string: [bool(s)]. *)
Definition truthy (s : pystr) : bool :=
  match s with [] => false | _ => true end.

(** [bool(s and s.strip())], also [not (not s or not s.strip())]. *)
Definition nonblank (s : pystr) : bool := truthy s && truthy (strip s).

(** [s.split(sep)] for a non-empty separator; [cur] holds the current
    piece in reverse. *)
Fixpoint split_from (sep : pystr) (skip : nat) (cur : pystr) (s : pystr) : list pystr :=
  match s with
  | [] => [rev cur]
  | c :: s' =>
      match skip with
      | S k => split_from sep k cur s'
      | O =>
          if startswith sep s
          then rev cur :: split_from sep (List.length sep - 1) [] s'
          else split_from sep 0 (c :: cur) s'
      end
  end.

Definition split (sep s : pystr) : list pystr := split_from sep 0 [] s.

(** [s.split()]: split on runs of whitespace, no empty pieces. *)
Fixpoint split_ws_from (cur : pystr) (s : pystr) : list pystr :=
  match s with
  | [] => match cur with [] => [] | _ => [rev cur] end
  | c :: s' =>
      if isspace c
      then match cur with
           | [] => split_ws_from [] s'
           | _ => rev cur :: split_ws_from [] s'
           end
      else split_ws_from (c :: cur) s'
  end.

Definition split_ws (s : pystr) : list pystr := split_ws_from [] s.

(** [sep.join(l)] *)
Fixpoint join (sep : pystr) (l : list pystr) : pystr :=
  match l with
  | [] => []
  | [x] => x
  | x :: l' => x ++ sep ++ join sep l'
  end.

(** [str(n)] / [f"{n}"] for a non-negative integer. *)
Definition of_nat (n : nat) : pystr := str (NilEmpty.string_of_uint (Nat.to_uint n)).

(** [s.lower()].  ASCII letters are mapped here; for the other code
    points the Unicode case tables of the interpreter are taken as the
    parameter [ul]. *)
Definition lower_char (ul : N -> pystr) (c : N) : pystr :=
  if (c <? 128)%N
  then (if (65 <=? c)%N && (c <=? 90)%N then [(c + 32)%N] else [c])
  else ul c.

Definition lower (ul : N -> pystr) (s : pystr) : pystr :=
  flat_map (lower_char ul) s.

End PyStr.

Import PyStr.

(* ================================================================== *)
(** ** Paths *)

Module PyPath.

Definition DOT : N := 46.
Definition SLASH : N := 47.

(** [os.path.splitext(p)] (posixpath: [sep = '/'], no [altsep]).  The
    extension starts at the last dot of the last component, unless that
    component has only dots before it. *)
Definition splitext (p : pystr) : pystr * pystr :=
  let sepIndex := rfind SLASH p in
  let dotIndex := rfind DOT p in
  if (dotIndex >? sepIndex)%Z then
    (* skip all leading dots *)
    if existsb (fun c => negb (c =? DOT)%N)
         (slice p (Z.to_nat (sepIndex + 1)) (Z.to_nat dotIndex))
    then (firstn (Z.to_nat dotIndex) p, skipn (Z.to_nat dotIndex) p)
    else (p, [])
  else (p, []).

(** [Path(p).name]: the last component; empty components and [.] are
    dropped when the path is parsed. *)
Definition name (p : pystr) : pystr :=
  last (filter (fun part => negb (PyStr.eqb part []) && negb (PyStr.eqb part [DOT]))
          (split [SLASH] p)) [].

(** [Path(p).stem]: the name without its last suffix. *)
Definition stem (p : pystr) : pystr :=
  let nm := name p in
  let i := rfind DOT nm in
  if ((0 <? i) && (i <? Z.of_nat (List.length nm) - 1))%Z
  then firstn (Z.to_nat i) nm
  else nm.

End PyPath.

(* ================================================================== *)
(** ** Third-party libraries *)

(** A table cell as PyMuPDF returns it: text or [None]. *)
Definition cell := option pystr.
Definition row := list cell.

(** [table.bbox]: (x0, y0, x1, y1). *)
Definition bbox := (Q * Q * Q * Q)%type.

(** A [pandas.DataFrame] as far as the sources look at it. *)
Record dataframe : Type := mkDataFrame { df_columns : row; df_rows : list row }.

(** What [table.extract()] and [table.bbox] give for a table found on a page. *)
Record fitz_table : Type := mkFitzTable {
tbl_extract : result (list row);
tbl_bbox : bbox
}.

(** A [fitz.Pixmap]: channel counts and the outcome of [pix.save(path)]. *)
Record pixmap : Type := mkPixmap {
pix_n : Z;
pix_alpha : Z;
pix_save : result unit
}.

(** A page of an opened PDF: what [page.find_tables()], [page.get_text()]
  and [page.get_images()] give ([fitz.Pixmap(doc, xref)] may raise for each
  image). *)
Record fitz_page : Type := mkFitzPage {
find_tables : result (list fitz_table);
get_text : result pystr;
get_images : result (list (result pixmap))
}.

Definition fitz_doc := list fitz_page.

(** The libraries the sources call.  Each field documents the call it
  stands for; a call that may raise returns a [result]. *)
Class Runtime : Type := {
(** [str.lower()] on code points outside ASCII *)
unicode_lower : N -> pystr;
(** [c.isalpha()], [c.isdigit()] *)
isalpha : N -> bool;
isdigit : N -> bool;
(** [b.decode("utf-8", errors="ignore")] *)
decode_utf8_ignore : bytes -> pystr;
(** [Path("extracted_images").mkdir(exist_ok=True)] *)
mkdir_images : result unit;
(** [fitz.open(stream=file_bytes, filetype="pdf")] *)
fitz_open : bytes -> result fitz_doc;
(** [pd.DataFrame(rows, columns=header)] *)
pd_DataFrame : list row -> row -> result dataframe;
(** [df.dropna(how='all').dropna(axis=1, how='all')] *)
df_dropna_all : dataframe -> result dataframe;
(** [df.empty] *)
df_empty : dataframe -> bool;
(** [PdfReader(io.BytesIO(file_bytes)).pages], each page with the outcome
    of [page.extract_text()] *)
PdfReader_pages : bytes -> result (list (result (option pystr)));
(** [docx2txt.process(f)] *)
docx2txt_process : bytes -> result (option pystr);
(** [markdown(text)] *)
markdown : pystr -> result pystr;
(** [BeautifulSoup(html, "html.parser").get_text("\n")] *)
soup_get_text : pystr -> result pystr;
(** [RecursiveCharacterTextSplitter(chunk_size=.., chunk_overlap=..,
    separators=[blank line, line feed, space, empty]).split_text(text)] *)
split_text : Z -> Z -> pystr -> result (list pystr);
(** [len(re.compile(pattern, re.MULTILINE | re.IGNORECASE).findall(content))] *)
re_findall_count : pystr -> pystr -> nat
}.

(** Line feed. *)
Definition LF : pystr := [10%N].

(* ================================================================== *)
(** ** utils/file_processors.py *)

(** An entry of [tables_data]. *)
Record table_dict : Type := mkTableDict {
td_page : nat;
td_table_index : nat;
td_data : dataframe;
td_bbox : bbox
}.

Module FileProcessors.
Section WithRuntime.
Context {rt : Runtime}.
Local Open Scope result_scope.

(** The three lists [read_pdf_with_images] appends to. *)
Record pdf_acc : Type := mkAcc {
  texts : list pystr;
  image_paths : list pystr;
  tables_data : list table_dict
}.

Definition TRANG : pystr := str "[Trang ".

(** [f"[Trang {page_num + 1}] Bảng {table_index + 1}: {filename}_page{page_num + 1}_table{table_index + 1}"] *)
Definition table_token (filename : pystr) (page_num table_index : nat) : pystr :=
  TRANG ++ of_nat (page_num + 1) ++ str "] Bảng " ++ of_nat (table_index + 1)
    ++ str ": " ++ filename ++ str "_page" ++ of_nat (page_num + 1)
    ++ str "_table" ++ of_nat (table_index + 1).

(** [f"[Trang {page_num + 1}]\n{text}"] *)
Definition page_text_entry (page_num : nat) (text : pystr) : pystr :=
  TRANG ++ of_nat (page_num + 1) ++ str "]" ++ LF ++ text.

(** [f"{Path(filename).stem}_page{page_num + 1}_img{img_index + 1}.png"] *)
Definition img_filename (filename : pystr) (page_num img_index : nat) : pystr :=
  PyPath.stem filename ++ str "_page" ++ of_nat (page_num + 1)
    ++ str "_img" ++ of_nat (img_index + 1) ++ str ".png".

(** [str(images_dir / img_filename)] *)
Definition img_path (img_filename : pystr) : pystr :=
  str "extracted_images/" ++ img_filename.

(** [f"[Trang {page_num + 1}] Hình ảnh: {img_filename}"] *)
Definition image_token (page_num : nat) (img_filename : pystr) : pystr :=
  TRANG ++ of_nat (page_num + 1) ++ str "] Hình ảnh: " ++ img_filename.

(** The body of the [try] around one table: the cleaned frame when the
    table is kept, [None] when it is skipped. *)
Definition table_try (t : fitz_table) : result (option dataframe) :=
  table_data <- tbl_extract t ;;
  if (1 <? List.length table_data)%nat then
    df0 <- pd_DataFrame (tl table_data) (hd [] table_data) ;;
    df <- df_dropna_all df0 ;;
    if negb (df_empty df) then Ok (Some df) else Ok None
  else Ok None.

(** [for table_index, table in enumerate(tables)]; a raised exception is
    printed and the table skipped.  The second component is [page_tables]. *)
Fixpoint tables_loop (filename : pystr) (page_num : nat)
    (tables : list (nat * fitz_table)) (st : pdf_acc) (page_tables : list table_dict)
    : pdf_acc * list table_dict :=
  match tables with
  | [] => (st, page_tables)
  | (table_index, t) :: rest =>
      match table_try t with
      | Ok (Some df) =>
          let td := mkTableDict (page_num + 1) table_index df (tbl_bbox t) in
          tables_loop filename page_num rest
            (mkAcc (texts st ++ [table_token filename page_num table_index])
                   (image_paths st)
                   (tables_data st ++ [td]))
            (page_tables ++ [td])
      | Ok None => tables_loop filename page_num rest st page_tables
      | Raise _ => tables_loop filename page_num rest st page_tables
      end
  end.

(** [for img_index, img in enumerate(image_list)] *)
Fixpoint images_loop (filename : pystr) (page_num : nat)
    (image_list : list (nat * result pixmap)) (st : pdf_acc) : result pdf_acc :=
  match image_list with
  | [] => Ok st
  | (img_index, img) :: rest =>
      pix <- img ;;
      if (pix_n pix - pix_alpha pix <? 4)%Z then
        let fname := img_filename filename page_num img_index in
        _ <- pix_save pix ;;
        images_loop filename page_num rest
          (mkAcc (texts st ++ [image_token page_num fname])
                 (image_paths st ++ [img_path fname])
                 (tables_data st))
      else images_loop filename page_num rest st
  end.

(** The body of [for page_num in range(doc.page_count)]. *)
Definition page_step (filename : pystr) (page_num : nat) (page : fitz_page)
    (st : pdf_acc) : result pdf_acc :=
  tables <- find_tables page ;;
  let '(st1, page_tables) := tables_loop filename page_num (enumerate tables) st [] in
  text <- get_text page ;;
  let st2 :=
    if truthy (strip text) then
      match page_tables with
      | _ :: _ => mkAcc (texts st1 ++ [page_text_entry page_num text])
                        (image_paths st1) (tables_data st1)
      | [] => mkAcc (texts st1 ++ [page_text_entry page_num text])
                    (image_paths st1) (tables_data st1)
      end
    else st1 in
  image_list <- get_images page ;;
  images_loop filename page_num (enumerate image_list) st2.

Fixpoint pages_loop (filename : pystr) (pages : list (nat * fitz_page))
    (st : pdf_acc) : result pdf_acc :=
  match pages with
  | [] => Ok st
  | (page_num, page) :: rest =>
      st' <- page_step filename page_num page st ;;
      pages_loop filename rest st'
  end.

(** [read_pdf_with_images(file_bytes, filename)] *)
Definition read_pdf_with_images (file_bytes : bytes) (filename : pystr)
    : result (pystr * list pystr * list table_dict) :=
  _ <- mkdir_images ;;
  doc <- fitz_open file_bytes ;;
  st <- pages_loop filename (enumerate doc) (mkAcc [] [] []) ;;
  Ok (join (LF ++ LF) (texts st), image_paths st, tables_data st).

(** Every entry of [texts] starts with the page marker. *)
Definition marked (l : list pystr) : Prop :=
  Forall (fun t => startswith TRANG t = true) l.

(** Pages of a document whose text is not blank: the pages for which the
    loop appends a page entry. *)
Definition yields_text (page : fitz_page) : bool :=
  match get_text page with
  | Ok text => truthy (strip text)
  | Raise _ => false
  end.

Definition text_pages (doc : fitz_doc) : nat := List.length (filter yields_text doc).

(** [for i, page in enumerate(reader.pages, start=1)] of [read_pdf]. *)
Fixpoint read_pdf_loop (pages : list (nat * result (option pystr)))
    (acc : list pystr) : result (list pystr) :=
  match pages with
  | [] => Ok acc
  | (i, page) :: rest =>
      extracted <- page ;;
      let text := match extracted with
                  | Some t => if truthy t then t else []
                  | None => []
                  end in
      if truthy (strip text)
      then read_pdf_loop rest (acc ++ [TRANG ++ of_nat i ++ str "]" ++ LF ++ text])
      else read_pdf_loop rest acc
  end.

(** [read_pdf(file_bytes)]: fallback reader. *)
Definition read_pdf (file_bytes : bytes) : result pystr :=
  pages <- PdfReader_pages file_bytes ;;
  acc <- read_pdf_loop (enumerate_from 1 pages) [] ;;
  Ok (join LF acc).

(** [read_docx(file_bytes)]: [docx2txt.process(f)], with [None] and the empty string replaced by the empty string. *)
Definition read_docx (file_bytes : bytes) : result pystr :=
  r <- docx2txt_process file_bytes ;;
  Ok (match r with
      | Some t => if truthy t then t else []
      | None => []
      end).

(** [read_md(file_bytes)] *)
Definition read_md (file_bytes : bytes) : result pystr :=
  html <- markdown (decode_utf8_ignore file_bytes) ;;
  soup_get_text html.

(** [read_txt(file_bytes)] *)
Definition read_txt (file_bytes : bytes) : result pystr :=
  Ok (decode_utf8_ignore file_bytes).

End WithRuntime.
End FileProcessors.

(* ================================================================== *)
(** ** services/ingestion.py *)

Module Ingestion.
Section WithRuntime.
Context {rt : Runtime}.
Local Open Scope result_scope.
Import FileProcessors.

(** [SUPPORTED_EXTENSIONS = {".pdf", ".docx", ".txt", ".md"}] *)
Definition SUPPORTED_EXTENSIONS : list pystr :=
  [str ".pdf"; str ".docx"; str ".txt"; str ".md"].

(** The [metadata] dict of a result: [source] and [chunk] are always set,
    [images] and [tables] only when the lists are not empty. *)
Record chunk_metadata : Type := mkMeta {
  source : pystr;
  chunk : nat;
  images : option (list pystr);
  tables : option (list table_dict)
}.

(** An element of the returned list: [{"content": .., "metadata": ..}]. *)
Record item : Type := mkItem {
  content : pystr;
  metadata : chunk_metadata
}.

Definition ValueError (msg : pystr) : exn := mkExn (str "ValueError") msg.

(** [f"{Path(filename).stem}_page{table_dict['page']}_table{table_dict['table_index'] + 1}"] *)
Definition table_ref (filename : pystr) (td : table_dict) : pystr :=
  PyPath.stem filename ++ str "_page" ++ of_nat (td_page td)
    ++ str "_table" ++ of_nat (td_table_index td + 1).

(** The inner loop over [image_paths]: [Path(img_path).name in chunk]. *)
Definition chunk_images (image_paths : list pystr) (chunk : pystr) : list pystr :=
  filter (fun img_path => contains (PyPath.name img_path) chunk) image_paths.

(** The inner loop over [tables_data]: [table_ref in chunk]. *)
Definition chunk_tables (filename : pystr) (tables_data : list table_dict)
    (chunk : pystr) : list table_dict :=
  filter (fun td => contains (table_ref filename td) chunk) tables_data.

(** [if l: metadata[key] = l] *)
Definition if_nonempty {A : Type} (l : list A) : option (list A) :=
  match l with [] => None | _ => Some l end.

(** The body of [for i, chunk in enumerate(chunks)]. *)
Definition make_item (filename : pystr) (image_paths : list pystr)
    (tables_data : list table_dict) (i : nat) (chunk : pystr) : item :=
  mkItem chunk
    (mkMeta filename i
       (if_nonempty (chunk_images image_paths chunk))
       (if_nonempty (chunk_tables filename tables_data chunk))).

Fixpoint build_results (filename : pystr) (image_paths : list pystr)
    (tables_data : list table_dict) (chunks : list (nat * pystr)) : list item :=
  match chunks with
  | [] => []
  | (i, c) :: rest =>
      make_item filename image_paths tables_data i c
        :: build_results filename image_paths tables_data rest
  end.

(** The [if ext == ".pdf" ... else] cascade: text, image paths, tables. *)
Definition extract_by_ext (ext filename : pystr) (file_bytes : bytes)
    : result (pystr * list pystr * list table_dict) :=
  if PyStr.eqb ext (str ".pdf") then
    try_except (read_pdf_with_images file_bytes filename)
      (fun _ => text <- read_pdf file_bytes ;; Ok (text, [], []))
  else if PyStr.eqb ext (str ".docx") then
    text <- read_docx file_bytes ;; Ok (text, [], [])
  else if PyStr.eqb ext (str ".md") then
    text <- read_md file_bytes ;; Ok (text, [], [])
  else
    text <- read_txt file_bytes ;; Ok (text, [], []).

(** What follows the extension guard: extract, split, link. *)
Definition extract_split_link (ext filename : pystr) (file_bytes : bytes)
    (chunk_size chunk_overlap : Z) : result (list item) :=
  ' (text, image_paths, tables_data) <- extract_by_ext ext filename file_bytes ;;
  chunks <- split_text chunk_size chunk_overlap text ;;
  Ok (build_results filename image_paths tables_data (enumerate chunks)).

(** [os.path.splitext(filename)[1].lower()] *)
Definition extension (filename : pystr) : pystr :=
  lower unicode_lower (snd (PyPath.splitext filename)).

(** [load_and_split(filename, file_bytes, chunk_size=.., chunk_overlap=..)] *)
Definition load_and_split (filename : pystr) (file_bytes : bytes)
    (chunk_size chunk_overlap : Z) : result (list item) :=
  let ext := extension filename in
  if negb (mem ext SUPPORTED_EXTENSIONS) then
    Raise (ValueError (str "Unsupported file type: " ++ ext))
  else extract_split_link ext filename file_bytes chunk_size chunk_overlap.

(** services/agent.py, [generate_node]:
    [f"[source={d.metadata.get('source')}, chunk={d.metadata.get('chunk')}]"] *)
Definition citation_tag (m : chunk_metadata) : pystr :=
  str "[source=" ++ source m ++ str ", chunk=" ++ of_nat (chunk m) ++ str "]".

(** A table is attached to a result when the [tables] entry lists it. *)
Definition table_attached (td : table_dict) (it : item) : Prop :=
  exists l, tables (metadata it) = Some l /\ In td l.

Definition image_attached (img_path : pystr) (it : item) : Prop :=
  exists l, images (metadata it) = Some l /\ In img_path l.

End WithRuntime.
End Ingestion.

(* ================================================================== *)
(** ** routers/file_router.py *)

Module Router.

Inductive FileType : Type := PDF | DOCX | DOC | TXT | MD | UNKNOWN.

(** [file_type.value] *)
Definition FileType_value (t : FileType) : pystr :=
  match t with
  | PDF => str "pdf" | DOCX => str "docx" | DOC => str "doc"
  | TXT => str "txt" | MD => str "md" | UNKNOWN => str "unknown"
  end.

Definition FileType_eqb (a b : FileType) : bool :=
  match a, b with
  | PDF, PDF | DOCX, DOCX | DOC, DOC | TXT, TXT | MD, MD | UNKNOWN, UNKNOWN => true
  | _, _ => false
  end.

(** Values stored in the [metadata] dict of a result. *)
Inductive pyval : Type :=
| VStr (s : pystr)
| VInt (z : Z)
| VBool (b : bool).

(** A dict with string keys, in insertion order. *)
Definition dict := list (pystr * pyval).

Fixpoint dict_get (k : pystr) (d : dict) : option pyval :=
  match d with
  | [] => None
  | (k', v) :: d' => if PyStr.eqb k k' then Some v else dict_get k d'
  end.

Record ProcessingResult : Type := mkResult {
  success : bool;
  file_type : FileType;
  content : pystr;
  tables : list table_dict;
  images : list pystr;
  metadata : dict;
  error : pystr
}.

(** [ProcessingResult(success=False, file_type=.., error=..)]: the other
    fields take their defaults. *)
Definition failed (t : FileType) (err : pystr) : ProcessingResult :=
  mkResult false t [] [] [] [] err.

(** [self.stats] *)
Record stats : Type := mkStats {
  files_processed : nat;
  successful_processing : nat;
  failed_processing : nat;
  files_by_type : FileType -> nat
}.

Definition initial_stats : stats := mkStats 0 0 0 (fun _ => 0).

Definition bump_type (t : FileType) (f : FileType -> nat) : FileType -> nat :=
  fun t' => if FileType_eqb t t' then S (f t') else f t'.

Definition count_failure (st : stats) : stats :=
  mkStats (files_processed st) (successful_processing st)
          (S (failed_processing st)) (files_by_type st).

Definition count_success (st : stats) : stats :=
  mkStats (files_processed st) (S (successful_processing st))
          (failed_processing st) (files_by_type st).

(** A handler of the dispatch table. *)
Definition handler := pystr -> bytes -> result ProcessingResult.

Section WithRuntime.
Context {rt : Runtime}.
Local Open Scope result_scope.
Import FileProcessors.

(** [detect_file_type(filename)] *)
Definition detect_file_type (filename : pystr) : FileType :=
  let ext := lower unicode_lower (snd (PyPath.splitext filename)) in
  if PyStr.eqb ext (str ".pdf") then PDF
  else if PyStr.eqb ext (str ".docx") then DOCX
  else if PyStr.eqb ext (str ".doc") then DOC
  else if PyStr.eqb ext (str ".txt") then TXT
  else if PyStr.eqb ext (str ".md") then MD
  else if PyStr.eqb ext (str ".markdown") then MD
  else UNKNOWN.

(** [route_file(filename, file_bytes)] over a dispatch table [handlers]
    ([self._handlers.get(file_type)]); the second component is
    [self.stats] after the call. *)
Definition route_file (handlers : FileType -> option handler) (st : stats)
    (filename : pystr) (file_bytes : bytes) : result ProcessingResult * stats :=
  let st1 := mkStats (S (files_processed st)) (successful_processing st)
               (failed_processing st) (files_by_type st) in
  let file_type := detect_file_type filename in
  let st2 := mkStats (files_processed st1) (successful_processing st1)
               (failed_processing st1) (bump_type file_type (files_by_type st1)) in
  if FileType_eqb file_type UNKNOWN then
    (Ok (failed file_type
           (str "Unsupported file type: " ++ snd (PyPath.splitext filename))),
     count_failure st2)
  else
    match handlers file_type with
    | None =>
        (Ok (failed file_type
               (str "No handler available for " ++ FileType_value file_type)),
         count_failure st2)
    | Some h =>
        match h filename file_bytes with
        | Ok r =>
            (Ok r, if success r then count_success st2 else count_failure st2)
        | Raise e =>
            (Ok (failed file_type (str "Processing error: " ++ exn_str e)),
             count_failure st2)
        end
    end.

(** ['page_count': text.count('[Trang ') if '[Trang ' in text else 1] *)
Definition page_count_of (text : pystr) : Z :=
  if contains TRANG text then Z.of_nat (count TRANG text) else 1%Z.

Definition _handle_pdf (filename : pystr) (file_bytes : bytes) : result ProcessingResult :=
  match read_pdf_with_images file_bytes filename with
  | Ok (text, image_paths, tables_data) =>
      Ok (mkResult true PDF text tables_data image_paths
            [ (str "processing_method", VStr (str "pymupdf_advanced"));
              (str "page_count", VInt (page_count_of text));
              (str "has_tables", VBool (0 <? List.length tables_data)%nat);
              (str "has_images", VBool (0 <? List.length image_paths)%nat) ]
            [])
  | Raise e =>
      match read_pdf file_bytes with
      | Ok text =>
          Ok (mkResult true PDF text [] []
                [ (str "processing_method", VStr (str "pypdf_simple"));
                  (str "page_count", VInt (page_count_of text));
                  (str "fallback_reason", VStr (exn_str e)) ]
                [])
      | Raise e2 =>
          Ok (failed PDF (str "Both PDF processing methods failed: " ++ exn_str e2))
      end
  end.

Definition _handle_docx (filename : pystr) (file_bytes : bytes) : result ProcessingResult :=
  match read_docx file_bytes with
  | Ok text =>
      if negb (truthy text) || negb (truthy (strip text)) then
        Ok (failed DOCX (str "No text content extracted from DOCX file"))
      else
        let word_count := List.length (split_ws text) in
        let paragraph_count :=
          List.length (filter (fun p => truthy (strip p)) (split (LF ++ LF) text)) in
        Ok (mkResult true DOCX text [] []
              [ (str "processing_method", VStr (str "docx2txt"));
                (str "word_count", VInt (Z.of_nat word_count));
                (str "paragraph_count", VInt (Z.of_nat paragraph_count)) ]
              [])
  | Raise e => Ok (failed DOCX (str "DOCX processing failed: " ++ exn_str e))
  end.

Definition _handle_txt (filename : pystr) (file_bytes : bytes) : result ProcessingResult :=
  match read_txt file_bytes with
  | Ok text =>
      if negb (truthy text) || negb (truthy (strip text)) then
        Ok (failed TXT (str "Empty text file"))
      else
        let lines := split LF text in
        let word_count := List.length (split_ws text) in
        Ok (mkResult true TXT text [] []
              [ (str "processing_method", VStr (str "plain_text"));
                (str "line_count", VInt (Z.of_nat (List.length lines)));
                (str "word_count", VInt (Z.of_nat word_count));
                (str "character_count", VInt (Z.of_nat (List.length text))) ]
              [])
  | Raise e => Ok (failed TXT (str "Text processing failed: " ++ exn_str e))
  end.

Definition _handle_md (filename : pystr) (file_bytes : bytes) : result ProcessingResult :=
  match read_md file_bytes with
  | Ok text =>
      if negb (truthy text) || negb (truthy (strip text)) then
        Ok (failed MD (str "Empty markdown file"))
      else
        let original_text := decode_utf8_ignore file_bytes in
        let header_count := count (str "#") original_text in
        let link_count := count (str "[") original_text in
        let code_block_count := count (str "```") original_text in
        Ok (mkResult true MD text [] []
              [ (str "processing_method", VStr (str "markdown_parser"));
                (str "header_count", VInt (Z.of_nat header_count));
                (str "link_count", VInt (Z.of_nat link_count));
                (str "code_block_count", VInt (Z.of_nat code_block_count / 2));
                (str "word_count", VInt (Z.of_nat (List.length (split_ws text)))) ]
              [])
  | Raise e => Ok (failed MD (str "Markdown processing failed: " ++ exn_str e))
  end.

(** [self._handlers] as [__init__] fills it. *)
Definition _handlers (t : FileType) : option handler :=
  match t with
  | PDF => Some _handle_pdf
  | DOCX => Some _handle_docx
  | DOC => Some _handle_docx
  | TXT => Some _handle_txt
  | MD => Some _handle_md
  | UNKNOWN => None
  end.

End WithRuntime.
End Router.

(* ================================================================== *)
(** ** routers/content_analyzer.py *)

Module Analyzer.
Import Router.

Inductive ContentType : Type :=
| TEXT_ONLY | TEXT_TABLE | TEXT_TABLE_IMAGE | TABLE_ONLY
| IMAGE_ONLY | MIXED_CONTENT | EMPTY | STRUCTURED_TEXT.

Definition ContentType_eqb (a b : ContentType) : bool :=
  match a, b with
  | TEXT_ONLY, TEXT_ONLY | TEXT_TABLE, TEXT_TABLE
  | TEXT_TABLE_IMAGE, TEXT_TABLE_IMAGE | TABLE_ONLY, TABLE_ONLY
  | IMAGE_ONLY, IMAGE_ONLY | MIXED_CONTENT, MIXED_CONTENT
  | EMPTY, EMPTY | STRUCTURED_TEXT, STRUCTURED_TEXT => true
  | _, _ => false
  end.

(** Python floats are modelled by exact rationals: the scores below are
    quotients of small counts, compared against decimal constants.  Quotients
    and products are exact here and rounded in Python, so a score can differ
    in the last bit (for a Markdown file with one hit in five lines Python
    has 0.2 * 1.5 = 0.30000000000000004 where this model has 3/10); the
    properties proved below are comparisons on the score as computed, or
    bounds that hold for both. *)
Definition Qlt_bool (a b : Q) : bool := negb (Qle_bool b a).

(** [min(a, b)] and [max(a, b)] *)
Definition fmin (a b : Q) : Q := if Qlt_bool b a then b else a.
Definition fmax (a b : Q) : Q := if Qlt_bool a b then b else a.

(** [a / max(b, 1)] for counts [a], [b] *)
Definition ratio (a b : nat) : Q := (Z.of_nat a # Pos.of_nat (Nat.max b 1))%Q.

(** The dict [_analyze_text_content] returns. *)
Record text_analysis : Type := mkTextAnalysis {
  line_count : nat;
  word_count : nat;
  sentence_count : nat;
  character_count : nat;
  alpha_ratio : Q;
  digit_ratio : Q;
  space_ratio : Q;
  avg_word_length : Q;
  avg_line_length : Q
}.

(** The dict [_analyze_structure] returns: with the score only for empty
    content, with all three keys otherwise. *)
Inductive structure_analysis : Type :=
| StructScoreOnly (structure_score : Q)
| StructFull (structure_counts : list (pystr * nat)) (structure_score : Q)
             (total_structure_indicators : nat).

(** [structure_analysis.get('structure_score', 0.0)]; [None] is the empty
    dict. *)
Definition get_structure_score (sa : option structure_analysis) : Q :=
  match sa with
  | Some (StructScoreOnly s) => s
  | Some (StructFull _ s _) => s
  | None => 0%Q
  end.

(** The [metadata] of an analysis. *)
Inductive analysis_metadata : Type :=
| MetaError (error : pystr)
| MetaInfo (file_type : pystr) (processing_method : pyval)
           (text : option text_analysis) (structure : option structure_analysis).

Record ContentAnalysis : Type := mkAnalysis {
  content_type : ContentType;
  confidence : Q;
  has_text : bool;
  has_tables : bool;
  has_images : bool;
  has_structure : bool;
  text_length : Z;
  table_count : Z;
  image_count : Z;
  page_count : pyval;
  text_quality_score : Q;
  structure_score : Q;
  recommended_chunk_size : Z;
  recommended_strategy : pystr;
  analysis_meta : analysis_metadata
}.

(** [self.structure_patterns] *)
Definition structure_patterns : list (pystr * list pystr) :=
  [ (str "headers",
     [ str "^#+\s+";
       str "^[A-Z][A-Z\s]+$";
       str "^\d+\.\s+[A-Z]";
       str "^(CHƯƠNG|PHẦN|MỤC|TIẾT)\s+\d+";
       str "^(CHAPTER|SECTION|PART)\s+\d+" ]);
    (str "lists",
     [ str "^\s*[-*+]\s+";
       str "^\s*\d+\.\s+";
       str "^\s*[a-z]\)\s+" ]);
    (str "tables_text",
     [ str "\|.*\|.*\|";
       str "\t.*\t.*\t";
       str "[:,]\s*\d+\s*[:,]";
       str "(Bảng|Table)\s*\d+" ]);
    (str "images_text",
     [ str "(Hình|Figure|Fig)\s*\d+";
       str "\!\[.*\]\(.*\)";
       str "(hình ảnh|image|ảnh)" ]) ].

(** [re.split(r'[.!?]+', content)]: pieces between maximal runs of
    sentence punctuation. *)
Definition is_sentence_end (c : N) : bool :=
  ((c =? 46) || (c =? 33) || (c =? 63))%N.

Fixpoint re_split_sentences (in_run : bool) (cur : pystr) (s : pystr) : list pystr :=
  match s with
  | [] => [rev cur]
  | c :: s' =>
      if is_sentence_end c then
        if in_run then re_split_sentences true [] s'
        else rev cur :: re_split_sentences true [] s'
      else re_split_sentences false (c :: cur) s'
  end.

Definition count_if (f : N -> bool) (s : pystr) : nat := List.length (filter f s).

Definition sum_len (l : list pystr) : nat :=
  fold_left (fun acc x => acc + List.length x) l 0.

(** [_recommend_processing_strategy(content_type, text_length, table_count,
    image_count, structure_score)] *)
Definition _recommend_processing_strategy (content_type : ContentType)
    (text_length table_count image_count : Z) (structure_score : Q) : Z * pystr :=
  (* Base chunk size and its adjustment for the content type *)
  let '(chunk_size, strategy) :=
    match content_type with
    | TEXT_ONLY => (1000, str "text_only")
    | STRUCTURED_TEXT => (600, str "structure_aware")
    | TEXT_TABLE => (1200, str "table_aware")
    | TEXT_TABLE_IMAGE => (1500, str "multimedia_aware")
    | TABLE_ONLY => (2000, str "table_focused")
    | _ => (800, str "standard")
    end%Z in
  (* Adjust for document length *)
  let chunk_size :=
    (if text_length <? 2000 then Z.min chunk_size (text_length / 2)
     else if text_length >? 50000 then Z.min (chunk_size + 300) 2000
     else chunk_size)%Z in
  (* Adjust for content density *)
  let chunk_size :=
    (if (table_count >? 5) || (image_count >? 10) then chunk_size + 200
     else chunk_size)%Z in
  (* Ensure minimum chunk size *)
  let chunk_size := Z.max chunk_size 200 in
  (chunk_size, strategy).

(** [_determine_content_type(has_text, has_tables, has_images,
    text_analysis, structure_analysis)] *)
Definition _determine_content_type (has_text has_tables has_images : bool)
    (ta : option text_analysis) (sa : option structure_analysis)
    : ContentType * Q :=
  if negb has_text && negb has_tables && negb has_images then (EMPTY, 1%Q)
  else if has_text && negb has_tables && negb has_images then
    let structure_score := get_structure_score sa in
    if Qlt_bool (3 # 10) structure_score then (STRUCTURED_TEXT, (9 # 10)%Q)
    else (TEXT_ONLY, (95 # 100)%Q)
  else if has_tables && negb has_text && negb has_images then (TABLE_ONLY, (9 # 10)%Q)
  else if has_images && negb has_text && negb has_tables then (IMAGE_ONLY, (9 # 10)%Q)
  else if has_text && has_tables && has_images then (TEXT_TABLE_IMAGE, (95 # 100)%Q)
  else if has_text && has_tables && negb has_images then (TEXT_TABLE, (9 # 10)%Q)
  else (MIXED_CONTENT, (7 # 10)%Q).

(** [_calculate_text_quality(content, text_analysis)] *)
Definition _calculate_text_quality (content : pystr) (ta : option text_analysis) : Q :=
  match ta with
  | None => 0%Q
  | Some a =>
      if negb (truthy content) then 0%Q
      else
        let quality_score := alpha_ratio a in
        let quality_score :=
          if Qle_bool 3 (avg_word_length a) && Qle_bool (avg_word_length a) 8
          then (quality_score + (2 # 10))%Q else quality_score in
        let quality_score :=
          if 50 <=? word_count a then (quality_score + (1 # 10))%Q else quality_score in
        let quality_score :=
          if Qlt_bool (avg_word_length a) 2 || Qlt_bool 15 (avg_word_length a)
          then (quality_score - (2 # 10))%Q else quality_score in
        fmax 0 (fmin 1 quality_score)
  end.

Section WithRuntime.
Context {rt : Runtime}.

(** [_analyze_text_content(content)]; [None] is the empty dict. *)
Definition _analyze_text_content (content : pystr) : option text_analysis :=
  if negb (truthy content) then None
  else
    let lines := split LF content in
    let words := split_ws content in
    let sentences := re_split_sentences false [] content in
    let alpha_chars := count_if isalpha content in
    let digit_chars := count_if isdigit content in
    let space_chars := count_if isspace content in
    Some (mkTextAnalysis
            (List.length lines)
            (List.length words)
            (List.length (filter (fun s => truthy (strip s)) sentences))
            (List.length content)
            (ratio alpha_chars (List.length content))
            (ratio digit_chars (List.length content))
            (ratio space_chars (List.length content))
            (ratio (sum_len words) (List.length words))
            (ratio (sum_len lines) (List.length lines))).

(** The inner loop of [_analyze_structure] for one category. *)
Definition category_count (content : pystr) (patterns : list pystr) : nat :=
  fold_left (fun count pattern => count + re_findall_count pattern content) patterns 0.

(** [_analyze_structure(content, file_type)] *)
Definition _analyze_structure (content : pystr) (file_type : FileType)
    : structure_analysis :=
  if negb (truthy content) then StructScoreOnly 0%Q
  else
    let total_lines := List.length (split LF content) in
    let structure_counts :=
      map (fun cp => (fst cp, category_count content (snd cp))) structure_patterns in
    let structure_indicators := list_sum (map snd structure_counts) in
    let structure_score := fmin (ratio structure_indicators total_lines) 1 in
    let structure_score :=
      if FileType_eqb file_type MD
      then fmin (structure_score * (15 # 10))%Q 1
      else structure_score in
    StructFull structure_counts structure_score structure_indicators.

(** [analyze_content(processing_result)] *)
Definition analyze_content (processing_result : ProcessingResult) : ContentAnalysis :=
  if negb (success processing_result) then
    mkAnalysis EMPTY 1%Q false false false false 0 0 0 (VInt 0) 0%Q 0%Q
      800 (str "standard") (MetaError (error processing_result))
  else
    let content := content processing_result in
    let tables := tables processing_result in
    let images := images processing_result in
    let file_type := file_type processing_result in
    let has_text := truthy content && truthy (strip content) in
    let has_tables := 0 <? List.length tables in
    let has_images := 0 <? List.length images in
    let text_analysis := if has_text then _analyze_text_content content else None in
    let structure_analysis :=
      if has_text then Some (_analyze_structure content file_type) else None in
    let '(content_type, confidence) :=
      _determine_content_type has_text has_tables has_images
        text_analysis structure_analysis in
    let text_length := Z.of_nat (List.length content) in
    let table_count := Z.of_nat (List.length tables) in
    let image_count := Z.of_nat (List.length images) in
    let page_count :=
      match dict_get (str "page_count") (metadata processing_result) with
      | Some v => v
      | None => VInt 1
      end in
    let text_quality_score := _calculate_text_quality content text_analysis in
    let structure_score := get_structure_score structure_analysis in
    let '(chunk_size, strategy) :=
      _recommend_processing_strategy content_type text_length table_count
        image_count structure_score in
    mkAnalysis content_type confidence has_text has_tables has_images
      (Qlt_bool (3 # 10) structure_score)
      text_length table_count image_count page_count
      text_quality_score structure_score chunk_size strategy
      (MetaInfo (FileType_value file_type)
         (match dict_get (str "processing_method") (metadata processing_result) with
          | Some v => v
          | None => VStr (str "unknown")
          end)
         text_analysis structure_analysis).

End WithRuntime.
End Analyzer.

(* ================================================================== *)
(** ** services/vectorstore.py *)

Module VectorStore.

(** [payload["metadata"]]: a dict, with its [source] entry if any, or a
    value without [.get]. *)
Inductive metadata_field : Type :=
| MetaDict (source : option pystr)
| MetaOther.

(** A scrolled point: [point.payload] is [None] or a dict that may hold a
    [metadata] key. *)
Record point : Type := mkPoint { payload : option (option metadata_field) }.

(** The [UpdateResult] of a delete. *)
Record update_result : Type := mkUpdate { operation_id : option Z }.

(** [Filter(must=[FieldCondition(key=k, match=MatchValue(value=v)); ..])] *)
Definition qfilter := list (pystr * pystr).

(** The Qdrant client and the configuration. *)
Class Qdrant : Type := {
  (** [cfg = get_config(); client = get_qdrant_client()] *)
  get_client : result unit;
  qdrant_collection : pystr;
  (** [client.delete(collection_name=.., points_selector=..)] *)
  client_delete : pystr -> qfilter -> result (option update_result);
  (** [client.scroll(collection_name=.., limit=.., with_payload=True)[0]] *)
  client_scroll : pystr -> nat -> result (list point)
}.

(** Lexicographic order on code points: [a < b] on strings. *)
Fixpoint str_ltb (a b : pystr) : bool :=
  match a, b with
  | _, [] => false
  | [], _ :: _ => true
  | x :: a', y :: b' => (x <? y)%N || ((x =? y)%N && str_ltb a' b')
  end.

(** Insertion into a sorted list without repetition. *)
Fixpoint insert_sorted (x : pystr) (l : list pystr) : list pystr :=
  match l with
  | [] => [x]
  | y :: l' =>
      if PyStr.eqb x y then l
      else if str_ltb x y then x :: l
      else y :: insert_sorted x l'
  end.

(** [sorted(list(set(l)))] *)
Definition sorted_set (l : list pystr) : list pystr :=
  fold_left (fun acc x => insert_sorted x acc) l [].

Section WithClient.
Context {qd : Qdrant}.
Local Open Scope result_scope.

Definition AttributeError : exn :=
  mkExn (str "AttributeError") (str "object has no attribute 'get'").

(** [delete_by_source(source_filename)] *)
Definition delete_by_source (source_filename : pystr) : result (option Z) :=
  _ <- get_client ;;
  res <- client_delete qdrant_collection [(str "metadata.source", source_filename)] ;;
  Ok (match res with
      | Some r => operation_id r
      | None => Some 0%Z
      end).

(** The loop of [list_sources] over the scrolled points. *)
Fixpoint collect_sources (points : list point) (sources : list pystr)
    : result (list pystr) :=
  match points with
  | [] => Ok sources
  | p :: rest =>
      match payload p with
      | Some (Some (MetaDict (Some source))) =>
          if truthy source
          then collect_sources rest (sources ++ [source])
          else collect_sources rest sources
      | Some (Some (MetaDict None)) => collect_sources rest sources
      | Some (Some MetaOther) => Raise AttributeError
      | Some None => collect_sources rest sources
      | None => collect_sources rest sources
      end
  end.

(** [list_sources()] *)
Definition list_sources : result (list pystr) :=
  _ <- get_client ;;
  try_except
    (points <- client_scroll qdrant_collection 1000 ;;
     sources <- collect_sources points [] ;;
     Ok (sorted_set sources))
    (fun _ => Ok []).

(** [clear_collection()] *)
Definition clear_collection : result bool :=
  _ <- get_client ;;
  try_except
    (_ <- client_delete qdrant_collection [] ;; Ok true)
    (fun _ => Ok false).

End WithClient.
End VectorStore.

(* ================================================================== *)
(** ** Concrete library behaviour for the examples *)

(** Stand-ins for the libraries, to run the model on small inputs. *)
Module Demo.

(** Code points of ASCII bytes. *)
Definition ascii_decode (b : bytes) : pystr := map Byte.to_N b.

(** A splitter that cuts the text into consecutive pieces of [n]
    characters, which is what the recursive splitter falls back to when no
    separator helps; a text that fits in one piece comes back whole. *)
Fixpoint fixed_chunks (fuel n : nat) (s : pystr) : list pystr :=
  match fuel with
  | O => []
  | S fuel' =>
      match s with
      | [] => []
      | _ => firstn n s :: fixed_chunks fuel' n (skipn n s)
      end
  end.

Definition splitter (chunk_size chunk_overlap : Z) (text : pystr)
    : result (list pystr) :=
  Ok (fixed_chunks (List.length text) (Z.to_nat chunk_size) text).

(** Rows with a value somewhere are kept. *)
Definition has_value (r : row) : bool :=
  existsb (fun c => match c with Some _ => true | None => false end) r.

Definition dropna (df : dataframe) : result dataframe :=
  Ok (mkDataFrame (df_columns df) (filter has_value (df_rows df))).

Definition empty (df : dataframe) : bool :=
  match df_rows df, df_columns df with
  | _ :: _, _ :: _ => false
  | _, _ => true
  end.

Definition ascii_alpha (c : N) : bool :=
  ((65 <=? c) && (c <=? 90) || (97 <=? c) && (c <=? 122))%N.

Definition ascii_digit (c : N) : bool := ((48 <=? c) && (c <=? 57))%N.

(** A runtime whose PDF library opens every file as [pdf], whose regular
    expressions count as [re] says, and which reads ASCII text files. *)
Definition runtime (pdf : result fitz_doc) (re : pystr -> pystr -> nat) : Runtime :=
  {| unicode_lower := fun c => [c];
     isalpha := ascii_alpha;
     isdigit := ascii_digit;
     decode_utf8_ignore := ascii_decode;
     mkdir_images := Ok tt;
     fitz_open := fun _ => pdf;
     pd_DataFrame := fun rows header => Ok (mkDataFrame header rows);
     df_dropna_all := dropna;
     df_empty := empty;
     PdfReader_pages := fun _ => Ok [];
     docx2txt_process := fun b => Ok (Some (ascii_decode b));
     markdown := fun t => Ok t;
     soup_get_text := fun t => Ok t;
     split_text := splitter;
     re_findall_count := re |}.

Definition no_match (pattern content : pystr) : nat := 0.

Definition not_a_pdf : result fitz_doc :=
  Raise (mkExn (str "FileDataError") (str "cannot open stream")).

(** The bytes of an ASCII literal. *)
Definition ascii_bytes (s : string) : bytes :=
  map (fun a => match Byte.of_N (N_of_ascii a) with
                | Some b => b
                | None => Byte.x00
                end) (list_ascii_of_string s).

Definition zero_bbox : bbox := (0, 0, 0, 0)%Q.

(** A one-page report: a two-row table, a line of text, an RGB image. *)
Definition report_page : fitz_page :=
  mkFitzPage
    (Ok [ mkFitzTable
            (Ok [ [Some (str "Item"); Some (str "Qty")];
                  [Some (str "Pen"); Some (str "2")] ])
            zero_bbox ])
    (Ok (str "Quarterly report"))
    (Ok [ Ok (mkPixmap 3 0 (Ok tt)) ]).

Definition report_pdf : result fitz_doc := Ok [report_page].

(** Two pages: the first with text and an image, the second blank. *)
Definition blank_page : fitz_page := mkFitzPage (Ok []) (Ok []) (Ok []).

Definition picture_page : fitz_page :=
  mkFitzPage (Ok []) (Ok (str "Cover")) (Ok [ Ok (mkPixmap 3 0 (Ok tt)) ]).

Definition cover_pdf : result fitz_doc := Ok [picture_page; blank_page].

(** The runtimes of the examples. *)
Definition report_rt : Runtime := runtime report_pdf no_match.
Definition cover_rt : Runtime := runtime cover_pdf no_match.

(** The routed result of a text file with prose and no structural pattern
    in it. *)
Definition prose : Router.ProcessingResult :=
  Router.mkResult true Router.TXT (str "Plain text, 42 items.") [] []
    [(str "processing_method", Router.VStr (str "plain_text"))] [].

(** A dispatch table whose text handler raises. *)
Definition raising_handlers (t : Router.FileType) : option Router.handler :=
  match t with
  | Router.TXT =>
      Some (fun _ _ => Raise (mkExn (str "RuntimeError") (str "disk unavailable")))
  | _ => None
  end.

(** A store whose calls raise. *)
Definition unreachable : exn :=
  mkExn (str "ResponseHandlingException") (str "connection refused").

Definition failing_store : VectorStore.Qdrant :=
  {| VectorStore.get_client := Ok tt;
     VectorStore.qdrant_collection := str "my_documents";
     VectorStore.client_delete := fun _ _ => Raise unreachable;
     VectorStore.client_scroll := fun _ _ => Raise unreachable |}.

End Demo.

(* ================================================================== *)
(** ** The specification's own wording, for comparison *)

Module Spec.
Import Analyzer.

(** Section 6: supported extensions of the file input contract. *)
Definition supported_extensions : list pystr :=
  [str ".pdf"; str ".docx"; str ".doc"; str ".txt"; str ".md"; str ".markdown"].

(** Section 4.3, step 7: the base table keyed by content type. *)
Definition base_chunk_size (t : ContentType) : Z :=
  match t with
  | TEXT_ONLY => 1000
  | STRUCTURED_TEXT => 600
  | TEXT_TABLE => 1200
  | TEXT_TABLE_IMAGE => 1500
  | TABLE_ONLY => 2000
  | _ => 800
  end%Z.

(** shrink to min(size, textLength/2) if textLength < 2000; else grow by
    +300 capped at 2000 if textLength > 50000 *)
Definition length_adjust (text_length size : Z) : Z :=
  (if text_length <? 2000 then Z.min size (text_length / 2)
   else if 50000 <? text_length then Z.min (size + 300) 2000
   else size)%Z.

(** then add +200 if tableCount > 5 or imageCount > 10 *)
Definition density_adjust (table_count image_count size : Z) : Z :=
  (if (5 <? table_count) || (10 <? image_count) then size + 200 else size)%Z.

(** finally floor at 200 *)
Definition floor_200 (size : Z) : Z := Z.max size 200.

End Spec.

(* ================================================================== *)
(** ** routers/file_router.py: batches and statistics *)

Module RouterBatch.
Import Router.

(** [results[filename] = value] on a dict kept in insertion order. *)
Fixpoint results_set (k : pystr) (v : ProcessingResult)
    (d : list (pystr * ProcessingResult)) : list (pystr * ProcessingResult) :=
  match d with
  | [] => [(k, v)]
  | (k', v') :: d' =>
      if PyStr.eqb k k' then (k, v) :: d' else (k', v') :: results_set k v d'
  end.

(** The value [get_statistics] returns: the counters and [success_rate]. *)
Record statistics : Type := mkStatistics {
  counters : stats;
  success_rate : Q
}.

(** [get_statistics()] *)
Definition get_statistics (st : stats) : statistics :=
  mkStatistics st
    (if 0 <? files_processed st
     then ((Z.of_nat (successful_processing st) # Pos.of_nat (files_processed st)) * 100)%Q
     else 0%Q).

(** [reset_statistics()] *)
Definition reset_statistics (st : stats) : stats := initial_stats.

(** The members of [FileType]. *)
Definition all_file_types : list FileType := [PDF; DOCX; DOC; TXT; MD; UNKNOWN].

(** [sum(stats['files_by_type'].values())] *)
Definition total_by_type (st : stats) : nat :=
  list_sum (map (files_by_type st) all_file_types).

Section WithRuntime.
Context {rt : Runtime}.

(** [route_multiple_files(files)]: [files] are the items of the dict, in
    order; [results] is the dict built so far. *)
Fixpoint route_multiple_files (handlers : FileType -> option handler) (st : stats)
    (files : list (pystr * bytes)) (results : list (pystr * ProcessingResult))
    : result (list (pystr * ProcessingResult)) * stats :=
  match files with
  | [] => (Ok results, st)
  | (filename, file_bytes) :: rest =>
      match route_file handlers st filename file_bytes with
      | (Ok r, st') =>
          route_multiple_files handlers st' rest (results_set filename r results)
      | (Raise e, st') => (Raise e, st')
      end
  end.

End WithRuntime.
End RouterBatch.

(* ================================================================== *)
(** ** routers/content_analyzer.py: several files *)

Module AnalyzerBatch.
Import Router Analyzer.

(** [content_type.value] *)
Definition ContentType_value (t : ContentType) : pystr :=
  match t with
  | TEXT_ONLY => str "text_only"
  | TEXT_TABLE => str "text_table"
  | TEXT_TABLE_IMAGE => str "text_table_image"
  | TABLE_ONLY => str "table_only"
  | IMAGE_ONLY => str "image_only"
  | MIXED_CONTENT => str "mixed_content"
  | EMPTY => str "empty"
  | STRUCTURED_TEXT => str "structured_text"
  end.

(** The members of [ContentType], in the order of the class. *)
Definition all_content_types : list ContentType :=
  [TEXT_ONLY; TEXT_TABLE; TEXT_TABLE_IMAGE; TABLE_ONLY; IMAGE_ONLY;
   MIXED_CONTENT; EMPTY; STRUCTURED_TEXT].

(** [strategy_counts[strategy] = strategy_counts.get(strategy, 0) + 1] *)
Fixpoint count_incr (k : pystr) (d : list (pystr * nat)) : list (pystr * nat) :=
  match d with
  | [] => [(k, 1)]
  | (k', n) :: d' =>
      if PyStr.eqb k k' then (k, S n) :: d' else (k', n) :: count_incr k d'
  end.

Definition Qsum (l : list Q) : Q := fold_left Qplus l 0%Q.

(** The dict [get_content_summary] returns for a non-empty input. *)
Record content_summary : Type := mkSummary {
  total_files : nat;
  content_type_distribution : list (pystr * nat);
  total_text_length : Z;
  total_tables : Z;
  total_images : Z;
  average_confidence : Q;
  average_quality_score : Q;
  strategy_distribution : list (pystr * nat);
  recommended_chunk_sizes : list Z
}.

(** [get_content_summary(analyses)]: [None] stands for the dict with
    [total_files = 0] only, returned for an empty input. *)
Definition get_content_summary (analyses : list (pystr * ContentAnalysis))
    : option content_summary :=
  match analyses with
  | [] => None
  | _ =>
      let values := map snd analyses in
      let type_counts :=
        map (fun t =>
               (ContentType_value t,
                List.length
                  (filter (fun a => ContentType_eqb (content_type a) t) values)))
            all_content_types in
      let strategy_counts :=
        fold_left (fun d a => count_incr (recommended_strategy a) d) values [] in
      Some (mkSummary
              (List.length analyses)
              type_counts
              (fold_left Z.add (map text_length values) 0%Z)
              (fold_left Z.add (map table_count values) 0%Z)
              (fold_left Z.add (map image_count values) 0%Z)
              (Qsum (map confidence values) / inject_Z (Z.of_nat (List.length analyses)))%Q
              (Qsum (map text_quality_score values)
                 / inject_Z (Z.of_nat (List.length analyses)))%Q
              strategy_counts
              (map recommended_chunk_size values))
  end.

Section WithRuntime.
Context {rt : Runtime}.

(** [analyses[filename] = value] *)
Fixpoint analyses_set (k : pystr) (v : ContentAnalysis)
    (d : list (pystr * ContentAnalysis)) : list (pystr * ContentAnalysis) :=
  match d with
  | [] => [(k, v)]
  | (k', v') :: d' =>
      if PyStr.eqb k k' then (k, v) :: d' else (k', v') :: analyses_set k v d'
  end.

(** [analyze_multiple_files(processing_results)] *)
Definition analyze_multiple_files (processing_results : list (pystr * ProcessingResult))
    : list (pystr * ContentAnalysis) :=
  fold_left (fun d kv => analyses_set (fst kv) (analyze_content (snd kv)) d)
    processing_results [].

End WithRuntime.
End AnalyzerBatch.

(* ================================================================== *)
(** ** services/agent.py: the context handed to the answer generator *)

Module Agent.
Import Ingestion.

(** One element of the list joined in [generate_node]: the citation tag, a
    line feed, the chunk's text. *)
Definition context_entry (d : item) : pystr :=
  citation_tag (metadata d) ++ LF ++ content d.

(** [context_text] of [generate_node]. *)
Definition context_text (docs : list item) : pystr :=
  join (LF ++ LF) (map context_entry docs).

End Agent.

(* ================================================================== *)
(** ** ui/main_ui.py: from an upload to its chunks *)

Module MainUI.
Import Router Analyzer Ingestion.

(** The fields of [AppConfig] the upload loop reads. *)
Record AppConfig : Type := mkConfig {
  cfg_chunk_size : Z;
  cfg_chunk_overlap : Z
}.

Section WithRuntime.
Context {rt : Runtime}.
Local Open Scope result_scope.

(** The [chunk_size] and [chunk_overlap] the loop passes to [load_and_split]
    for a routed result: the analyzer's recommendation and
    [min(cfg.chunk_overlap, recommended_size // 4)] after a success, the
    configured values after a failure. *)
Definition chunk_parameters (cfg : AppConfig) (processing_result : ProcessingResult)
    : Z * Z :=
  if success processing_result then
    let recommended_size :=
      recommended_chunk_size (analyze_content processing_result) in
    (recommended_size, Z.min (cfg_chunk_overlap cfg) (recommended_size / 4))
  else (cfg_chunk_size cfg, cfg_chunk_overlap cfg).

(** The body of [for f in uploaded_files], as far as [items] goes: route the
    file, pick the parameters, chunk.  The dict appended to
    [processing_info] is for display and is not modelled. *)
Definition upload_chunks (cfg : AppConfig) (st : stats) (name : pystr)
    (file_bytes : bytes) : result (list item) * stats :=
  match route_file _handlers st name file_bytes with
  | (Ok processing_result, st') =>
      let '(size, overlap) := chunk_parameters cfg processing_result in
      (load_and_split name file_bytes size overlap, st')
  | (Raise e, st') => (Raise e, st')
  end.

(** The loop over the uploaded files: [items] once all files are through,
    or the exception that ends the batch. *)
Fixpoint upload_items (cfg : AppConfig) (st : stats)
    (uploaded_files : list (pystr * bytes)) (items : list item)
    : result (list item) :=
  match uploaded_files with
  | [] => Ok items
  | (name, file_bytes) :: rest =>
      match upload_chunks cfg st name file_bytes with
      | (Ok chunks, st') => upload_items cfg st' rest (items ++ chunks)
      | (Raise e, _) => Raise e
      end
  end.

End WithRuntime.
End MainUI.

(* ================================================================== *)
(** ** Vocabulary for the properties below *)

Module Vocabulary.

(** No path separator among the characters. *)
Definition noslash (s : pystr) : bool :=
  forallb (fun c => negb (c =? PyPath.SLASH)%N) s.

(** Decimal digits only. *)
Definition digits (s : pystr) : bool :=
  forallb (fun c => (48 <=? c)%N && (c <=? 57)%N) s.

(** Pages of the fallback reader whose text is not blank: the pages for
    which [read_pdf] appends an entry. *)
Definition fallback_yields_text (page : result (option pystr)) : bool :=
  match page with
  | Ok (Some t) => truthy t && truthy (strip t)
  | _ => false
  end.

Definition fallback_text_pages (pages : list (result (option pystr))) : nat :=
  List.length (filter fallback_yields_text pages).

(** Every extracted image has a path built by the extractor and its token
    among the texts; every extracted table has a page number from 1 to
    [bound] and its token among the texts. *)
Definition linked (filename : pystr) (bound : nat) (st : FileProcessors.pdf_acc) : Prop :=
  (forall p, In p (FileProcessors.image_paths st) ->
     exists pn ii,
       p = FileProcessors.img_path (FileProcessors.img_filename filename pn ii) /\
       In (FileProcessors.image_token pn (FileProcessors.img_filename filename pn ii))
          (FileProcessors.texts st)) /\
  (forall td, In td (FileProcessors.tables_data st) ->
     1 <= td_page td <= bound /\
     In (FileProcessors.table_token filename (td_page td - 1) (td_table_index td))
        (FileProcessors.texts st)).

(** [a < b] on strings, as a relation. *)
Definition str_lt (a b : pystr) : Prop := VectorStore.str_ltb a b = true.

(** The source a scrolled point contributes to [list_sources], if any. *)
Definition point_source (p : VectorStore.point) : option pystr :=
  match VectorStore.payload p with
  | Some (Some (VectorStore.MetaDict (Some s))) => if truthy s then Some s else None
  | _ => None
  end.

(** The [metadata] of the point is present and is not a dict. *)
Definition malformed (p : VectorStore.point) : bool :=
  match VectorStore.payload p with
  | Some (Some VectorStore.MetaOther) => true
  | _ => false
  end.

End Vocabulary.

(* ================================================================== *)
(** ** More sample inputs *)

Module Samples.

(** A runtime whose PDF library cannot open the file while the fallback
    reader finds three pages: one with text, one without text layer, one
    with blanks only. *)
Definition fallback_rt : Runtime :=
  {| unicode_lower := fun c => [c];
     isalpha := Demo.ascii_alpha;
     isdigit := Demo.ascii_digit;
     decode_utf8_ignore := Demo.ascii_decode;
     mkdir_images := Ok tt;
     fitz_open := fun _ => Demo.not_a_pdf;
     pd_DataFrame := fun rows header => Ok (mkDataFrame header rows);
     df_dropna_all := Demo.dropna;
     df_empty := Demo.empty;
     PdfReader_pages := fun _ => Ok [Ok (Some (str "Page one")); Ok None; Ok (Some (str "  "))];
     docx2txt_process := fun b => Ok (Some (Demo.ascii_decode b));
     markdown := fun t => Ok t;
     soup_get_text := fun t => Ok t;
     split_text := Demo.splitter;
     re_findall_count := Demo.no_match |}.

(** A store with three points of two sources, one point without payload. *)
Definition sourced (s : string) : VectorStore.point :=
  VectorStore.mkPoint (Some (Some (VectorStore.MetaDict (Some (str s))))).

Definition two_sources_store : VectorStore.Qdrant :=
  {| VectorStore.get_client := Ok tt;
     VectorStore.qdrant_collection := str "my_documents";
     VectorStore.client_delete := fun _ _ => Ok (Some (VectorStore.mkUpdate (Some 7%Z)));
     VectorStore.client_scroll := fun _ _ =>
       Ok [sourced "notes.txt"; VectorStore.mkPoint None; sourced "report.pdf";
           sourced "notes.txt"] |}.

(** The same store with one more point whose [metadata] is not a dict. *)
Definition malformed_store : VectorStore.Qdrant :=
  {| VectorStore.get_client := Ok tt;
     VectorStore.qdrant_collection := str "my_documents";
     VectorStore.client_delete := fun _ _ => Ok (Some (VectorStore.mkUpdate (Some 7%Z)));
     VectorStore.client_scroll := fun _ _ =>
       Ok [sourced "notes.txt"; VectorStore.mkPoint (Some (Some VectorStore.MetaOther));
           sourced "report.pdf"] |}.

(** A one-page PDF that holds a single RGB image and no text. *)
Definition image_only_page : fitz_page :=
  mkFitzPage (Ok []) (Ok []) (Ok [ Ok (mkPixmap 3 0 (Ok tt)) ]).

(** A splitter that cuts every [chunk_size] characters and strips the
    pieces.  On the one-line text of the picture file with [chunk_size = 20]
    this is what the recursive splitter returns: it cuts at the space in
    front of the file name and strips both pieces. *)
Definition stripping_splitter (chunk_size chunk_overlap : Z) (text : pystr)
    : result (list pystr) :=
  Ok (map strip (Demo.fixed_chunks (List.length text) (Z.to_nat chunk_size) text)).

Definition picture_rt : Runtime :=
  {| unicode_lower := fun c => [c];
     isalpha := Demo.ascii_alpha;
     isdigit := Demo.ascii_digit;
     decode_utf8_ignore := Demo.ascii_decode;
     mkdir_images := Ok tt;
     fitz_open := fun _ => Ok [image_only_page];
     pd_DataFrame := fun rows header => Ok (mkDataFrame header rows);
     df_dropna_all := Demo.dropna;
     df_empty := Demo.empty;
     PdfReader_pages := fun _ => Ok [];
     docx2txt_process := fun b => Ok (Some (Demo.ascii_decode b));
     markdown := fun t => Ok t;
     soup_get_text := fun t => Ok t;
     split_text := stripping_splitter;
     re_findall_count := Demo.no_match |}.

(** A runtime in which no library can read the upload. *)
Definition unreadable_rt : Runtime :=
  {| unicode_lower := fun c => [c];
     isalpha := Demo.ascii_alpha;
     isdigit := Demo.ascii_digit;
     decode_utf8_ignore := Demo.ascii_decode;
     mkdir_images := Ok tt;
     fitz_open := fun _ => Demo.not_a_pdf;
     pd_DataFrame := fun rows header => Ok (mkDataFrame header rows);
     df_dropna_all := Demo.dropna;
     df_empty := Demo.empty;
     PdfReader_pages := fun _ =>
       Raise (mkExn (str "PdfReadError") (str "EOF marker not found"));
     docx2txt_process := fun _ =>
       Raise (mkExn (str "BadZipFile") (str "File is not a zip file"));
     markdown := fun _ =>
       Raise (mkExn (str "RecursionError") (str "maximum recursion depth exceeded"));
     soup_get_text := fun t => Ok t;
     split_text := Demo.splitter;
     re_findall_count := Demo.no_match |}.

End Samples.

(* ================================================================== *)
(** ** Facts about strings and enumeration *)

Module PyStrFacts.

Lemma eqb_eq (a b : pystr) : PyStr.eqb a b = true <-> a = b.
Proof.
  unfold PyStr.eqb. destruct (list_eq_dec N.eq_dec a b); split; congruence.
Qed.

Lemma mem_In (x : pystr) (l : list pystr) : mem x l = true <-> In x l.
Proof.
  unfold mem. rewrite existsb_exists. split.
  - intros [y [Hy Heq]]. apply eqb_eq in Heq. now subst.
  - intros H. exists x. split; [assumption | now apply eqb_eq].
Qed.

Lemma startswith_app (p r : pystr) : startswith p (p ++ r) = true.
Proof.
  induction p as [|a p IH]; simpl; [reflexivity|].
  now rewrite N.eqb_refl, IH.
Qed.

Lemma startswith_inv (p s : pystr) :
  startswith p s = true -> exists r, s = p ++ r.
Proof.
  revert s. induction p as [|a p IH]; intros s H.
  - now exists s.
  - destruct s as [|b s]; simpl in H; [discriminate|].
    apply andb_true_iff in H. destruct H as [Hab Hps].
    apply N.eqb_eq in Hab. subst b.
    destruct (IH _ Hps) as [r ->]. now exists r.
Qed.

Lemma contains_unfold (sub s : pystr) :
  contains sub s =
  startswith sub s || match s with [] => false | _ :: s' => contains sub s' end.
Proof. destruct s; reflexivity. Qed.

(** Python's [in] on strings is the literal substring relation. *)
Lemma contains_iff (sub s : pystr) :
  contains sub s = true <-> substring_of sub s.
Proof.
  split.
  - induction s as [|c s IH]; rewrite contains_unfold; intros H.
    + rewrite orb_false_r in H. apply startswith_inv in H.
      destruct H as [r Hr]. exists [], r. exact Hr.
    + apply orb_true_iff in H. destruct H as [H|H].
      * apply startswith_inv in H. destruct H as [r Hr]. exists [], r. exact Hr.
      * destruct (IH H) as [a [b Hab]]. exists (c :: a), b. simpl. now rewrite Hab.
  - intros [a [b ->]]. induction a as [|c a IH]; rewrite contains_unfold.
    + simpl. now rewrite startswith_app.
    + simpl. rewrite IH. apply orb_true_r.
Qed.

Lemma nth_error_enumerate_from {A : Type} (l : list A) (k i : nat) :
  nth_error (enumerate_from k l) i = option_map (fun x => (k + i, x)) (nth_error l i).
Proof.
  revert k i. induction l as [|x l IH]; intros k i.
  - destruct i; reflexivity.
  - destruct i as [|i]; simpl.
    + now rewrite Nat.add_0_r.
    + rewrite IH. now rewrite Nat.add_succ_comm.
Qed.

Lemma length_enumerate_from {A : Type} (l : list A) (k : nat) :
  List.length (enumerate_from k l) = List.length l.
Proof. revert k. induction l; intros k; simpl; [reflexivity | now rewrite IHl]. Qed.

End PyStrFacts.

Module IngestionFacts.
Import PyStrFacts Ingestion FileProcessors.

Section WithRuntime.
Context {rt : Runtime}.

Lemma build_results_nth (filename : pystr) (ips : list pystr) (tds : list table_dict)
    (chunks : list pystr) (k i : nat) :
  nth_error (build_results filename ips tds (enumerate_from k chunks)) i =
  option_map (make_item filename ips tds (k + i)) (nth_error chunks i).
Proof.
  revert k i. induction chunks as [|c chunks IH]; intros k i.
  - destruct i; reflexivity.
  - destruct i as [|i]; simpl.
    + now rewrite Nat.add_0_r.
    + rewrite IH. now rewrite Nat.add_succ_comm.
Qed.

Lemma build_results_length (filename : pystr) (ips : list pystr)
    (tds : list table_dict) (chunks : list pystr) (k : nat) :
  List.length (build_results filename ips tds (enumerate_from k chunks)) =
  List.length chunks.
Proof.
  revert k. induction chunks as [|c chunks IH]; intros k; simpl;
    [reflexivity | now rewrite IH].
Qed.

(** A successful call went through extraction, splitting and linking. *)
Lemma load_and_split_inv (filename : pystr) (file_bytes : bytes) (cs co : Z)
    (results : list item) :
  load_and_split filename file_bytes cs co = Ok results ->
  exists text ips tds chunks,
    mem (extension filename) SUPPORTED_EXTENSIONS = true /\
    extract_by_ext (extension filename) filename file_bytes = Ok (text, ips, tds) /\
    split_text cs co text = Ok chunks /\
    results = build_results filename ips tds (enumerate chunks).
Proof.
  unfold load_and_split, extract_split_link.
  destruct (mem (extension filename) SUPPORTED_EXTENSIONS); simpl; [|discriminate].
  destruct (extract_by_ext (extension filename) filename file_bytes)
    as [[[text ips] tds]|e]; simpl; [|discriminate].
  destruct (split_text cs co text) as [chunks|e] eqn:Hsplit; simpl; [|discriminate].
  intros H. injection H as <-. now exists text, ips, tds, chunks.
Qed.

Lemma if_nonempty_In {A : Type} (x : A) (l : list A) :
  (exists l', if_nonempty l = Some l' /\ In x l') <-> In x l.
Proof.
  split.
  - intros [l' [H Hin]]. destruct l; simpl in H; [discriminate|].
    injection H as <-. exact Hin.
  - intros Hin. destruct l as [|y l]; [contradiction|].
    exists (y :: l). now split.
Qed.

Lemma table_attached_make_item (filename : pystr) (ips : list pystr)
    (tds : list table_dict) (i : nat) (c : pystr) (td : table_dict) :
  table_attached td (make_item filename ips tds i c) <->
  In td tds /\ substring_of (table_ref filename td) c.
Proof.
  unfold table_attached, make_item; simpl.
  rewrite if_nonempty_In. unfold chunk_tables. rewrite filter_In.
  now rewrite contains_iff.
Qed.

Lemma image_attached_make_item (filename : pystr) (ips : list pystr)
    (tds : list table_dict) (i : nat) (c : pystr) (p : pystr) :
  image_attached p (make_item filename ips tds i c) <->
  In p ips /\ substring_of (PyPath.name p) c.
Proof.
  unfold image_attached, make_item; simpl.
  rewrite if_nonempty_In. unfold chunk_images. rewrite filter_In.
  now rewrite contains_iff.
Qed.

End WithRuntime.
End IngestionFacts.

(* ================================================================== *)
(** ** services/ingestion.py: chunk metadata and artifact linking *)

Module IngestionClaims.
Import PyStrFacts Ingestion FileProcessors IngestionFacts.

Section WithRuntime.
Context {rt : Runtime}.

(** C2, as the code has it.  For every chunk [load_and_split] produces and
    every table or image extracted from the same document, the artifact is
    attached to the chunk's metadata exactly when the string the linking
    loop searches for ([table_ref] for a table, the file name of the path
    for an image) is a literal substring of the chunk's content.  So a
    search string that is in neither of two adjacent chunks attaches the
    artifact to neither, one inside a chunk attaches it to that chunk, and
    an artifact is attached to every chunk that contains its search string.
    The search string is not the token the extractor embeds: for an image it
    is the file name at the end of the token. *)
Theorem load_and_split_links_iff (filename : pystr) (file_bytes : bytes)
    (chunk_size chunk_overlap : Z) (results : list item) :
  load_and_split filename file_bytes chunk_size chunk_overlap = Ok results ->
  exists text image_paths tables_data chunks,
    extract_by_ext (extension filename) filename file_bytes
      = Ok (text, image_paths, tables_data) /\
    split_text chunk_size chunk_overlap text = Ok chunks /\
    List.length results = List.length chunks /\
    forall i c, nth_error chunks i = Some c ->
      exists it, nth_error results i = Some it /\ content it = c /\
        (forall td, In td tables_data ->
           (table_attached td it <-> substring_of (table_ref filename td) c)) /\
        (forall p, In p image_paths ->
           (image_attached p it <-> substring_of (PyPath.name p) c)) /\
        (forall td, table_attached td it -> In td tables_data) /\
        (forall p, image_attached p it -> In p image_paths).
Proof.
  intros H. apply load_and_split_inv in H.
  destruct H as [text [ips [tds [chunks [_ [Hex [Hsp ->]]]]]]].
  exists text, ips, tds, chunks. repeat split; try assumption.
  - apply build_results_length.
  - intros i c Hc. exists (make_item filename ips tds i c).
    unfold enumerate. rewrite build_results_nth, Hc. simpl.
    split; [reflexivity|]. split; [reflexivity|].
    repeat split.
    + intros Ha. now apply table_attached_make_item in Ha.
    + intros Hs. now apply table_attached_make_item.
    + intros Ha. now apply image_attached_make_item in Ha.
    + intros Hs. now apply image_attached_make_item.
    + intros td Ha. now apply table_attached_make_item in Ha.
    + intros p Ha. now apply image_attached_make_item in Ha.
Qed.

(** C9.  After a successful [load_and_split], the result at position [i]
    carries [source] equal to the input file name and [chunk] equal to [i]:
    as many results as the splitter gave chunks, in its order, numbered from
    zero without gaps; the citation tag of the answer generator for it reads
    [source=<filename>, chunk=<i>] in square brackets. *)
Theorem load_and_split_chunk_indices (filename : pystr) (file_bytes : bytes)
    (chunk_size chunk_overlap : Z) (results : list item) :
  load_and_split filename file_bytes chunk_size chunk_overlap = Ok results ->
  exists text image_paths tables_data chunks,
    extract_by_ext (extension filename) filename file_bytes
      = Ok (text, image_paths, tables_data) /\
    split_text chunk_size chunk_overlap text = Ok chunks /\
    List.length results = List.length chunks /\
    forall i, i < List.length chunks ->
      exists it, nth_error results i = Some it /\
        nth_error chunks i = Some (content it) /\
        source (metadata it) = filename /\
        chunk (metadata it) = i /\
        citation_tag (metadata it) =
          str "[source=" ++ filename ++ str ", chunk=" ++ of_nat i ++ str "]".
Proof.
  intros H. apply load_and_split_inv in H.
  destruct H as [text [ips [tds [chunks [_ [Hex [Hsp ->]]]]]]].
  exists text, ips, tds, chunks. repeat split; try assumption.
  - apply build_results_length.
  - intros i Hi. apply nth_error_Some in Hi.
    destruct (nth_error chunks i) as [c|] eqn:Hc; [|congruence].
    exists (make_item filename ips tds i c).
    unfold enumerate. rewrite build_results_nth, Hc. simpl.
    repeat split.
Qed.

(** C4, as the code has it.  [load_and_split] raises
    [ValueError("Unsupported file type: <ext>")] for every file name whose
    lower-cased extension is outside [.pdf], [.docx], [.txt], [.md]; for an
    extension in that set the guard lets the call through and the outcome
    is that of extraction, splitting and linking. *)
Theorem load_and_split_extension_guard (filename : pystr) (file_bytes : bytes)
    (chunk_size chunk_overlap : Z) :
  (~ In (extension filename) [str ".pdf"; str ".docx"; str ".txt"; str ".md"] ->
   load_and_split filename file_bytes chunk_size chunk_overlap =
     Raise (ValueError (str "Unsupported file type: " ++ extension filename))) /\
  (In (extension filename) [str ".pdf"; str ".docx"; str ".txt"; str ".md"] ->
   load_and_split filename file_bytes chunk_size chunk_overlap =
     extract_split_link (extension filename) filename file_bytes
       chunk_size chunk_overlap).
Proof.
  assert (Hiff := mem_In (extension filename) SUPPORTED_EXTENSIONS).
  unfold load_and_split.
  destruct (mem (extension filename) SUPPORTED_EXTENSIONS); simpl; split;
    intros H; try reflexivity.
  - exfalso. apply H. now apply Hiff.
  - pose proof (proj2 Hiff H). discriminate.
Qed.

End WithRuntime.

(** C4, as the specification words it, fails: [.doc] is in the specification's
    set of supported extensions, and [load_and_split] rejects it. *)
Lemma load_and_split_rejects_doc :
  In (@extension Demo.report_rt (str "notes.doc")) Spec.supported_extensions /\
  @load_and_split Demo.report_rt (str "notes.doc") (Demo.ascii_bytes "hello") 800 120 =
    Raise (ValueError (str "Unsupported file type: .doc")).
Proof.
  split.
  - vm_compute. right. right. left. reflexivity.
  - vm_compute. reflexivity.
Qed.

(** The guard lets [notes.txt] through. *)
Lemma load_and_split_extension_guard_witness :
  In (@extension Demo.report_rt (str "notes.txt"))
     [str ".pdf"; str ".docx"; str ".txt"; str ".md"] /\
  @load_and_split Demo.report_rt (str "notes.txt") (Demo.ascii_bytes "hello") 800 120 =
    @extract_split_link Demo.report_rt (@extension Demo.report_rt (str "notes.txt"))
      (str "notes.txt") (Demo.ascii_bytes "hello") 800 120.
Proof.
  assert (Hin : In (@extension Demo.report_rt (str "notes.txt"))
                   [str ".pdf"; str ".docx"; str ".txt"; str ".md"]).
  { vm_compute. right. right. left. reflexivity. }
  split; [exact Hin|].
  exact (proj2 (@load_and_split_extension_guard Demo.report_rt (str "notes.txt")
                  (Demo.ascii_bytes "hello") 800%Z 120%Z) Hin).
Defined.

(** The linking property at the upload of [report.pdf], in one chunk. *)
Lemma load_and_split_links_iff_witness :
  exists results,
    @load_and_split Demo.report_rt (str "report.pdf") [] 1000 200 = Ok results /\
    exists text image_paths tables_data chunks,
      @extract_by_ext Demo.report_rt (@extension Demo.report_rt (str "report.pdf"))
        (str "report.pdf") [] = Ok (text, image_paths, tables_data) /\
      @split_text Demo.report_rt 1000 200 text = Ok chunks /\
      List.length results = List.length chunks /\
      forall i c, nth_error chunks i = Some c ->
        exists it, nth_error results i = Some it /\ content it = c /\
          (forall td, In td tables_data ->
             (table_attached td it <-> substring_of (table_ref (str "report.pdf") td) c)) /\
          (forall p, In p image_paths ->
             (image_attached p it <-> substring_of (PyPath.name p) c)) /\
          (forall td, table_attached td it -> In td tables_data) /\
          (forall p, image_attached p it -> In p image_paths).
Proof.
  eexists. split.
  - vm_compute. reflexivity.
  - apply (@load_and_split_links_iff Demo.report_rt). vm_compute. reflexivity.
Defined.

(** The numbering at a text file cut into three chunks. *)
Lemma load_and_split_chunk_indices_witness :
  exists results,
    @load_and_split Demo.report_rt (str "notes.txt") (Demo.ascii_bytes "hello world") 4 0
      = Ok results /\
    exists text image_paths tables_data chunks,
      @extract_by_ext Demo.report_rt (@extension Demo.report_rt (str "notes.txt"))
        (str "notes.txt") (Demo.ascii_bytes "hello world")
        = Ok (text, image_paths, tables_data) /\
      @split_text Demo.report_rt 4 0 text = Ok chunks /\
      List.length results = List.length chunks /\
      forall i, i < List.length chunks ->
        exists it, nth_error results i = Some it /\
          nth_error chunks i = Some (content it) /\
          source (metadata it) = str "notes.txt" /\
          chunk (metadata it) = i /\
          citation_tag (metadata it) =
            str "[source=" ++ str "notes.txt" ++ str ", chunk=" ++ of_nat i ++ str "]".
Proof.
  eexists. split.
  - vm_compute. reflexivity.
  - apply (@load_and_split_chunk_indices Demo.report_rt). vm_compute. reflexivity.
Defined.

(** A chunk boundary inside a file name: cut every 100 characters, the text of
    [report.pdf] gives two chunks and the image's file name straddles them;
    it is in the text, in neither chunk, and the image is attached to
    neither. *)
Example split_token_links_to_neither :
  exists it0 it1,
    @load_and_split Demo.report_rt (str "report.pdf") [] 100 0 = Ok [it0; it1] /\
    substring_of (str "report_page1_img1.png") (content it0 ++ content it1) /\
    ~ substring_of (str "report_page1_img1.png") (content it0) /\
    ~ substring_of (str "report_page1_img1.png") (content it1) /\
    images (metadata it0) = None /\
    images (metadata it1) = None.
Proof.
  do 2 eexists. split; [vm_compute; reflexivity|].
  split; [apply contains_iff; vm_compute; reflexivity|].
  split; [intros H; apply contains_iff in H; vm_compute in H; discriminate|].
  split; [intros H; apply contains_iff in H; vm_compute in H; discriminate|].
  split; reflexivity.
Qed.

(** C1 at a concrete upload.  For [report.pdf] (one page with a table, a
    line of text and an image) the extractor embeds the table token with the
    whole file name, [report.pdf_page1_table1], while the linking loop looks
    for [report_page1_table1].  The single chunk contains the embedded token
    entirely, and the table is not attached; the image, whose token both
    sides build from the stem, is attached. *)
Theorem report_pdf_table_not_linked :
  exists text image_paths td it,
    @read_pdf_with_images Demo.report_rt [] (str "report.pdf")
      = Ok (text, image_paths, [td]) /\
    @load_and_split Demo.report_rt (str "report.pdf") [] 1000 200 = Ok [it] /\
    content it = text /\
    substring_of (table_token (str "report.pdf") 0 0) (content it) /\
    table_token (str "report.pdf") 0 0
      = str "[Trang 1] Bảng 1: report.pdf_page1_table1" /\
    table_ref (str "report.pdf") td = str "report_page1_table1" /\
    ~ substring_of (table_ref (str "report.pdf") td) (content it) /\
    tables (metadata it) = None /\
    images (metadata it) = Some image_paths /\
    image_paths = [str "extracted_images/report_page1_img1.png"].
Proof.
  do 4 eexists. split; [vm_compute; reflexivity|].
  split; [vm_compute; reflexivity|].
  split; [reflexivity|].
  split; [apply contains_iff; vm_compute; reflexivity|].
  split; [vm_compute; reflexivity|].
  split; [vm_compute; reflexivity|].
  split.
  - intros Hs. apply contains_iff in Hs. vm_compute in Hs. discriminate.
  - repeat split; vm_compute; reflexivity.
Qed.

End IngestionClaims.

(* ================================================================== *)
(** ** Counting page markers *)

Module CountFacts.
Import PyStrFacts FileProcessors.

Lemma TRANG_chars : TRANG = [91; 84; 114; 97; 110; 103; 32]%N.
Proof. reflexivity. Qed.

(** A pending skip only moves the scan forward. *)
Lemma count_from_skipn (pat : pystr) (k : nat) (s : pystr) :
  count_from pat k s = count_from pat 0 (skipn k s).
Proof.
  revert k. induction s as [|c s IH]; intros k.
  - now destruct k.
  - destruct k as [|k]; [reflexivity|]. simpl. apply IH.
Qed.

Lemma occurrences_cons_nomatch (pat : pystr) (c : N) (s : pystr) :
  startswith pat (c :: s) = false ->
  occurrences pat (c :: s) = occurrences pat s.
Proof. intros H. simpl occurrences. now rewrite H. Qed.

(** The marker does not overlap itself: behind its first character no
    other occurrence starts before its end. *)
Lemma occurrences_TRANG_tail (r : pystr) :
  occurrences TRANG (84 :: 114 :: 97 :: 110 :: 103 :: 32 :: r)%N = occurrences TRANG r.
Proof.
  rewrite TRANG_chars.
  repeat (rewrite occurrences_cons_nomatch; [|reflexivity]). reflexivity.
Qed.

Lemma count_from_cons (pat : pystr) (c : N) (s : pystr) :
  count_from pat 0 (c :: s) =
  if startswith pat (c :: s)
  then S (count_from pat 0 (skipn (List.length pat - 1) s))
  else count_from pat 0 s.
Proof.
  simpl count_from. destruct (startswith pat (c :: s)); [|reflexivity].
  now rewrite count_from_skipn.
Qed.

Lemma occurrences_cons (pat : pystr) (c : N) (s : pystr) :
  occurrences pat (c :: s) =
  (if startswith pat (c :: s) then 1 else 0) + occurrences pat s.
Proof. reflexivity. Qed.

Lemma count_from_TRANG_occurrences (n : nat) (s : pystr) :
  List.length s <= n -> count_from TRANG 0 s = occurrences TRANG s.
Proof.
  revert s. induction n as [|n IH]; intros s Hlen.
  - destruct s; [reflexivity | simpl in Hlen; lia].
  - destruct s as [|c s]; [reflexivity|].
    simpl in Hlen.
    rewrite count_from_cons, occurrences_cons.
    destruct (startswith TRANG (c :: s)) eqn:Hsw.
    + destruct (startswith_inv _ _ Hsw) as [r Hr].
      rewrite TRANG_chars in Hr. simpl in Hr. injection Hr as _ Hs.
      rewrite Hs in *.
      rewrite occurrences_TRANG_tail.
      change (skipn (List.length TRANG - 1) (84 :: 114 :: 97 :: 110 :: 103 :: 32 :: r)%N)
        with r.
      rewrite IH; [reflexivity|]. simpl in Hlen. lia.
    + apply IH. lia.
Qed.

(** For the page marker, [str.count] counts the positions of occurrence. *)
Lemma count_TRANG_occurrences (s : pystr) : count TRANG s = occurrences TRANG s.
Proof.
  change (count TRANG s) with (count_from TRANG 0 s).
  now apply count_from_TRANG_occurrences with (n := List.length s).
Qed.

Lemma occurrences_app_le (pat a s : pystr) :
  occurrences pat s <= occurrences pat (a ++ s).
Proof.
  induction a as [|c a IH]; [apply Nat.le_refl|].
  simpl app. simpl occurrences. lia.
Qed.

Lemma occurrences_prefix (pat r : pystr) :
  pat <> [] -> S (occurrences pat r) <= occurrences pat (pat ++ r).
Proof.
  intros Hne. destruct pat as [|c pat]; [congruence|].
  change (occurrences (c :: pat) ((c :: pat) ++ r))
    with ((if startswith (c :: pat) ((c :: pat) ++ r) then 1 else 0)
          + occurrences (c :: pat) (pat ++ r)).
  rewrite startswith_app.
  pose proof (occurrences_app_le (c :: pat) pat r). lia.
Qed.

Lemma occurrences_none (pat s : pystr) :
  contains pat s = false -> occurrences pat s = 0.
Proof.
  induction s as [|c s IH]; rewrite contains_unfold; intros H;
    apply orb_false_iff in H; destruct H as [H1 H2].
  - simpl. now rewrite H1.
  - simpl occurrences. rewrite H1, IH by assumption. reflexivity.
Qed.

(** Entries that each start with the marker give at least one occurrence
    apiece once joined. *)
Lemma occurrences_join (pat sep : pystr) (l : list pystr) :
  pat <> [] ->
  Forall (fun t => startswith pat t = true) l ->
  List.length l <= occurrences pat (join sep l).
Proof.
  intros Hne Hall. induction Hall as [|t l Ht Hall IH]; [apply Nat.le_0_l|].
  destruct (startswith_inv _ _ Ht) as [r ->].
  destruct l as [|t' l].
  - simpl. pose proof (occurrences_prefix r Hne).
    pose proof (Nat.le_0_l (occurrences pat r)). lia.
  - change (join sep ((pat ++ r) :: t' :: l))
      with ((pat ++ r) ++ sep ++ join sep (t' :: l)).
    rewrite <- app_assoc.
    pose proof (occurrences_prefix (r ++ sep ++ join sep (t' :: l)) Hne).
    pose proof (occurrences_app_le pat (r ++ sep) (join sep (t' :: l))) as Hle.
    rewrite <- app_assoc in Hle.
    simpl List.length in *. lia.
Qed.

End CountFacts.

(* ================================================================== *)
(** ** utils/file_processors.py: what the extraction loop appends *)

Module FileProcessorsFacts.
Import PyStrFacts FileProcessors CountFacts.

Section WithRuntime.
Context {rt : Runtime}.

Lemma marked_snoc (l : list pystr) (r : pystr) :
  marked l -> marked (l ++ [TRANG ++ r]).
Proof.
  intros H. apply Forall_app. split; [exact H|].
  constructor; [apply startswith_app | constructor].
Qed.

Lemma tables_loop_inv (filename : pystr) (pn : nat) (tables : list (nat * fitz_table))
    (st : pdf_acc) (pt : list table_dict) :
  marked (texts st) ->
  let st' := fst (tables_loop filename pn tables st pt) in
  marked (texts st') /\
  List.length (texts st') + List.length (tables_data st)
    = List.length (texts st) + List.length (tables_data st') /\
  image_paths st' = image_paths st.
Proof.
  revert st pt. induction tables as [|[ti t] tables IH]; intros st pt Hm.
  - simpl. auto.
  - simpl. destruct (table_try t) as [[df|]|e].
    + specialize (IH (mkAcc (texts st ++ [table_token filename pn ti])
                         (image_paths st)
                         (tables_data st ++ [mkTableDict (pn + 1) ti df (tbl_bbox t)]))
                     (pt ++ [mkTableDict (pn + 1) ti df (tbl_bbox t)])).
      simpl in IH. destruct IH as [H1 [H2 H3]].
      { cbn [texts]. unfold table_token. apply marked_snoc. exact Hm. }
      split; [exact H1|]. split; [|exact H3].
      rewrite !length_app in H2. simpl in H2. lia.
    + apply IH. exact Hm.
    + apply IH. exact Hm.
Qed.

Lemma images_loop_inv (filename : pystr) (pn : nat)
    (imgs : list (nat * result pixmap)) (st st' : pdf_acc) :
  images_loop filename pn imgs st = Ok st' ->
  marked (texts st) ->
  marked (texts st') /\
  List.length (texts st') + List.length (image_paths st)
    = List.length (texts st) + List.length (image_paths st') /\
  tables_data st' = tables_data st.
Proof.
  revert st. induction imgs as [|[ii img] imgs IH]; intros st H Hm.
  - simpl in H. injection H as <-. auto.
  - simpl in H. destruct img as [pix|e]; simpl in H; [|discriminate].
    destruct (pix_n pix - pix_alpha pix <? 4)%Z.
    + destruct (pix_save pix) as [u|e]; simpl in H; [|discriminate].
      apply IH in H.
      * simpl in H. destruct H as [H1 [H2 H3]].
        split; [exact H1|]. split; [|exact H3].
        rewrite !length_app in H2. simpl in H2. lia.
      * cbn [texts]. unfold image_token. apply marked_snoc. exact Hm.
    + apply IH; assumption.
Qed.

Lemma page_step_inv (filename : pystr) (pn : nat) (page : fitz_page)
    (st st' : pdf_acc) (n : nat) :
  page_step filename pn page st = Ok st' ->
  marked (texts st) ->
  List.length (texts st)
    = List.length (tables_data st) + List.length (image_paths st) + n ->
  marked (texts st') /\
  List.length (texts st')
    = List.length (tables_data st') + List.length (image_paths st')
      + (n + (if yields_text page then 1 else 0)).
Proof.
  unfold page_step, yields_text. intros H Hm Hlen.
  destruct (find_tables page) as [tables|e]; simpl in H; [|discriminate].
  pose proof (tables_loop_inv filename pn (enumerate tables) st [] Hm) as Ht.
  destruct (tables_loop filename pn (enumerate tables) st []) as [st1 pt].
  simpl in Ht. destruct Ht as [Hm1 [Hl1 Hi1]].
  destruct (get_text page) as [text|e]; simpl in H; [|discriminate].
  destruct (get_images page) as [imgs|e]; simpl in H; [|discriminate].
  apply images_loop_inv in H.
  - destruct H as [Hm2 [Hl2 Ht2]]. split; [exact Hm2|].
    destruct (truthy (strip text)).
    + assert (Hs : List.length (texts st') + List.length (image_paths st1)
                   = S (List.length (texts st1)) + List.length (image_paths st')
                   /\ tables_data st' = tables_data st1).
      { destruct pt; simpl in Hl2, Ht2; rewrite length_app in Hl2; simpl in Hl2;
          split; try assumption; lia. }
      destruct Hs as [Hs1 Hs2]. rewrite Hs2. rewrite Hi1 in Hs1. lia.
    + rewrite Ht2. rewrite Hi1 in Hl2. lia.
  - destruct (truthy (strip text)); [|exact Hm1].
    unfold page_text_entry.
    destruct pt; cbn [texts]; apply marked_snoc; exact Hm1.
Qed.

Lemma pages_loop_inv (filename : pystr) (pages : list fitz_page) (k : nat)
    (st st' : pdf_acc) (n : nat) :
  pages_loop filename (enumerate_from k pages) st = Ok st' ->
  marked (texts st) ->
  List.length (texts st)
    = List.length (tables_data st) + List.length (image_paths st) + n ->
  marked (texts st') /\
  List.length (texts st')
    = List.length (tables_data st') + List.length (image_paths st')
      + (n + text_pages pages).
Proof.
  revert k st n. induction pages as [|page pages IH]; intros k st n H Hm Hlen.
  - simpl in H. injection H as <-. split; [exact Hm|].
    unfold text_pages. simpl. lia.
  - simpl in H.
    destruct (page_step filename k page st) as [st1|e] eqn:Hstep; simpl in H;
      [|discriminate].
    destruct (page_step_inv _ _ _ _ _ Hstep Hm Hlen) as [Hm1 Hl1].
    destruct (IH _ _ _ H Hm1 Hl1) as [Hm2 Hl2].
    split; [exact Hm2|]. rewrite Hl2. unfold text_pages. simpl.
    destruct (yields_text page); simpl; lia.
Qed.

(** The extracted text holds one marker for every kept table, every saved
    image and every page with text, at least. *)
Lemma read_pdf_with_images_markers (file_bytes : bytes) (filename : pystr)
    (doc : fitz_doc) (text : pystr) (ips : list pystr) (tds : list table_dict) :
  fitz_open file_bytes = Ok doc ->
  read_pdf_with_images file_bytes filename = Ok (text, ips, tds) ->
  text_pages doc + List.length tds + List.length ips <= count TRANG text.
Proof.
  unfold read_pdf_with_images. intros Hopen H.
  destruct mkdir_images as [u|e]; simpl in H; [|discriminate].
  rewrite Hopen in H. simpl in H.
  destruct (pages_loop filename (enumerate doc) (mkAcc [] [] [])) as [st|e] eqn:Hl;
    simpl in H; [|discriminate].
  injection H as <- <- <-.
  apply pages_loop_inv with (n := 0) in Hl; [|constructor|reflexivity].
  destruct Hl as [Hm Hlen].
  rewrite count_TRANG_occurrences.
  assert (Hne : TRANG <> []) by (rewrite TRANG_chars; discriminate).
  pose proof (occurrences_join (LF ++ LF) Hne Hm) as Hocc.
  change (10%N :: LF) with (LF ++ LF). lia.
Qed.

End WithRuntime.
End FileProcessorsFacts.

(* ================================================================== *)
(** ** routers/file_router.py *)

Module RouterClaims.
Import PyStrFacts FileProcessors CountFacts FileProcessorsFacts Router.

(** An error message that starts with a literal is not empty. *)
Ltac message_nonempty := cbn; discriminate.

Section WithRuntime.
Context {rt : Runtime}.

(** The built-in handlers catch everything themselves. *)
Lemma default_handlers_total (t : FileType) (h : handler) (filename : pystr)
    (file_bytes : bytes) :
  _handlers t = Some h -> exists r, h filename file_bytes = Ok r.
Proof.
  destruct t; simpl; intros H; try discriminate; injection H as <-.
  - unfold _handle_pdf.
    destruct (read_pdf_with_images file_bytes filename) as [[[tx ips] tds]|e];
      [eexists; reflexivity|].
    destruct (read_pdf file_bytes); eexists; reflexivity.
  - unfold _handle_docx. destruct (read_docx file_bytes) as [tx|e];
      [|eexists; reflexivity].
    destruct (negb (truthy tx) || negb (truthy (strip tx))); eexists; reflexivity.
  - unfold _handle_docx. destruct (read_docx file_bytes) as [tx|e];
      [|eexists; reflexivity].
    destruct (negb (truthy tx) || negb (truthy (strip tx))); eexists; reflexivity.
  - unfold _handle_txt. destruct (read_txt file_bytes) as [tx|e];
      [|eexists; reflexivity].
    destruct (negb (truthy tx) || negb (truthy (strip tx))); eexists; reflexivity.
  - unfold _handle_md. destruct (read_md file_bytes) as [tx|e];
      [|eexists; reflexivity].
    destruct (negb (truthy tx) || negb (truthy (strip tx))); eexists; reflexivity.
Qed.

(** A failed result of a built-in handler has no content and a message. *)
Lemma default_handlers_failure (t : FileType) (h : handler) (filename : pystr)
    (file_bytes : bytes) (r : ProcessingResult) :
  _handlers t = Some h -> h filename file_bytes = Ok r -> success r = false ->
  content r = [] /\ error r <> [].
Proof.
  destruct t; simpl; intros H; try discriminate; injection H as <-.
  - unfold _handle_pdf.
    destruct (read_pdf_with_images file_bytes filename) as [[[tx ips] tds]|e].
    + intros Hr Hs. injection Hr as <-. discriminate.
    + destruct (read_pdf file_bytes); intros Hr Hs; injection Hr as <-;
        [discriminate|]. split; [reflexivity | message_nonempty].
  - unfold _handle_docx. destruct (read_docx file_bytes) as [tx|e].
    + destruct (negb (truthy tx) || negb (truthy (strip tx)));
        intros Hr Hs; injection Hr as <-; [|discriminate].
      split; [reflexivity | message_nonempty].
    + intros Hr Hs; injection Hr as <-. split; [reflexivity | message_nonempty].
  - unfold _handle_docx. destruct (read_docx file_bytes) as [tx|e].
    + destruct (negb (truthy tx) || negb (truthy (strip tx)));
        intros Hr Hs; injection Hr as <-; [|discriminate].
      split; [reflexivity | message_nonempty].
    + intros Hr Hs; injection Hr as <-. split; [reflexivity | message_nonempty].
  - unfold _handle_txt. destruct (read_txt file_bytes) as [tx|e].
    + destruct (negb (truthy tx) || negb (truthy (strip tx)));
        intros Hr Hs; injection Hr as <-; [|discriminate].
      split; [reflexivity | message_nonempty].
    + intros Hr Hs; injection Hr as <-. split; [reflexivity | message_nonempty].
  - unfold _handle_md. destruct (read_md file_bytes) as [tx|e].
    + destruct (negb (truthy tx) || negb (truthy (strip tx)));
        intros Hr Hs; injection Hr as <-; [|discriminate].
      split; [reflexivity | message_nonempty].
    + intros Hr Hs; injection Hr as <-. split; [reflexivity | message_nonempty].
Qed.

(** What the built-in handlers make of a fault of their extractor: a failed
    result with the message, except that a fault of the advanced PDF
    extractor starts the fallback reader and is kept as [fallback_reason]
    when that one succeeds. *)
Lemma builtin_handlers_on_faults (filename : pystr) (file_bytes : bytes) (e : exn) :
  (read_docx file_bytes = Raise e ->
   _handle_docx filename file_bytes
     = Ok (failed DOCX (str "DOCX processing failed: " ++ exn_str e))) /\
  (read_md file_bytes = Raise e ->
   _handle_md filename file_bytes
     = Ok (failed MD (str "Markdown processing failed: " ++ exn_str e))) /\
  (forall e1, read_pdf_with_images file_bytes filename = Raise e1 ->
   read_pdf file_bytes = Raise e ->
   _handle_pdf filename file_bytes
     = Ok (failed PDF (str "Both PDF processing methods failed: " ++ exn_str e))) /\
  (forall text, read_pdf_with_images file_bytes filename = Raise e ->
   read_pdf file_bytes = Ok text ->
   exists r, _handle_pdf filename file_bytes = Ok r /\ success r = true /\
     dict_get (str "fallback_reason") (metadata r) = Some (VStr (exn_str e))).
Proof.
  repeat split.
  - intros H. unfold _handle_docx. now rewrite H.
  - intros H. unfold _handle_md. now rewrite H.
  - intros e1 H1 H2. unfold _handle_pdf. now rewrite H1, H2.
  - intros text H1 H2. unfold _handle_pdf. rewrite H1, H2.
    eexists. repeat split.
Qed.

(** Whatever the dispatch table holds, [route_file] returns a
    [ProcessingResult] for every file name and byte string and raises
    nothing; when the handler it dispatches to raises [e], the result is a
    failed one whose [error] is ["Processing error: " + str(e)], so it
    contains the fault message.  (The router's own handlers never raise, see
    [default_handlers_total].) *)
Theorem route_file_never_raises (handlers : FileType -> option handler)
    (st : stats) (filename : pystr) (file_bytes : bytes) :
  exists r, fst (route_file handlers st filename file_bytes) = Ok r /\
    forall h e,
      detect_file_type filename <> UNKNOWN ->
      handlers (detect_file_type filename) = Some h ->
      h filename file_bytes = Raise e ->
      success r = false /\
      error r = str "Processing error: " ++ exn_str e /\
      substring_of (exn_str e) (error r).
Proof.
  unfold route_file.
  destruct (FileType_eqb (detect_file_type filename) UNKNOWN) eqn:Hu.
  - eexists. split; [reflexivity|]. intros h e Hne.
    destruct (detect_file_type filename); simpl in Hu; congruence.
  - destruct (handlers (detect_file_type filename)) as [h0|] eqn:Hh.
    + destruct (h0 filename file_bytes) as [r0|e0] eqn:Hcall.
      * exists r0. split; [reflexivity|]. intros h e _ Hsome Hraise.
        injection Hsome as <-. congruence.
      * eexists. split; [reflexivity|]. intros h e _ Hsome Hraise.
        injection Hsome as <-. rewrite Hcall in Hraise. injection Hraise as <-.
        split; [reflexivity|]. split; [reflexivity|].
        exists (str "Processing error: "), []. simpl error.
        now rewrite app_nil_r.
    + eexists. split; [reflexivity|]. intros h e _ Hsome. discriminate.
Qed.

(** C6.  With the router's own dispatch table, every result of [route_file]
    that has [success = False] has empty [content] and a non-empty [error],
    on each failure path: unknown extension, missing handler, failure
    reported by the handler, exception caught around the handler. *)
Theorem route_file_failure_invariant (st : stats) (filename : pystr)
    (file_bytes : bytes) (r : ProcessingResult) :
  fst (route_file _handlers st filename file_bytes) = Ok r ->
  success r = false ->
  content r = [] /\ error r <> [].
Proof.
  unfold route_file.
  destruct (FileType_eqb (detect_file_type filename) UNKNOWN).
  - simpl. intros H _. injection H as <-.
    split; [reflexivity | message_nonempty].
  - destruct (_handlers (detect_file_type filename)) as [h|] eqn:Hh.
    + destruct (h filename file_bytes) as [r0|e0] eqn:Hcall; simpl;
        intros H Hs; injection H as <-.
      * exact (default_handlers_failure _ _ _ Hh Hcall Hs).
      * split; [reflexivity | message_nonempty].
    + simpl. intros H _. injection H as <-.
      split; [reflexivity | message_nonempty].
Qed.

(** The same invariant for any dispatch table whose handlers keep it: the
    three failure results [route_file] builds itself always satisfy it. *)
Lemma route_file_own_failures (handlers : FileType -> option handler)
    (st : stats) (filename : pystr) (file_bytes : bytes) (r : ProcessingResult) :
  (forall h r0, handlers (detect_file_type filename) = Some h ->
     h filename file_bytes = Ok r0 -> success r0 = false ->
     content r0 = [] /\ error r0 <> []) ->
  fst (route_file handlers st filename file_bytes) = Ok r ->
  success r = false ->
  content r = [] /\ error r <> [].
Proof.
  intros Hh. unfold route_file.
  destruct (FileType_eqb (detect_file_type filename) UNKNOWN).
  - simpl. intros H _. injection H as <-.
    split; [reflexivity | message_nonempty].
  - destruct (handlers (detect_file_type filename)) as [h|] eqn:Hd.
    + destruct (h filename file_bytes) as [r0|e0] eqn:Hcall; simpl;
        intros H Hs; injection H as <-.
      * exact (Hh _ _ eq_refl Hcall Hs).
      * split; [reflexivity | message_nonempty].
    + simpl. intros H _. injection H as <-.
      split; [reflexivity | message_nonempty].
Qed.

(** C10, as the code has it.  When the advanced extractor succeeds,
    [_handle_pdf] reports as [page_count] the number of occurrences of the
    page marker in the extracted text (1 when there is none).  Every kept
    table, every saved image and every page with text contributes a marker,
    so [page_count] is at least their total; it is above the document's page
    count whenever every page yielded text and at least one table or image
    was extracted. *)
Theorem handle_pdf_page_count (filename : pystr) (file_bytes : bytes)
    (doc : fitz_doc) (text : pystr) (image_paths : list pystr)
    (tables_data : list table_dict) :
  fitz_open file_bytes = Ok doc ->
  read_pdf_with_images file_bytes filename = Ok (text, image_paths, tables_data) ->
  exists r,
    _handle_pdf filename file_bytes = Ok r /\
    success r = true /\
    dict_get (str "processing_method") (metadata r)
      = Some (VStr (str "pymupdf_advanced")) /\
    dict_get (str "page_count") (metadata r)
      = Some (VInt (if contains (str "[Trang ") text
                    then Z.of_nat (count (str "[Trang ") text) else 1%Z)) /\
    (forall pc, dict_get (str "page_count") (metadata r) = Some (VInt pc) ->
       (Z.of_nat (text_pages doc + List.length tables_data + List.length image_paths)
          <= pc)%Z /\
       (text_pages doc = List.length doc ->
        0 < List.length tables_data + List.length image_paths ->
        (Z.of_nat (List.length doc) < pc)%Z)).
Proof.
  intros Hopen Hread.
  pose proof (read_pdf_with_images_markers _ _ Hopen Hread) as Hmark.
  unfold _handle_pdf. rewrite Hread. eexists. split; [reflexivity|].
  split; [reflexivity|]. split; [reflexivity|]. split; [reflexivity|].
  intros pc Hpc. cbn [metadata] in Hpc.
  change (dict_get (str "page_count") _) with (Some (VInt (page_count_of text))) in Hpc.
  injection Hpc as <-.
  assert (Hle : (Z.of_nat (text_pages doc + List.length tables_data
                           + List.length image_paths) <= page_count_of text)%Z).
  { unfold page_count_of. destruct (contains TRANG text) eqn:Hc.
    - lia.
    - apply occurrences_none in Hc. rewrite count_TRANG_occurrences in Hmark. lia. }
  split; [exact Hle|]. intros Hall Hpos. lia.
Qed.

End WithRuntime.

(** A dispatch table whose text handler raises. *)
Lemma route_file_never_raises_witness :
  exists r,
    fst (@route_file Demo.report_rt Demo.raising_handlers initial_stats
           (str "notes.txt") (Demo.ascii_bytes "hello")) = Ok r /\
    success r = false /\
    error r = str "Processing error: disk unavailable".
Proof.
  destruct (@route_file_never_raises Demo.report_rt Demo.raising_handlers
              initial_stats (str "notes.txt") (Demo.ascii_bytes "hello"))
    as [r [Hr Hraise]].
  exists r. split; [exact Hr|].
  destruct (Hraise (fun _ _ => Raise (mkExn (str "RuntimeError") (str "disk unavailable")))
              (mkExn (str "RuntimeError") (str "disk unavailable")))
    as [Hs [He _]].
  - vm_compute. discriminate.
  - vm_compute. reflexivity.
  - reflexivity.
  - split; [exact Hs|]. rewrite He. vm_compute. reflexivity.
Defined.

(** C6 at an upload with an extension the router does not know. *)
Lemma route_file_failure_invariant_witness :
  fst (@route_file Demo.report_rt (@_handlers Demo.report_rt) initial_stats
         (str "archive.zip") []) =
    Ok (failed UNKNOWN (str "Unsupported file type: .zip")) /\
  success (failed UNKNOWN (str "Unsupported file type: .zip")) = false /\
  content (failed UNKNOWN (str "Unsupported file type: .zip")) = [] /\
  error (failed UNKNOWN (str "Unsupported file type: .zip")) <> [].
Proof.
  assert (H1 : fst (@route_file Demo.report_rt (@_handlers Demo.report_rt) initial_stats
                      (str "archive.zip") []) =
               Ok (failed UNKNOWN (str "Unsupported file type: .zip")))
    by (vm_compute; reflexivity).
  split; [exact H1|]. split; [reflexivity|].
  exact (@route_file_failure_invariant Demo.report_rt initial_stats
           (str "archive.zip") [] _ H1 eq_refl).
Defined.

(** C10, as the specification words it, fails: the two-page [cover.pdf] has
    text and an image on its first page and a blank second page; the image
    was extracted from a page that yielded text, and the reported
    [page_count] is 2, not above the document's two pages. *)
Lemma cover_pdf_page_count_not_above :
  exists doc r,
    @fitz_open Demo.cover_rt [] = Ok doc /\
    List.length doc = 2 /\
    @_handle_pdf Demo.cover_rt (str "cover.pdf") [] = Ok r /\
    success r = true /\
    images r = [str "extracted_images/cover_page1_img1.png"] /\
    nth_error doc 0 = Some Demo.picture_page /\
    yields_text Demo.picture_page = true /\
    dict_get (str "page_count") (metadata r) = Some (VInt 2) /\
    ~ (Z.of_nat (List.length doc) < 2)%Z.
Proof.
  do 2 eexists. split; [reflexivity|].
  split; [reflexivity|].
  split; [vm_compute; reflexivity|].
  split; [reflexivity|].
  split; [vm_compute; reflexivity|].
  split; [reflexivity|].
  split; [vm_compute; reflexivity|].
  split; [vm_compute; reflexivity|].
  simpl. lia.
Qed.

(** [report.pdf]: one page with text, one table, one image; three markers. *)
Lemma handle_pdf_page_count_witness :
  exists r,
    @_handle_pdf Demo.report_rt (str "report.pdf") [] = Ok r /\
    success r = true /\
    dict_get (str "page_count") (metadata r) = Some (VInt 3) /\
    (Z.of_nat (List.length [Demo.report_page]) < 3)%Z.
Proof.
  destruct (@handle_pdf_page_count Demo.report_rt (str "report.pdf") []
              [Demo.report_page]
              (str "[Trang 1] Bảng 1: report.pdf_page1_table1" ++ LF ++ LF
               ++ str "[Trang 1]" ++ LF ++ str "Quarterly report" ++ LF ++ LF
               ++ str "[Trang 1] Hình ảnh: report_page1_img1.png")
              [str "extracted_images/report_page1_img1.png"]
              [mkTableDict 1 0
                 (mkDataFrame [Some (str "Item"); Some (str "Qty")]
                    [[Some (str "Pen"); Some (str "2")]])
                 Demo.zero_bbox])
    as [r [Hr [Hs [_ [Hpc Hbound]]]]].
  - reflexivity.
  - vm_compute. reflexivity.
  - exists r. split; [exact Hr|]. split; [exact Hs|].
    assert (Hpc3 : dict_get (str "page_count") (metadata r) = Some (VInt 3)).
    { rewrite Hpc. vm_compute. reflexivity. }
    split; [exact Hpc3|].
    apply (proj2 (Hbound 3%Z Hpc3)).
    + vm_compute. reflexivity.
    + vm_compute. lia.
Defined.

End RouterClaims.

(* ================================================================== *)
(** ** routers/content_analyzer.py *)

Module AnalyzerClaims.
Import Router Analyzer.

Lemma Qlt_bool_iff (a b : Q) : Qlt_bool a b = true <-> (a < b)%Q.
Proof.
  unfold Qlt_bool. rewrite negb_true_iff. split.
  - intros H. apply Qnot_le_lt. intros Hle. apply Qle_bool_iff in Hle. congruence.
  - intros H. destruct (Qle_bool b a) eqn:Hb; [|reflexivity].
    apply Qle_bool_iff in Hb. exfalso. exact (Qlt_not_le _ _ H Hb).
Qed.

Section WithRuntime.
Context {rt : Runtime}.

(** What [analyze_content] computes for a successful result with text and
    no artifacts: the score of [_analyze_structure] decides. *)
Lemma analyze_text_only_shape (pr : ProcessingResult) :
  success pr = true ->
  nonblank (content pr) = true ->
  tables pr = [] ->
  images pr = [] ->
  structure_score (analyze_content pr)
    = get_structure_score (Some (_analyze_structure (content pr) (file_type pr))) /\
  (content_type (analyze_content pr), confidence (analyze_content pr))
    = if Qlt_bool (3 # 10)
           (get_structure_score
              (Some (_analyze_structure (content pr) (file_type pr))))
      then (STRUCTURED_TEXT, (9 # 10)%Q)
      else (TEXT_ONLY, (95 # 100)%Q).
Proof.
  intros Hs Hnb Ht Hi. unfold analyze_content.
  rewrite Hs. cbn [negb].
  unfold nonblank in Hnb. rewrite Hnb, Ht, Hi. cbn [List.length Nat.ltb Nat.leb].
  unfold _determine_content_type. cbn [negb andb].
  destruct (Qlt_bool (3 # 10)
              (get_structure_score
                 (Some (_analyze_structure (content pr) (file_type pr)))));
    destruct (_recommend_processing_strategy _ _ _ _ _); split; reflexivity.
Qed.

(** C7.  [analyze_content] on a failed result gives [EMPTY] with confidence
    1.0; on a successful result with non-blank text, no tables and no images
    it gives [STRUCTURED_TEXT] with confidence 0.9 when the structure score
    it computes is above 0.3, and [TEXT_ONLY] with confidence 0.95
    otherwise. *)
Theorem analyze_content_empty_and_text (pr : ProcessingResult) :
  (success pr = false ->
   content_type (analyze_content pr) = EMPTY /\
   confidence (analyze_content pr) = 1%Q) /\
  (success pr = true ->
   nonblank (content pr) = true ->
   tables pr = [] ->
   images pr = [] ->
   structure_score (analyze_content pr)
     = get_structure_score (Some (_analyze_structure (content pr) (file_type pr))) /\
   ((3 # 10 < structure_score (analyze_content pr))%Q ->
    content_type (analyze_content pr) = STRUCTURED_TEXT /\
    confidence (analyze_content pr) = (9 # 10)%Q) /\
   (~ (3 # 10 < structure_score (analyze_content pr))%Q ->
    content_type (analyze_content pr) = TEXT_ONLY /\
    confidence (analyze_content pr) = (95 # 100)%Q)).
Proof.
  split.
  - intros Hs. unfold analyze_content. rewrite Hs. split; reflexivity.
  - intros Hs Hnb Ht Hi.
    destruct (analyze_text_only_shape pr Hs Hnb Ht Hi) as [Hscore Hshape].
    split; [exact Hscore|]. rewrite Hscore.
    destruct (Qlt_bool (3 # 10)
                (get_structure_score
                   (Some (_analyze_structure (content pr) (file_type pr))))) eqn:Hb.
    + injection Hshape as Hct Hcf. split; [intros _; now split|].
      intros Hn. exfalso. apply Hn. now apply Qlt_bool_iff.
    + injection Hshape as Hct Hcf. split; [|intros _; now split].
      intros Hlt. apply Qlt_bool_iff in Hlt. congruence.
Qed.

End WithRuntime.

(** C8.  The recommended chunk size is the base of the content type, then
    the length adjustment, then the density adjustment, then the floor, in
    this order; for [TABLE_ONLY] content of length 100 with at most 5 tables
    and at most 10 images this is 2000, then 50, then 50, then 200. *)
Theorem recommend_order_table_only :
  (forall content_type text_length table_count image_count structure_score,
     fst (_recommend_processing_strategy content_type text_length table_count
            image_count structure_score)
     = Spec.floor_200
         (Spec.density_adjust table_count image_count
            (Spec.length_adjust text_length (Spec.base_chunk_size content_type)))) /\
  (forall table_count image_count structure_score,
     (table_count <= 5)%Z -> (image_count <= 10)%Z ->
     Spec.base_chunk_size TABLE_ONLY = 2000%Z /\
     Spec.length_adjust 100 2000 = 50%Z /\
     Spec.density_adjust table_count image_count 50 = 50%Z /\
     Spec.floor_200 50 = 200%Z /\
     _recommend_processing_strategy TABLE_ONLY 100 table_count image_count
       structure_score = (200%Z, str "table_focused")).
Proof.
  split.
  - intros ct tl tc ic s.
    unfold _recommend_processing_strategy, Spec.floor_200, Spec.density_adjust,
      Spec.length_adjust, Spec.base_chunk_size.
    rewrite !Z.gtb_ltb. destruct ct; reflexivity.
  - intros tc ic s Htc Hic.
    assert (Hd : ((5 <? tc) || (10 <? ic))%Z = false).
    { apply orb_false_iff. split; apply Z.ltb_ge; assumption. }
    repeat split; try reflexivity.
    + unfold Spec.density_adjust. now rewrite Hd.
    + unfold _recommend_processing_strategy. rewrite !Z.gtb_ltb, Hd. reflexivity.
Qed.

(** Three tables, no image. *)
Lemma recommend_order_table_only_witness :
  (3 <= 5)%Z /\ (0 <= 10)%Z /\
  _recommend_processing_strategy TABLE_ONLY 100 3 0 0%Q = (200%Z, str "table_focused").
Proof.
  assert (H1 : (3 <= 5)%Z) by lia. assert (H2 : (0 <= 10)%Z) by lia.
  split; [exact H1|]. split; [exact H2|].
  exact (proj2 (proj2 (proj2 (proj2
           (proj2 recommend_order_table_only 3%Z 0%Z 0%Q H1 H2))))).
Defined.

(** Prose without structural patterns is classified [TEXT_ONLY]. *)
Lemma analyze_content_empty_and_text_witness :
  success Demo.prose = true /\
  nonblank (content Demo.prose) = true /\
  content_type (@analyze_content Demo.report_rt Demo.prose) = TEXT_ONLY /\
  confidence (@analyze_content Demo.report_rt Demo.prose) = (95 # 100)%Q.
Proof.
  assert (Hnb : nonblank (content Demo.prose) = true) by (vm_compute; reflexivity).
  split; [reflexivity|]. split; [exact Hnb|].
  destruct (proj2 (@analyze_content_empty_and_text Demo.report_rt Demo.prose)
              eq_refl Hnb eq_refl eq_refl) as [Hscore [_ Hlow]].
  apply Hlow. rewrite Hscore. vm_compute. intros H. discriminate H.
Defined.

End AnalyzerClaims.

(* ================================================================== *)
(** ** services/vectorstore.py *)

Module VectorStoreClaims.
Import VectorStore.

Section WithClient.
Context {qd : Qdrant}.

(** Once the client is built, [list_sources] returns a list whatever the
    store does: the scroll and the loop are inside its [try]. *)
Lemma list_sources_swallows :
  get_client = Ok tt ->
  exists l, list_sources = Ok l /\
    (forall e, client_scroll qdrant_collection 1000 = Raise e -> l = []).
Proof.
  intros Hc. unfold list_sources. rewrite Hc. simpl.
  destruct (client_scroll qdrant_collection 1000) as [points|e]; simpl.
  - destruct (collect_sources points []) as [srcs|e]; simpl;
      eexists; (split; [reflexivity | intros e' He; discriminate]).
  - eexists. split; [reflexivity | reflexivity].
Qed.

(** Once the client is built, [clear_collection] returns a boolean whatever
    the store does, [False] when the delete raises. *)
Lemma clear_collection_swallows :
  get_client = Ok tt ->
  exists b, clear_collection = Ok b /\
    (forall e, client_delete qdrant_collection [] = Raise e -> b = false).
Proof.
  intros Hc. unfold clear_collection. rewrite Hc. simpl.
  destruct (client_delete qdrant_collection []) as [r|e]; simpl;
    eexists; (split; [reflexivity|]); intros e' He; [discriminate | reflexivity].
Qed.

(** [delete_by_source] has no [try]: a fault of the delete call reaches the
    caller. *)
Lemma delete_by_source_propagates (source_filename : pystr) (e : exn) :
  get_client = Ok tt ->
  client_delete qdrant_collection [(str "metadata.source", source_filename)] = Raise e ->
  delete_by_source source_filename = Raise e.
Proof.
  intros Hc Hd. unfold delete_by_source. rewrite Hc. simpl. now rewrite Hd.
Qed.

End WithClient.

(** C3 at a store whose calls raise: [list_sources] returns the empty list
    and [clear_collection] returns [False], and [delete_by_source] raises
    the store's exception instead of returning 0. *)
Theorem failing_store_admin_operations :
  @list_sources Demo.failing_store = Ok [] /\
  @clear_collection Demo.failing_store = Ok false /\
  @delete_by_source Demo.failing_store (str "report.pdf") = Raise Demo.unreachable /\
  @delete_by_source Demo.failing_store (str "report.pdf") <> Ok (Some 0%Z).
Proof.
  repeat split; try reflexivity. discriminate.
Qed.

End VectorStoreClaims.

(* ================================================================== *)
(** ** routers/file_router.py: counters, batches, handler results *)

Module RouterProperties.
Import PyStrFacts FileProcessors Router RouterBatch.

Lemma total_by_type_bump (t : FileType) (st : stats) (a b c : nat) :
  total_by_type (mkStats a b c (bump_type t (files_by_type st)))
  = S (total_by_type st).
Proof.
  unfold total_by_type, all_file_types, bump_type.
  destruct t; simpl; lia.
Qed.

Section WithRuntime.
Context {rt : Runtime}.

(** One call of [route_file]: a result, one more file processed, one more
    success or failure, one more file of the detected type. *)
Lemma route_file_counts (handlers : FileType -> option handler) (st : stats)
    (filename : pystr) (file_bytes : bytes) :
  exists r st',
    route_file handlers st filename file_bytes = (Ok r, st') /\
    files_processed st' = S (files_processed st) /\
    successful_processing st' + failed_processing st'
      = S (successful_processing st + failed_processing st) /\
    successful_processing st' = successful_processing st + (if success r then 1 else 0) /\
    total_by_type st' = S (total_by_type st).
Proof.
  unfold route_file.
  destruct (FileType_eqb (detect_file_type filename) UNKNOWN).
  - do 2 eexists. split; [reflexivity|].
    unfold count_failure. cbn [files_processed successful_processing
      failed_processing files_by_type success failed].
    rewrite total_by_type_bump. repeat split; lia.
  - destruct (handlers (detect_file_type filename)) as [h|].
    + destruct (h filename file_bytes) as [r|e].
      * do 2 eexists. split; [reflexivity|].
        destruct (success r); unfold count_success, count_failure;
          cbn [files_processed successful_processing failed_processing files_by_type];
          rewrite total_by_type_bump; repeat split; lia.
      * do 2 eexists. split; [reflexivity|].
        unfold count_failure. cbn [files_processed successful_processing
          failed_processing files_by_type success failed].
        rewrite total_by_type_bump. repeat split; lia.
    + do 2 eexists. split; [reflexivity|].
      unfold count_failure. cbn [files_processed successful_processing
        failed_processing files_by_type success failed].
      rewrite total_by_type_bump. repeat split; lia.
Qed.

(** X1.  [route_multiple_files] never raises, whatever the handlers do, and
    moves the counters in step: for a batch of n files, [files_processed]
    grows by n, successes and failures together grow by n, and so does the
    total of the per-type counts. *)
Theorem route_multiple_files_counters (handlers : FileType -> option handler)
    (files : list (pystr * bytes)) (st : stats)
    (results0 : list (pystr * ProcessingResult)) :
  exists results st',
    route_multiple_files handlers st files results0 = (Ok results, st') /\
    files_processed st' = files_processed st + List.length files /\
    successful_processing st' + failed_processing st'
      = successful_processing st + failed_processing st + List.length files /\
    successful_processing st <= successful_processing st' /\
    total_by_type st' = total_by_type st + List.length files.
Proof.
  revert st results0. induction files as [|[filename file_bytes] files IH];
    intros st results0.
  - exists results0, st. simpl. repeat split; lia.
  - destruct (route_file_counts handlers st filename file_bytes)
      as [r [st1 [Hr [H1 [H2 [H3 H4]]]]]].
    destruct (IH st1 (results_set filename r results0))
      as [results [st' [Hm [G1 [G2 [G3 G4]]]]]].
    exists results, st'. simpl. rewrite Hr. split; [exact Hm|].
    simpl List.length. repeat split; lia.
Qed.

(** X2.  On a router that starts from fresh counters (construction or
    [reset_statistics]), every batch leaves [files_processed] equal to the
    number of successes plus failures and to the total of the per-type
    counts, and the [success_rate] of [get_statistics] between 0 and 100; it
    is 0 before any file. *)
Theorem fresh_router_statistics (handlers : FileType -> option handler)
    (files : list (pystr * bytes)) (st0 : stats) :
  let st := snd (route_multiple_files handlers (reset_statistics st0) files []) in
  files_processed st = List.length files /\
  files_processed st = successful_processing st + failed_processing st /\
  files_processed st = total_by_type st /\
  (0 <= success_rate (get_statistics st))%Q /\
  (success_rate (get_statistics st) <= 100)%Q /\
  success_rate (get_statistics (reset_statistics st0)) = 0%Q.
Proof.
  destruct (route_multiple_files_counters handlers files (reset_statistics st0) [])
    as [results [st' [Hm [G1 [G2 [G3 G4]]]]]].
  rewrite Hm. cbn [snd].
  unfold reset_statistics, initial_stats in G1, G2, G3, G4.
  cbn [files_processed successful_processing failed_processing] in G1, G2, G3.
  change (total_by_type (mkStats 0 0 0 (fun _ => 0))) with 0 in G4.
  split; [lia|]. split; [lia|]. split; [lia|].
  assert (Hle : successful_processing st' <= files_processed st') by lia.
  unfold get_statistics. cbn [success_rate].
  destruct (files_processed st') as [|p] eqn:Hp.
  - cbn [Nat.ltb Nat.leb]. repeat split; [apply Qle_refl | discriminate].
  - change (0 <? S p) with true. cbv iota.
    rewrite <- Pos.of_nat_succ.
    repeat split.
    + unfold Qle, Qmult. cbn [Qnum Qden]. lia.
    + unfold Qle, Qmult. cbn [Qnum Qden].
      rewrite Pos2Z.inj_mul, Zpos_P_of_succ_nat. lia.
Qed.

(** The three text handlers give a successful result only for text that is
    not blank, and never tables or images. *)
Lemma text_handlers_success (t : FileType) (h : handler) (filename : pystr)
    (file_bytes : bytes) (r : ProcessingResult) :
  t <> PDF -> _handlers t = Some h -> h filename file_bytes = Ok r ->
  success r = true ->
  nonblank (content r) = true /\ tables r = [] /\ images r = [] /\
  dict_get (str "page_count") (metadata r) = None /\
  file_type r = match t with DOC => DOCX | _ => t end.
Proof.
  intros Hpdf. unfold nonblank.
  destruct t; simpl; intros H; try discriminate; try congruence; injection H as <-.
  - unfold _handle_docx. destruct (read_docx file_bytes) as [tx|e].
    + destruct (truthy tx) eqn:E1; destruct (truthy (strip tx)) eqn:E2; simpl;
        intros Hr Hs; injection Hr as <-; try discriminate;
        cbn [content tables images metadata file_type]; rewrite E1, E2;
        repeat split.
    + intros Hr Hs; injection Hr as <-. discriminate.
  - unfold _handle_docx. destruct (read_docx file_bytes) as [tx|e].
    + destruct (truthy tx) eqn:E1; destruct (truthy (strip tx)) eqn:E2; simpl;
        intros Hr Hs; injection Hr as <-; try discriminate;
        cbn [content tables images metadata file_type]; rewrite E1, E2;
        repeat split.
    + intros Hr Hs; injection Hr as <-. discriminate.
  - unfold _handle_txt. destruct (read_txt file_bytes) as [tx|e].
    + destruct (truthy tx) eqn:E1; destruct (truthy (strip tx)) eqn:E2; simpl;
        intros Hr Hs; injection Hr as <-; try discriminate;
        cbn [content tables images metadata file_type]; rewrite E1, E2;
        repeat split.
    + intros Hr Hs; injection Hr as <-. discriminate.
  - unfold _handle_md. destruct (read_md file_bytes) as [tx|e].
    + destruct (truthy tx) eqn:E1; destruct (truthy (strip tx)) eqn:E2; simpl;
        intros Hr Hs; injection Hr as <-; try discriminate;
        cbn [content tables images metadata file_type]; rewrite E1, E2;
        repeat split.
    + intros Hr Hs; injection Hr as <-. discriminate.
Qed.

(** What [route_file] returns comes from the handler of the detected type
    when it reports a success. *)
Lemma route_file_success_inv (st : stats) (filename : pystr) (file_bytes : bytes)
    (r : ProcessingResult) :
  fst (route_file _handlers st filename file_bytes) = Ok r ->
  success r = true ->
  exists h, _handlers (detect_file_type filename) = Some h /\
            h filename file_bytes = Ok r.
Proof.
  unfold route_file.
  destruct (FileType_eqb (detect_file_type filename) UNKNOWN).
  - simpl. intros H Hs. injection H as <-. discriminate.
  - destruct (_handlers (detect_file_type filename)) as [h|].
    + destruct (h filename file_bytes) as [r0|e] eqn:Hcall; simpl; intros H Hs;
        injection H as <-; [|discriminate]. now exists h.
    + simpl. intros H Hs. injection H as <-. discriminate.
Qed.

(** X3.  A file that is not a PDF and is routed with success has text that
    is not blank, no tables, no images and no [page_count] entry: blank
    DOCX, text and Markdown files are failures, never empty successes. *)
Theorem route_file_text_success (st : stats) (filename : pystr)
    (file_bytes : bytes) (r : ProcessingResult) :
  detect_file_type filename <> PDF ->
  fst (route_file _handlers st filename file_bytes) = Ok r ->
  success r = true ->
  nonblank (content r) = true /\ tables r = [] /\ images r = [] /\
  dict_get (str "page_count") (metadata r) = None.
Proof.
  intros Hpdf Hr Hs.
  destruct (route_file_success_inv _ _ _ Hr Hs) as [h [Hh Hcall]].
  destruct (text_handlers_success filename file_bytes Hpdf Hh Hcall Hs)
    as [H1 [H2 [H3 [H4 _]]]].
  auto.
Qed.

(** X4.  [_handle_pdf] always returns a result, and a failed one exactly
    when the advanced extractor and the fallback reader both raise; a PDF
    whose extraction gives no text is still a success. *)
Theorem handle_pdf_fails_iff_both_raise (filename : pystr) (file_bytes : bytes) :
  exists r, _handle_pdf filename file_bytes = Ok r /\
    (success r = false <->
     exists e1 e2, read_pdf_with_images file_bytes filename = Raise e1 /\
                   read_pdf file_bytes = Raise e2) /\
    (success r = true -> error r = [] /\ file_type r = PDF).
Proof.
  unfold _handle_pdf.
  destruct (read_pdf_with_images file_bytes filename) as [[[tx ips] tds]|e1].
  - eexists. split; [reflexivity|]. split; [|intros _; split; reflexivity].
    split; [discriminate|]. intros [e1 [e2 [H _]]]. discriminate.
  - destruct (read_pdf file_bytes) as [tx|e2].
    + eexists. split; [reflexivity|]. split; [|intros _; split; reflexivity].
      split; [discriminate|]. intros [e1' [e2' [_ H]]]. discriminate.
    + eexists. split; [reflexivity|]. split; [|discriminate].
      split; [|reflexivity]. intros _. now exists e1, e2.
Qed.

(** X5.  A [.doc] upload is counted under [doc] in the statistics, while the
    result it gets from the shared handler names the type [docx]. *)
Theorem route_file_doc_reported_as_docx (st : stats) (filename : pystr)
    (file_bytes : bytes) :
  detect_file_type filename = DOC ->
  exists r st',
    route_file _handlers st filename file_bytes = (Ok r, st') /\
    file_type r = DOCX /\
    files_by_type st' DOC = S (files_by_type st DOC) /\
    files_by_type st' DOCX = files_by_type st DOCX.
Proof.
  intros Hd. unfold route_file. rewrite Hd. cbn [FileType_eqb _handlers].
  assert (Hft : exists r, _handle_docx filename file_bytes = Ok r /\ file_type r = DOCX).
  { unfold _handle_docx. destruct (read_docx file_bytes) as [tx|e].
    - destruct (negb (truthy tx) || negb (truthy (strip tx)));
        eexists; split; reflexivity.
    - eexists; split; reflexivity. }
  destruct Hft as [r [Hr Hft]]. rewrite Hr.
  do 2 eexists. split; [reflexivity|]. split; [exact Hft|].
  destruct (success r); unfold count_success, count_failure, bump_type;
    cbn [files_by_type files_processed successful_processing failed_processing
         FileType_eqb]; split; reflexivity.
Qed.

End WithRuntime.

(** A text file routed with success. *)
Lemma route_file_text_success_witness :
  exists r,
    fst (@route_file Demo.report_rt (@_handlers Demo.report_rt) initial_stats
           (str "notes.txt") (Demo.ascii_bytes "hello world")) = Ok r /\
    success r = true /\
    nonblank (content r) = true /\ tables r = [] /\ images r = [].
Proof.
  destruct (fst (@route_file Demo.report_rt (@_handlers Demo.report_rt) initial_stats
                   (str "notes.txt") (Demo.ascii_bytes "hello world")))
    as [r|e] eqn:Hr.
  - exists r. split; [reflexivity|].
    assert (Hs : success r = true).
    { pose proof Hr as Hv. vm_compute in Hv. injection Hv as <-. reflexivity. }
    split; [exact Hs|].
    destruct (@route_file_text_success Demo.report_rt initial_stats (str "notes.txt")
                (Demo.ascii_bytes "hello world") r) as [H1 [H2 [H3 _]]].
    + vm_compute. discriminate.
    + exact Hr.
    + exact Hs.
    + auto.
  - vm_compute in Hr. discriminate.
Defined.

(** A [.doc] upload on a fresh router. *)
Lemma route_file_doc_reported_as_docx_witness :
  exists r st',
    @route_file Demo.report_rt (@_handlers Demo.report_rt) initial_stats
      (str "letter.doc") (Demo.ascii_bytes "Dear all") = (Ok r, st') /\
    file_type r = DOCX /\
    files_by_type st' DOC = 1 /\
    files_by_type st' DOCX = 0.
Proof.
  apply (@route_file_doc_reported_as_docx Demo.report_rt initial_stats
           (str "letter.doc") (Demo.ascii_bytes "Dear all")).
  vm_compute. reflexivity.
Defined.

End RouterProperties.

(* ================================================================== *)
(** ** routers/content_analyzer.py: ranges, edge cases, summaries *)

Module AnalyzerProperties.
Import PyStrFacts Router Analyzer AnalyzerBatch AnalyzerClaims.

Lemma fmin_le_r (a b : Q) : (fmin a b <= b)%Q.
Proof.
  unfold fmin. destruct (Qlt_bool b a) eqn:H; [apply Qle_refl|].
  unfold Qlt_bool in H. apply negb_false_iff in H. now apply Qle_bool_iff.
Qed.

Lemma fmin_ge (a b c : Q) : (c <= a)%Q -> (c <= b)%Q -> (c <= fmin a b)%Q.
Proof. intros Ha Hb. unfold fmin. now destruct (Qlt_bool b a). Qed.

Lemma fmin_le_l (a b : Q) : (fmin a b <= a)%Q.
Proof.
  unfold fmin. destruct (Qlt_bool b a) eqn:H; [|apply Qle_refl].
  apply Qlt_bool_iff in H. now apply Qlt_le_weak.
Qed.

(** [max(0.0, min(1.0, q))] lies between 0 and 1. *)
Lemma clamp_unit (q : Q) : (0 <= fmax 0 (fmin 1 q))%Q /\ (fmax 0 (fmin 1 q) <= 1)%Q.
Proof.
  unfold fmax. destruct (Qlt_bool 0 (fmin 1 q)) eqn:H.
  - apply Qlt_bool_iff in H. split; [now apply Qlt_le_weak | apply fmin_le_l].
  - split; [apply Qle_refl | discriminate].
Qed.

Lemma ratio_nonneg (a b : nat) : (0 <= ratio a b)%Q.
Proof. unfold ratio, Qle. cbn [Qnum Qden]. lia. Qed.

(** The score of [_analyze_structure] lies between 0 and 1, for Markdown
    files too. *)
Lemma structure_score_unit {rt : Runtime} (content : pystr) (t : FileType) :
  (0 <= get_structure_score (Some (_analyze_structure content t)))%Q /\
  (get_structure_score (Some (_analyze_structure content t)) <= 1)%Q.
Proof.
  unfold _analyze_structure. destruct (negb (truthy content)).
  - cbn [get_structure_score]. split; [apply Qle_refl | discriminate].
  - cbn [get_structure_score].
    set (n := list_sum _). set (m := List.length _).
    assert (H0 : (0 <= fmin (ratio n m) 1)%Q).
    { apply fmin_ge; [apply ratio_nonneg | discriminate]. }
    destruct (FileType_eqb t MD).
    + split; [|apply fmin_le_r].
      apply fmin_ge; [|discriminate].
      apply Qmult_le_0_compat; [exact H0 | discriminate].
    + split; [exact H0 | apply fmin_le_r].
Qed.

Lemma determine_confidence (ht hb hi : bool) (ta : option text_analysis)
    (sa : option structure_analysis) :
  (7 # 10 <= snd (_determine_content_type ht hb hi ta sa))%Q /\
  (snd (_determine_content_type ht hb hi ta sa) <= 1)%Q.
Proof.
  unfold _determine_content_type.
  destruct ht, hb, hi; cbn [negb andb snd];
    try (split; discriminate).
  destruct (Qlt_bool (3 # 10) (get_structure_score sa)); split; discriminate.
Qed.

Section WithRuntime.
Context {rt : Runtime}.

(** X6.  Every analysis [analyze_content] returns keeps its scores in range:
    [text_quality_score] and [structure_score] between 0 and 1, and
    [confidence] between 0.7 and 1. *)
Theorem analyze_content_scores_in_range (pr : ProcessingResult) :
  (0 <= text_quality_score (analyze_content pr))%Q /\
  (text_quality_score (analyze_content pr) <= 1)%Q /\
  (0 <= structure_score (analyze_content pr))%Q /\
  (structure_score (analyze_content pr) <= 1)%Q /\
  (7 # 10 <= confidence (analyze_content pr))%Q /\
  (confidence (analyze_content pr) <= 1)%Q.
Proof.
  unfold analyze_content. destruct (success pr); cbn [negb].
  2:{ cbn [text_quality_score structure_score confidence].
      repeat split; try apply Qle_refl; discriminate. }
  set (ht := truthy (content pr) && truthy (strip (content pr))).
  set (ta := if ht then _analyze_text_content (content pr) else None).
  set (sa := if ht then Some (_analyze_structure (content pr) (file_type pr)) else None).
  pose proof (determine_confidence ht (0 <? List.length (tables pr))
                (0 <? List.length (images pr)) ta sa) as Hc.
  destruct (_determine_content_type ht (0 <? List.length (tables pr))
              (0 <? List.length (images pr)) ta sa) as [ct cf].
  destruct (_recommend_processing_strategy ct _ _ _ _) as [sz strat].
  cbn [text_quality_score structure_score confidence]. cbn [snd] in Hc.
  assert (Hq : (0 <= _calculate_text_quality (content pr) ta)%Q /\
               (_calculate_text_quality (content pr) ta <= 1)%Q).
  { unfold _calculate_text_quality. destruct ta as [a|].
    - destruct (negb (truthy (content pr))).
      + split; [apply Qle_refl | discriminate].
      + apply clamp_unit.
    - split; [apply Qle_refl | discriminate]. }
  assert (Hs : (0 <= get_structure_score sa)%Q /\ (get_structure_score sa <= 1)%Q).
  { unfold sa. destruct ht.
    - apply structure_score_unit.
    - cbn [get_structure_score]. split; [apply Qle_refl | discriminate]. }
  tauto.
Qed.

(** X8.  A successful result whose text is blank and which has no tables and no
    images (a PDF without extractable content) is classified [EMPTY] with
    confidence 1.0, text quality 0 and strategy [standard]; when the text is
    empty the recommended chunk size is the floor, 200. *)
Theorem analyze_content_blank_success (pr : ProcessingResult) :
  success pr = true ->
  nonblank (content pr) = false ->
  tables pr = [] ->
  images pr = [] ->
  content_type (analyze_content pr) = EMPTY /\
  confidence (analyze_content pr) = 1%Q /\
  has_text (analyze_content pr) = false /\
  text_quality_score (analyze_content pr) = 0%Q /\
  recommended_strategy (analyze_content pr) = str "standard" /\
  (content pr = [] -> recommended_chunk_size (analyze_content pr) = 200%Z).
Proof.
  intros Hs Hnb Ht Hi. unfold analyze_content. rewrite Hs. cbn [negb].
  unfold nonblank in Hnb. rewrite Hnb, Ht, Hi.
  cbn [List.length Nat.ltb Nat.leb _determine_content_type negb andb].
  repeat split.
  intros Hc. rewrite Hc. reflexivity.
Qed.

End WithRuntime.

(** X7.  The recommended chunk size is always between 200 and 2200, at most 2000
    unless the document has more than 5 tables or more than 10 images, and
    exactly 200 for every document shorter than 400 characters with at most
    5 tables and 10 images, whatever its content type. *)
Theorem recommended_chunk_size_bounds (content_type : ContentType)
    (text_length table_count image_count : Z) (structure_score : Q) :
  let size := fst (_recommend_processing_strategy content_type text_length
                     table_count image_count structure_score) in
  (200 <= size <= 2200)%Z /\
  ((table_count <= 5)%Z -> (image_count <= 10)%Z -> (size <= 2000)%Z) /\
  ((text_length < 400)%Z -> (table_count <= 5)%Z -> (image_count <= 10)%Z ->
   size = 200%Z).
Proof.
  unfold _recommend_processing_strategy.
  rewrite !Z.gtb_ltb.
  destruct content_type; cbn [fst];
    destruct (Z.ltb_spec text_length 2000);
    destruct (Z.ltb_spec 50000 text_length);
    destruct (Z.ltb_spec 5 table_count);
    destruct (Z.ltb_spec 10 image_count);
    cbn [orb fst];
    repeat split; intros;
    try (assert (text_length / 2 < 200)%Z
           by (apply Z.div_lt_upper_bound; lia));
    lia.
Qed.

Lemma recommended_chunk_size_bounds_witness :
  (120 < 400)%Z /\ (2 <= 5)%Z /\ (0 <= 10)%Z /\
  fst (_recommend_processing_strategy TEXT_TABLE 120 2 0 0%Q) = 200%Z.
Proof.
  assert (H1 : (120 < 400)%Z) by lia.
  assert (H2 : (2 <= 5)%Z) by lia.
  assert (H3 : (0 <= 10)%Z) by lia.
  split; [exact H1|]. split; [exact H2|]. split; [exact H3|].
  exact (proj2 (proj2 (recommended_chunk_size_bounds TEXT_TABLE 120 2 0 0%Q)) H1 H2 H3).
Defined.

(** The routed result of an extraction that found nothing. *)
Lemma analyze_content_blank_success_witness :
  content_type
    (@analyze_content Demo.report_rt
       (mkResult true PDF [] [] [] [(str "page_count", VInt 1)] [])) = EMPTY /\
  recommended_chunk_size
    (@analyze_content Demo.report_rt
       (mkResult true PDF [] [] [] [(str "page_count", VInt 1)] [])) = 200%Z.
Proof.
  destruct (@analyze_content_blank_success Demo.report_rt
              (mkResult true PDF [] [] [] [(str "page_count", VInt 1)] [])
              eq_refl eq_refl eq_refl eq_refl)
    as [H1 [_ [_ [_ [_ H6]]]]].
  split; [exact H1 | exact (H6 eq_refl)].
Defined.

Lemma count_incr_sum (k : pystr) (d : list (pystr * nat)) :
  list_sum (map snd (count_incr k d)) = S (list_sum (map snd d)).
Proof.
  induction d as [|[k' n] d IH]; [reflexivity|].
  simpl. destruct (PyStr.eqb k k'); simpl; [reflexivity|]. rewrite IH. lia.
Qed.

Lemma strategy_counts_sum (values : list ContentAnalysis) (d : list (pystr * nat)) :
  list_sum (map snd
    (fold_left (fun d a => count_incr (recommended_strategy a) d) values d))
  = list_sum (map snd d) + List.length values.
Proof.
  revert d. induction values as [|a values IH]; intros d; simpl; [lia|].
  rewrite IH, count_incr_sum. lia.
Qed.

Lemma type_counts_sum (values : list ContentAnalysis) :
  list_sum (map (fun t =>
      List.length (filter (fun a => ContentType_eqb (content_type a) t) values))
    all_content_types)
  = List.length values.
Proof.
  induction values as [|a values IH]; [reflexivity|].
  unfold all_content_types in *. simpl in IH. simpl.
  destruct (content_type a); simpl; lia.
Qed.

(** X9.  In the summary of a non-empty set of analyses the counts per content
    type add up to [total_files], the counts per strategy add up to
    [total_files], there are [total_files] recommended sizes, and every one
    of the eight content types has an entry; only the empty set gives the
    short summary. *)
Theorem content_summary_counts (analyses : list (pystr * ContentAnalysis)) :
  match get_content_summary analyses with
  | None => analyses = []
  | Some s =>
      total_files s = List.length analyses /\
      0 < total_files s /\
      list_sum (map snd (content_type_distribution s)) = total_files s /\
      map fst (content_type_distribution s) = map ContentType_value all_content_types /\
      list_sum (map snd (strategy_distribution s)) = total_files s /\
      List.length (recommended_chunk_sizes s) = total_files s
  end.
Proof.
  destruct analyses as [|kv analyses]; [reflexivity|].
  unfold get_content_summary.
  cbn [total_files content_type_distribution strategy_distribution
       recommended_chunk_sizes].
  split; [reflexivity|]. split; [simpl; lia|].
  split.
  { rewrite map_map. cbn [snd].
    rewrite type_counts_sum. simpl. now rewrite length_map. }
  split; [now rewrite map_map|].
  split.
  { rewrite strategy_counts_sum. simpl. now rewrite length_map. }
  simpl. now rewrite !length_map.
Qed.

End AnalyzerProperties.

(* ================================================================== *)
(** ** Characters of file names, numbers and tokens *)

Module TokenFacts.
Import PyStrFacts FileProcessors Vocabulary.

Lemma substring_of_refl (s : pystr) : substring_of s s.
Proof. exists [], []. now rewrite app_nil_r. Qed.

Lemma substring_of_app (sub s a b : pystr) :
  substring_of sub s -> substring_of sub (a ++ s ++ b).
Proof.
  intros [x [y ->]]. exists (a ++ x), (y ++ b). now rewrite <- !app_assoc.
Qed.

Lemma substring_of_trans (a b c : pystr) :
  substring_of a b -> substring_of b c -> substring_of a c.
Proof. intros Hab [x [y ->]]. now apply substring_of_app. Qed.

(** An element of a joined list occurs in the result. *)
Lemma join_substring (sep t : pystr) (l : list pystr) :
  In t l -> substring_of t (join sep l).
Proof.
  induction l as [|x l IH]; [contradiction|].
  intros [->|Hin].
  - destruct l as [|y l].
    + apply substring_of_refl.
    + exists [], (sep ++ join sep (y :: l)). reflexivity.
  - destruct l as [|y l]; [contradiction|].
    change (join sep (x :: y :: l)) with (x ++ sep ++ join sep (y :: l)).
    specialize (IH Hin). destruct IH as [a [b Hab]].
    exists (x ++ sep ++ a), b. rewrite Hab. now rewrite <- !app_assoc.
Qed.

Lemma str_cons (a : ascii) (s : string) :
  (N_of_ascii a <? 128)%N = true ->
  str (String a s) = N_of_ascii a :: str s.
Proof.
  intros H. unfold str. cbn [list_ascii_of_string map utf8_decode]. now rewrite H.
Qed.

(** The decimal form of a number has digits only. *)
Lemma digits_of_uint (d : Decimal.uint) :
  digits (str (NilEmpty.string_of_uint d)) = true.
Proof.
  induction d; cbn [NilEmpty.string_of_uint]; [reflexivity|..];
    (rewrite str_cons by reflexivity); cbn [digits forallb]; exact IHd.
Qed.

Lemma digits_of_nat (n : nat) : digits (of_nat n) = true.
Proof. apply digits_of_uint. Qed.

Lemma digits_noslash (s : pystr) : digits s = true -> noslash s = true.
Proof.
  unfold digits, noslash. rewrite !forallb_forall. intros H c Hc.
  specialize (H c Hc). apply andb_true_iff in H. destruct H as [H1 H2].
  apply N.leb_le in H1. apply negb_true_iff. apply N.eqb_neq.
  unfold PyPath.SLASH. lia.
Qed.

Lemma noslash_app (a b : pystr) : noslash (a ++ b) = noslash a && noslash b.
Proof. apply forallb_app. Qed.

(** Distinct numbers print differently. *)
Lemma string_of_uint_inj (d d' : Decimal.uint) :
  str (NilEmpty.string_of_uint d) = str (NilEmpty.string_of_uint d') -> d = d'.
Proof.
  revert d'. induction d; intros d'; destruct d'; cbn [NilEmpty.string_of_uint];
    rewrite ?str_cons by reflexivity; intros H;
    try reflexivity; try discriminate H;
    injection H as H; f_equal; now apply IHd.
Qed.

Lemma of_nat_inj (i j : nat) : of_nat i = of_nat j -> i = j.
Proof.
  unfold of_nat. intros H. apply string_of_uint_inj in H.
  rewrite <- (DecimalNat.Unsigned.of_to i), <- (DecimalNat.Unsigned.of_to j).
  now rewrite H.
Qed.

(** Pieces between separators hold no separator. *)
Lemma split_slash_noslash (s cur : pystr) :
  noslash cur = true ->
  Forall (fun piece => noslash piece = true) (split_from [PyPath.SLASH] 0 cur s).
Proof.
  revert cur. induction s as [|c s IH]; intros cur Hcur.
  - simpl. constructor; [|constructor].
    unfold noslash in *. rewrite forallb_forall in *. intros x Hx.
    apply Hcur. now apply in_rev.
  - cbn [split_from startswith].
    destruct (PyPath.SLASH =? c)%N eqn:Hc; cbn [andb].
    + constructor.
      * unfold noslash in *. rewrite forallb_forall in *. intros x Hx.
        apply Hcur. now apply in_rev.
      * apply IH. reflexivity.
    + apply IH. cbn [noslash forallb]. rewrite N.eqb_sym, Hc. exact Hcur.
Qed.

(** A text without separator is a single piece. *)
Lemma split_slash_single (s cur : pystr) :
  noslash s = true -> split_from [PyPath.SLASH] 0 cur s = [rev cur ++ s].
Proof.
  revert cur. induction s as [|c s IH]; intros cur Hs.
  - simpl. now rewrite app_nil_r.
  - cbn [noslash forallb] in Hs. apply andb_true_iff in Hs. destruct Hs as [Hc Hs].
    apply negb_true_iff in Hc.
    cbn [split_from startswith]. rewrite N.eqb_sym, Hc. cbn [andb].
    rewrite IH by exact Hs. cbn [rev]. now rewrite <- app_assoc.
Qed.

Lemma name_noslash (p : pystr) : noslash (PyPath.name p) = true.
Proof.
  unfold PyPath.name, split.
  pose proof (split_slash_noslash p [] eq_refl) as H.
  set (l := split_from [PyPath.SLASH] 0 [] p) in *.
  set (f := fun part => _).
  assert (Hf : Forall (fun piece => noslash piece = true) (filter f l)).
  { rewrite Forall_forall in *. intros x Hx. apply filter_In in Hx. now apply H. }
  clearbody l. induction (filter f l) as [|x fl IHl]; [reflexivity|].
  inversion Hf as [|? ? Hx Hfl]; subst.
  destruct fl as [|y fl]; [exact Hx|]. now apply IHl.
Qed.

Lemma firstn_noslash (n : nat) (s : pystr) :
  noslash s = true -> noslash (firstn n s) = true.
Proof.
  unfold noslash. rewrite !forallb_forall. intros H x Hx.
  apply H. rewrite <- (firstn_skipn n s). apply in_or_app. now left.
Qed.

Lemma stem_noslash (p : pystr) : noslash (PyPath.stem p) = true.
Proof.
  unfold PyPath.stem.
  destruct ((0 <? _) && _)%Z;
    [apply firstn_noslash|]; apply name_noslash.
Qed.

Lemma img_filename_noslash (filename : pystr) (pn ii : nat) :
  noslash (img_filename filename pn ii) = true.
Proof.
  unfold img_filename. rewrite !noslash_app, stem_noslash.
  rewrite (@digits_noslash _ (digits_of_nat (pn + 1))).
  rewrite (@digits_noslash _ (digits_of_nat (ii + 1))). reflexivity.
Qed.

(** [Path(img_path).name] gives back the file name the extractor built. *)
Lemma name_img_path (filename : pystr) (pn ii : nat) :
  PyPath.name (img_path (img_filename filename pn ii)) = img_filename filename pn ii.
Proof.
  pose proof (img_filename_noslash filename pn ii) as Hns.
  assert (Hlen : 4 <= List.length (img_filename filename pn ii)).
  { unfold img_filename. rewrite !length_app.
    change (List.length (str ".png")) with 4. lia. }
  set (fname := img_filename filename pn ii) in *.
  unfold PyPath.name, img_path, split.
  change (str "extracted_images/") with
    (str "extracted_images" ++ [PyPath.SLASH]).
  rewrite <- app_assoc.
  assert (Hsplit : split_from [PyPath.SLASH] 0 [] (str "extracted_images" ++ [PyPath.SLASH] ++ fname)
                   = [str "extracted_images"; fname]).
  { change (split_from [PyPath.SLASH] 0 [] (str "extracted_images" ++ [PyPath.SLASH] ++ fname))
      with (str "extracted_images" :: split_from [PyPath.SLASH] 0 [] fname).
    rewrite split_slash_single by exact Hns. reflexivity. }
  rewrite Hsplit. cbn [filter].
  assert (Hne : PyStr.eqb fname [] = false /\ PyStr.eqb fname [PyPath.DOT] = false).
  { split; destruct (PyStr.eqb fname _) eqn:E; try reflexivity;
      apply eqb_eq in E; rewrite E in Hlen; simpl in Hlen; lia. }
  destruct Hne as [-> ->].
  reflexivity.
Qed.

End TokenFacts.

(* ================================================================== *)
(** ** Extraction: what the extractors hand to the linker *)

Module ExtractionProperties.
Import PyStrFacts FileProcessors CountFacts FileProcessorsFacts Vocabulary TokenFacts
  Ingestion IngestionFacts.

Section WithRuntime.
Context {rt : Runtime}.

Lemma linked_more_text (filename : pystr) (bound : nat) (st : pdf_acc) (t : pystr) :
  linked filename bound st ->
  linked filename bound (mkAcc (texts st ++ [t]) (image_paths st) (tables_data st)).
Proof.
  intros [Hi Ht]. split; cbn [texts image_paths tables_data].
  - intros p Hp. destruct (Hi p Hp) as [pn [ii [Hpe Hin]]].
    exists pn, ii. split; [exact Hpe|]. apply in_or_app. now left.
  - intros td Htd. destruct (Ht td Htd) as [Hb Hin].
    split; [exact Hb|]. apply in_or_app. now left.
Qed.

Lemma tables_loop_linked (filename : pystr) (bound pn : nat)
    (tables : list (nat * fitz_table)) (st : pdf_acc) (pt : list table_dict) :
  pn < bound ->
  linked filename bound st ->
  linked filename bound (fst (tables_loop filename pn tables st pt)).
Proof.
  intros Hpn. revert st pt. induction tables as [|[ti t] tables IH]; intros st pt Hl.
  - exact Hl.
  - simpl. destruct (table_try t) as [[df|]|e]; try (apply IH; exact Hl).
    apply IH. destruct Hl as [Hi Ht]. split; cbn [texts image_paths tables_data].
    + intros p Hp. destruct (Hi p Hp) as [pn' [ii [Hpe Hin]]].
      exists pn', ii. split; [exact Hpe|]. apply in_or_app. now left.
    + intros td Htd. apply in_app_or in Htd. destruct Htd as [Htd|[<-|[]]].
      * destruct (Ht td Htd) as [Hb Hin]. split; [exact Hb|].
        apply in_or_app. now left.
      * cbn [td_page td_table_index]. split; [lia|].
        replace (pn + 1 - 1) with pn by lia.
        apply in_or_app. right. now left.
Qed.

Lemma images_loop_linked (filename : pystr) (bound pn : nat)
    (imgs : list (nat * result pixmap)) (st st' : pdf_acc) :
  images_loop filename pn imgs st = Ok st' ->
  linked filename bound st ->
  linked filename bound st'.
Proof.
  revert st. induction imgs as [|[ii img] imgs IH]; intros st H Hl.
  - simpl in H. now injection H as <-.
  - simpl in H. destruct img as [pix|e]; simpl in H; [|discriminate].
    destruct (pix_n pix - pix_alpha pix <? 4)%Z; [|now apply (IH st)].
    destruct (pix_save pix) as [u|e]; simpl in H; [|discriminate].
    eapply IH; [exact H|].
    destruct Hl as [Hi Ht]. split; cbn [texts image_paths tables_data].
    + intros p Hp. apply in_app_or in Hp. destruct Hp as [Hp|[<-|[]]].
      * destruct (Hi p Hp) as [pn' [ii' [Hpe Hin]]].
        exists pn', ii'. split; [exact Hpe|]. apply in_or_app. now left.
      * exists pn, ii. split; [reflexivity|]. apply in_or_app. right. now left.
    + intros td Htd. destruct (Ht td Htd) as [Hb Hin]. split; [exact Hb|].
      apply in_or_app. now left.
Qed.

Lemma page_step_linked (filename : pystr) (bound pn : nat) (page : fitz_page)
    (st st' : pdf_acc) :
  pn < bound ->
  page_step filename pn page st = Ok st' ->
  linked filename bound st ->
  linked filename bound st'.
Proof.
  unfold page_step. intros Hpn H Hl.
  destruct (find_tables page) as [tables|e]; simpl in H; [|discriminate].
  pose proof (@tables_loop_linked filename bound pn (enumerate tables) st [] Hpn Hl)
    as Ht.
  destruct (tables_loop filename pn (enumerate tables) st []) as [st1 pt].
  cbn [fst] in Ht.
  destruct (get_text page) as [text|e]; simpl in H; [|discriminate].
  destruct (get_images page) as [imgs|e]; simpl in H; [|discriminate].
  eapply images_loop_linked; [exact H|].
  destruct (truthy (strip text)); [|exact Ht].
  destruct pt; now apply linked_more_text.
Qed.

Lemma pages_loop_linked (filename : pystr) (bound : nat) (pages : list fitz_page)
    (k : nat) (st st' : pdf_acc) :
  k + List.length pages <= bound ->
  pages_loop filename (enumerate_from k pages) st = Ok st' ->
  linked filename bound st ->
  linked filename bound st'.
Proof.
  revert k st. induction pages as [|page pages IH]; intros k st Hb H Hl.
  - simpl in H. now injection H as <-.
  - simpl in H, Hb.
    destruct (page_step filename k page st) as [st1|e] eqn:Hstep; simpl in H;
      [|discriminate].
    apply (IH (S k) st1); [lia | exact H |].
    assert (Hk : k < bound) by lia.
    exact (@page_step_linked filename bound k page st st1 Hk Hstep Hl).
Qed.

(** What a successful advanced extraction hands over. *)
Lemma read_pdf_with_images_linked (file_bytes : bytes) (filename : pystr)
    (text : pystr) (ips : list pystr) (tds : list table_dict) :
  read_pdf_with_images file_bytes filename = Ok (text, ips, tds) ->
  exists doc,
    fitz_open file_bytes = Ok doc /\
    (forall p, In p ips ->
       (exists pn ii, p = img_path (img_filename filename pn ii)) /\
       substring_of (PyPath.name p) text) /\
    (forall td, In td tds ->
       1 <= td_page td <= List.length doc /\
       substring_of (table_token filename (td_page td - 1) (td_table_index td)) text).
Proof.
  unfold read_pdf_with_images. intros H.
  destruct mkdir_images as [u|e]; simpl in H; [|discriminate].
  destruct (fitz_open file_bytes) as [doc|e]; simpl in H; [|discriminate].
  destruct (pages_loop filename (enumerate doc) (mkAcc [] [] [])) as [st|e] eqn:Hl;
    simpl in H; [|discriminate].
  injection H as <- <- <-.
  exists doc. split; [reflexivity|].
  assert (Hlinked : linked filename (List.length doc) st).
  { apply (@pages_loop_linked filename (List.length doc) doc 0 (mkAcc [] [] []) st).
    - simpl. lia.
    - exact Hl.
    - split; intros x Hx; destruct Hx. }
  destruct Hlinked as [Hi Ht]. split.
  - intros p Hp. destruct (Hi p Hp) as [pn [ii [-> Hin]]].
    split; [now exists pn, ii|].
    rewrite name_img_path.
    apply substring_of_trans with (b := image_token pn (img_filename filename pn ii)).
    + unfold image_token.
      exists (TRANG ++ of_nat (pn + 1) ++ str "] Hình ảnh: "), [].
      now rewrite app_nil_r, <- !app_assoc.
    + now apply join_substring.
  - intros td Htd. destruct (Ht td Htd) as [Hb Hin].
    split; [exact Hb|]. now apply join_substring.
Qed.

(** X10.  Every image and table the advanced extractor returns left its token in
    the extracted text: the file name of each image path, as the linker
    computes it, occurs in the text, and so does the token of each table,
    whose page number lies within the document. *)
Theorem extracted_artifacts_have_tokens (file_bytes : bytes) (filename : pystr)
    (text : pystr) (image_paths : list pystr) (tables_data : list table_dict) :
  read_pdf_with_images file_bytes filename = Ok (text, image_paths, tables_data) ->
  exists doc,
    fitz_open file_bytes = Ok doc /\
    (forall p, In p image_paths ->
       startswith (str "extracted_images/") p = true /\
       substring_of (PyPath.name p) text) /\
    (forall td, In td tables_data ->
       1 <= td_page td <= List.length doc /\
       substring_of (table_token filename (td_page td - 1) (td_table_index td)) text).
Proof.
  intros H.
  destruct (@read_pdf_with_images_linked file_bytes filename text image_paths
              tables_data H) as [doc [Ho [Hi Ht]]].
  exists doc. split; [exact Ho|]. split; [|exact Ht].
  intros p Hp. destruct (Hi p Hp) as [[pn [ii ->]] Hs].
  split; [|exact Hs]. unfold img_path. apply startswith_app.
Qed.

Lemma filter_all {A : Type} (f : A -> bool) (l : list A) :
  (forall x, In x l -> f x = true) -> filter f l = l.
Proof.
  induction l as [|x l IH]; intros H; [reflexivity|].
  simpl. rewrite (H x (or_introl eq_refl)). f_equal. apply IH.
  intros y Hy. apply H. now right.
Qed.

(** X11.  When the splitter gives back the text of a PDF as one chunk, every
    extracted image is attached to it, in extraction order. *)
Theorem single_chunk_links_all_images (filename : pystr) (file_bytes : bytes)
    (chunk_size chunk_overlap : Z) (text : pystr) (image_paths : list pystr)
    (tables_data : list table_dict) :
  extension filename = str ".pdf" ->
  read_pdf_with_images file_bytes filename = Ok (text, image_paths, tables_data) ->
  split_text chunk_size chunk_overlap text = Ok [text] ->
  exists it,
    load_and_split filename file_bytes chunk_size chunk_overlap = Ok [it] /\
    content it = text /\
    images (metadata it) = if_nonempty image_paths /\
    (forall p, In p image_paths -> image_attached p it).
Proof.
  intros Hext Hread Hsplit.
  destruct (@read_pdf_with_images_linked file_bytes filename text image_paths
              tables_data Hread) as [doc [_ [Hi _]]].
  assert (Hall : chunk_images image_paths text = image_paths).
  { unfold chunk_images. apply filter_all. intros p Hp.
    apply contains_iff. now apply Hi. }
  exists (make_item filename image_paths tables_data 0 text).
  split.
  - unfold load_and_split, extract_split_link. rewrite Hext.
    change (mem (str ".pdf") SUPPORTED_EXTENSIONS) with true. cbn [negb].
    unfold extract_by_ext. change (PyStr.eqb (str ".pdf") (str ".pdf")) with true.
    cbv iota. rewrite Hread. cbn [try_except bind]. rewrite Hsplit.
    reflexivity.
  - split; [reflexivity|]. split.
    + unfold make_item. cbn [metadata images]. now rewrite Hall.
    + intros p Hp. apply image_attached_make_item. split; [exact Hp|].
      now apply Hi.
Qed.

Lemma build_results_bare (filename : pystr) (chunks : list (nat * pystr)) (it : item) :
  In it (build_results filename [] [] chunks) ->
  images (metadata it) = None /\ tables (metadata it) = None.
Proof.
  induction chunks as [|[i c] chunks IH]; [contradiction|].
  simpl. intros [<-|H]; [split; reflexivity | now apply IH].
Qed.

(** X12.  Chunks of a document that is not a PDF, or of a PDF read by the fallback
    reader, carry [source] and [chunk] only: no [images], no [tables]. *)
Theorem load_and_split_no_artifacts (filename : pystr) (file_bytes : bytes)
    (chunk_size chunk_overlap : Z) (results : list item) :
  load_and_split filename file_bytes chunk_size chunk_overlap = Ok results ->
  (extension filename <> str ".pdf" \/
   exists e, read_pdf_with_images file_bytes filename = Raise e) ->
  forall it, In it results ->
    images (metadata it) = None /\ tables (metadata it) = None.
Proof.
  intros H Hcase. apply load_and_split_inv in H.
  destruct H as [text [ips [tds [chunks [_ [Hex [_ ->]]]]]]].
  assert (Hnone : ips = [] /\ tds = []).
  { unfold extract_by_ext in Hex.
    destruct (PyStr.eqb (extension filename) (str ".pdf")) eqn:Hpdf.
    - destruct Hcase as [Hne|[e He]]; [apply eqb_eq in Hpdf; contradiction|].
      rewrite He in Hex. cbn [try_except] in Hex.
      destruct (read_pdf file_bytes); simpl in Hex; [|discriminate].
      injection Hex as _ <- <-. now split.
    - destruct (PyStr.eqb (extension filename) (str ".docx")).
      + destruct (read_docx file_bytes); simpl in Hex; [|discriminate].
        injection Hex as _ <- <-. now split.
      + destruct (PyStr.eqb (extension filename) (str ".md")).
        * destruct (read_md file_bytes); simpl in Hex; [|discriminate].
          injection Hex as _ <- <-. now split.
        * destruct (read_txt file_bytes); simpl in Hex; [|discriminate].
          injection Hex as _ <- <-. now split. }
  destruct Hnone as [-> ->]. intros it Hit.
  now apply (@build_results_bare filename (enumerate chunks)).
Qed.

End WithRuntime.

(** The report: one image, one chunk. *)
Lemma single_chunk_links_all_images_witness :
  exists it,
    @load_and_split Demo.report_rt (str "report.pdf") [] 1000 200 = Ok [it] /\
    images (metadata it) = Some [str "extracted_images/report_page1_img1.png"].
Proof.
  destruct (@single_chunk_links_all_images Demo.report_rt (str "report.pdf") []
              1000%Z 200%Z
              (str "[Trang 1] Bảng 1: report.pdf_page1_table1" ++ LF ++ LF
               ++ str "[Trang 1]" ++ LF ++ str "Quarterly report" ++ LF ++ LF
               ++ str "[Trang 1] Hình ảnh: report_page1_img1.png")
              [str "extracted_images/report_page1_img1.png"]
              [mkTableDict 1 0
                 (mkDataFrame [Some (str "Item"); Some (str "Qty")]
                    [[Some (str "Pen"); Some (str "2")]])
                 Demo.zero_bbox])
    as [it [Hl [_ [Hi _]]]].
  - vm_compute. reflexivity.
  - vm_compute. reflexivity.
  - vm_compute. reflexivity.
  - exists it. split; [exact Hl|]. rewrite Hi. reflexivity.
Defined.

(** The report again: one table on page 1 of 1, one image. *)
Lemma extracted_artifacts_have_tokens_witness :
  exists doc,
    @fitz_open Demo.report_rt [] = Ok doc /\
    List.length doc = 1 /\
    substring_of (str "report_page1_img1.png")
      (str "[Trang 1] Bảng 1: report.pdf_page1_table1" ++ LF ++ LF
       ++ str "[Trang 1]" ++ LF ++ str "Quarterly report" ++ LF ++ LF
       ++ str "[Trang 1] Hình ảnh: report_page1_img1.png").
Proof.
  destruct (@extracted_artifacts_have_tokens Demo.report_rt [] (str "report.pdf")
              (str "[Trang 1] Bảng 1: report.pdf_page1_table1" ++ LF ++ LF
               ++ str "[Trang 1]" ++ LF ++ str "Quarterly report" ++ LF ++ LF
               ++ str "[Trang 1] Hình ảnh: report_page1_img1.png")
              [str "extracted_images/report_page1_img1.png"]
              [mkTableDict 1 0
                 (mkDataFrame [Some (str "Item"); Some (str "Qty")]
                    [[Some (str "Pen"); Some (str "2")]])
                 Demo.zero_bbox])
    as [doc [Ho [Hi _]]].
  - vm_compute. reflexivity.
  - exists doc. split; [exact Ho|]. split.
    + vm_compute in Ho. injection Ho as <-. reflexivity.
    + destruct (Hi (str "extracted_images/report_page1_img1.png")) as [_ Hs].
      * now left.
      * exact Hs.
Defined.

(** Chunks of a text file. *)
Lemma load_and_split_no_artifacts_witness :
  exists results,
    @load_and_split Demo.report_rt (str "notes.txt") (Demo.ascii_bytes "hello world") 4 0
      = Ok results /\
    forall it, In it results ->
      images (metadata it) = None /\ tables (metadata it) = None.
Proof.
  eexists. split; [vm_compute; reflexivity|].
  apply (@load_and_split_no_artifacts Demo.report_rt (str "notes.txt")
           (Demo.ascii_bytes "hello world") 4%Z 0%Z).
  - vm_compute. reflexivity.
  - left. vm_compute. discriminate.
Defined.

End ExtractionProperties.

(* ================================================================== *)
(** ** The fallback PDF reader in the router *)

Module FallbackProperties.
Import PyStrFacts FileProcessors CountFacts FileProcessorsFacts Vocabulary Router.

Section WithRuntime.
Context {rt : Runtime}.

Lemma read_pdf_loop_inv (pages : list (result (option pystr))) (k : nat)
    (acc acc' : list pystr) :
  read_pdf_loop (enumerate_from k pages) acc = Ok acc' ->
  marked acc ->
  marked acc' /\ List.length acc' = List.length acc + fallback_text_pages pages.
Proof.
  revert k acc. induction pages as [|page pages IH]; intros k acc H Hm.
  - simpl in H. injection H as <-. split; [exact Hm|]. unfold fallback_text_pages.
    simpl. lia.
  - simpl in H. destruct page as [extracted|e]; simpl in H; [|discriminate].
    unfold fallback_text_pages. cbn [filter fallback_yields_text].
    destruct extracted as [t|].
    + destruct (truthy t) eqn:Et.
      * cbn [andb]. destruct (truthy (strip t)).
        -- apply IH in H; [|now apply marked_snoc].
           destruct H as [H1 H2]. split; [exact H1|].
           rewrite H2, length_app. unfold fallback_text_pages. simpl. lia.
        -- now apply IH in H.
      * cbn [andb]. change (truthy (strip [])) with false in H. cbv iota in H.
        now apply IH in H.
    + change (truthy (strip [])) with false in H. cbv iota in H.
      now apply IH in H.
Qed.

(** X13.  When the advanced extractor raises and the fallback reader succeeds,
    [_handle_pdf] returns a success without tables or images that records
    the first fault as [fallback_reason], and its [page_count] is at least
    the number of pages with text; without any such page the content is
    empty and [page_count] is 1. *)
Theorem handle_pdf_fallback (filename : pystr) (file_bytes : bytes) (e : exn)
    (pages : list (result (option pystr))) (text : pystr) :
  read_pdf_with_images file_bytes filename = Raise e ->
  PdfReader_pages file_bytes = Ok pages ->
  read_pdf file_bytes = Ok text ->
  exists r pc,
    _handle_pdf filename file_bytes = Ok r /\
    success r = true /\ content r = text /\ tables r = [] /\ images r = [] /\
    dict_get (str "processing_method") (metadata r) = Some (VStr (str "pypdf_simple")) /\
    dict_get (str "fallback_reason") (metadata r) = Some (VStr (exn_str e)) /\
    dict_get (str "page_count") (metadata r) = Some (VInt pc) /\
    (Z.of_nat (fallback_text_pages pages) <= pc)%Z /\
    (fallback_text_pages pages = 0 -> text = [] /\ pc = 1%Z).
Proof.
  intros Hadv Hpages Hread.
  unfold _handle_pdf. rewrite Hadv, Hread.
  do 2 eexists. split; [reflexivity|]. do 7 (split; [reflexivity|]).
  unfold read_pdf in Hread. rewrite Hpages in Hread. simpl in Hread.
  destruct (read_pdf_loop (enumerate_from 1 pages) []) as [acc|e'] eqn:Hloop;
    simpl in Hread; [|discriminate].
  injection Hread as <-.
  apply read_pdf_loop_inv in Hloop; [|constructor].
  destruct Hloop as [Hm Hlen]. simpl in Hlen.
  assert (Hne : TRANG <> []) by (rewrite TRANG_chars; discriminate).
  pose proof (occurrences_join LF Hne Hm) as Hocc.
  split.
  - unfold page_count_of. destruct (contains TRANG (join LF acc)) eqn:Hc.
    + rewrite count_TRANG_occurrences. lia.
    + apply occurrences_none in Hc. lia.
  - intros H0. rewrite H0 in Hlen. destruct acc; [|discriminate].
    split; reflexivity.
Qed.

End WithRuntime.

(** A file the advanced extractor cannot open, with one page of text out of
    three for the fallback reader. *)
Lemma handle_pdf_fallback_witness :
  exists r,
    @_handle_pdf Samples.fallback_rt (str "scan.pdf") [] = Ok r /\
    success r = true /\
    content r = str "[Trang 1]" ++ LF ++ str "Page one" /\
    dict_get (str "page_count") (metadata r) = Some (VInt 1) /\
    dict_get (str "fallback_reason") (metadata r) = Some (VStr (str "cannot open stream")).
Proof.
  destruct (@handle_pdf_fallback Samples.fallback_rt (str "scan.pdf") []
              (mkExn (str "FileDataError") (str "cannot open stream"))
              [Ok (Some (str "Page one")); Ok None; Ok (Some (str "  "))]
              (str "[Trang 1]" ++ LF ++ str "Page one"))
    as [r [pc [Hr [Hs [Hc [_ [_ [_ [Hf [Hp _]]]]]]]]]].
  - vm_compute. reflexivity.
  - reflexivity.
  - vm_compute. reflexivity.
  - exists r. split; [exact Hr|]. split; [exact Hs|]. split; [exact Hc|].
    split; [|exact Hf].
    clear Hp Hs Hc Hf. vm_compute in Hr.
    injection Hr as <-. vm_compute. reflexivity.
Defined.

End FallbackProperties.

(* ================================================================== *)
(** ** Citations: from the chunks to the prompt context *)

Module CitationProperties.
Import PyStrFacts TokenFacts Ingestion IngestionFacts Agent.

Section WithRuntime.
Context {rt : Runtime}.

(** X14.  Each chunk of a successful [load_and_split] appears in the context
    text of the answer generator as its own tag
    [[source=<filename>, chunk=<i>]], a line feed and its text. *)
Theorem context_text_cites_every_chunk (filename : pystr) (file_bytes : bytes)
    (chunk_size chunk_overlap : Z) (results : list item) :
  load_and_split filename file_bytes chunk_size chunk_overlap = Ok results ->
  forall i it, nth_error results i = Some it ->
    substring_of
      (str "[source=" ++ filename ++ str ", chunk=" ++ of_nat i ++ str "]"
         ++ LF ++ content it)
      (context_text results).
Proof.
  intros H i it Hit. pose proof H as Hinv. apply load_and_split_inv in Hinv.
  destruct Hinv as [text [ips [tds [chunks [_ [_ [_ ->]]]]]]].
  unfold enumerate in Hit. rewrite build_results_nth in Hit.
  destruct (nth_error chunks i) as [c|] eqn:Hc; [|discriminate].
  simpl in Hit. injection Hit as <-.
  unfold context_text. apply join_substring.
  apply in_map_iff.
  exists (make_item filename ips tds i c). split.
  - unfold context_entry, citation_tag, make_item. cbn [metadata source chunk content].
    now rewrite <- !app_assoc.
  - apply nth_error_In with (n := i).
    unfold enumerate. now rewrite build_results_nth, Hc.
Qed.

(** X15.  Two chunks of one call with the same citation tag are the same chunk:
    the tag identifies the position. *)
Theorem citation_tags_identify_chunks (filename : pystr) (file_bytes : bytes)
    (chunk_size chunk_overlap : Z) (results : list item) :
  load_and_split filename file_bytes chunk_size chunk_overlap = Ok results ->
  forall i j a b,
    nth_error results i = Some a ->
    nth_error results j = Some b ->
    citation_tag (metadata a) = citation_tag (metadata b) ->
    i = j.
Proof.
  intros H i j a b Ha Hb Htag. apply load_and_split_inv in H.
  destruct H as [text [ips [tds [chunks [_ [_ [_ ->]]]]]]].
  unfold enumerate in Ha, Hb. rewrite build_results_nth in Ha, Hb.
  destruct (nth_error chunks i) as [ci|]; [|discriminate].
  destruct (nth_error chunks j) as [cj|]; [|discriminate].
  simpl in Ha, Hb. injection Ha as <-. injection Hb as <-.
  unfold citation_tag, make_item in Htag. cbn [metadata source chunk] in Htag.
  apply app_inv_head in Htag. apply app_inv_head in Htag.
  apply app_inv_head in Htag. apply app_inv_tail in Htag.
  now apply of_nat_inj.
Qed.

End WithRuntime.

(** The three chunks of a text file in the context text. *)
Lemma context_text_cites_every_chunk_witness :
  exists results it,
    @load_and_split Demo.report_rt (str "notes.txt") (Demo.ascii_bytes "hello world") 4 0
      = Ok results /\
    nth_error results 2 = Some it /\
    substring_of
      (str "[source=" ++ str "notes.txt" ++ str ", chunk=" ++ of_nat 2 ++ str "]"
         ++ LF ++ content it)
      (context_text results).
Proof.
  do 2 eexists. split; [vm_compute; reflexivity|]. split; [reflexivity|].
  apply (@context_text_cites_every_chunk Demo.report_rt (str "notes.txt")
           (Demo.ascii_bytes "hello world") 4%Z 0%Z).
  - vm_compute. reflexivity.
  - reflexivity.
Defined.

Lemma citation_tags_identify_chunks_witness :
  exists results a,
    @load_and_split Demo.report_rt (str "notes.txt") (Demo.ascii_bytes "hello world") 4 0
      = Ok results /\
    nth_error results 1 = Some a /\
    citation_tag (metadata a) = str "[source=notes.txt, chunk=1]" /\
    1 = 1.
Proof.
  do 2 eexists. split; [vm_compute; reflexivity|]. split; [reflexivity|].
  split; [vm_compute; reflexivity|].
  eapply (@citation_tags_identify_chunks Demo.report_rt (str "notes.txt")
            (Demo.ascii_bytes "hello world") 4%Z 0%Z).
  - vm_compute. reflexivity.
  - reflexivity.
  - reflexivity.
  - reflexivity.
Defined.

End CitationProperties.

(* ================================================================== *)
(** ** Router and chunker side by side; the upload loop *)

Module PipelineProperties.
Import PyStrFacts Router Analyzer RouterProperties AnalyzerClaims MainUI.

Section WithRuntime.
Context {rt : Runtime}.

Lemma detect_file_type_extension (filename : pystr) :
  match detect_file_type filename with
  | PDF => Ingestion.extension filename = str ".pdf"
  | DOCX => Ingestion.extension filename = str ".docx"
  | DOC => Ingestion.extension filename = str ".doc"
  | TXT => Ingestion.extension filename = str ".txt"
  | MD => Ingestion.extension filename = str ".md"
           \/ Ingestion.extension filename = str ".markdown"
  | UNKNOWN => ~ In (Ingestion.extension filename) Spec.supported_extensions
  end.
Proof.
  unfold detect_file_type. fold (Ingestion.extension filename).
  destruct (PyStr.eqb (Ingestion.extension filename) (str ".pdf")) eqn:E1;
    [now apply eqb_eq in E1|].
  destruct (PyStr.eqb (Ingestion.extension filename) (str ".docx")) eqn:E2;
    [now apply eqb_eq in E2|].
  destruct (PyStr.eqb (Ingestion.extension filename) (str ".doc")) eqn:E3;
    [now apply eqb_eq in E3|].
  destruct (PyStr.eqb (Ingestion.extension filename) (str ".txt")) eqn:E4;
    [now apply eqb_eq in E4|].
  destruct (PyStr.eqb (Ingestion.extension filename) (str ".md")) eqn:E5;
    [left; now apply eqb_eq in E5|].
  destruct (PyStr.eqb (Ingestion.extension filename) (str ".markdown")) eqn:E6;
    [right; now apply eqb_eq in E6|].
  unfold Spec.supported_extensions.
  intros [H|[H|[H|[H|[H|[H|[]]]]]]]; symmetry in H; apply eqb_eq in H; congruence.
Qed.

(** X16.  The router and [load_and_split] read the same extension and disagree on
    two of them: a file the router sends to the DOCX handler as [.doc], or
    to the Markdown handler as [.markdown], is rejected by [load_and_split]
    with [ValueError]; so is every file of unknown type; and every file
    [load_and_split] lets through has a handler in the router. *)
Theorem router_and_chunker_extensions (filename : pystr) (file_bytes : bytes)
    (chunk_size chunk_overlap : Z) :
  (detect_file_type filename = DOC ->
   Ingestion.load_and_split filename file_bytes chunk_size chunk_overlap
     = Raise (Ingestion.ValueError (str "Unsupported file type: .doc"))) /\
  (Ingestion.extension filename = str ".markdown" ->
   detect_file_type filename = MD /\
   Ingestion.load_and_split filename file_bytes chunk_size chunk_overlap
     = Raise (Ingestion.ValueError (str "Unsupported file type: .markdown"))) /\
  (detect_file_type filename = UNKNOWN ->
   Ingestion.load_and_split filename file_bytes chunk_size chunk_overlap
     = Raise (Ingestion.ValueError
                (str "Unsupported file type: " ++ Ingestion.extension filename))) /\
  (mem (Ingestion.extension filename) Ingestion.SUPPORTED_EXTENSIONS = true ->
   exists h, _handlers (detect_file_type filename) = Some h /\
             detect_file_type filename <> DOC).
Proof.
  pose proof (detect_file_type_extension filename) as Hd.
  repeat split.
  - intros H. rewrite H in Hd. unfold Ingestion.load_and_split. rewrite Hd. reflexivity.
  - unfold detect_file_type. fold (Ingestion.extension filename). rewrite H. reflexivity.
  - unfold Ingestion.load_and_split. rewrite H. reflexivity.
  - intros H. rewrite H in Hd. unfold Ingestion.load_and_split.
    destruct (mem (Ingestion.extension filename) Ingestion.SUPPORTED_EXTENSIONS) eqn:Hm;
      [|reflexivity].
    exfalso. apply Hd. apply mem_In in Hm.
    unfold Ingestion.SUPPORTED_EXTENSIONS in Hm. unfold Spec.supported_extensions.
    simpl in Hm |- *. tauto.
  - intros Hm. apply mem_In in Hm. unfold Ingestion.SUPPORTED_EXTENSIONS in Hm.
    unfold detect_file_type. fold (Ingestion.extension filename).
    destruct Hm as [H|[H|[H|[H|[]]]]]; rewrite <- H;
      eexists; split; try reflexivity; discriminate.
Qed.

(** The recommended chunk size of any analysis is between 200 and 2200. *)
Lemma recommended_size_range (pr : ProcessingResult) :
  (200 <= recommended_chunk_size (analyze_content pr) <= 2200)%Z.
Proof.
  unfold analyze_content. destruct (success pr); cbn [negb];
    [|cbn [recommended_chunk_size]; lia].
  destruct (_determine_content_type _ _ _ _ _) as [ct cf].
  set (tl := Z.of_nat (List.length (content pr))).
  set (tc := Z.of_nat (List.length (tables pr))).
  set (ic := Z.of_nat (List.length (images pr))).
  set (s := get_structure_score _).
  assert (H : (200 <= fst (_recommend_processing_strategy ct tl tc ic s) <= 2200)%Z).
  { unfold _recommend_processing_strategy. rewrite !Z.gtb_ltb.
    destruct ct; cbn [fst];
      destruct (Z.ltb_spec tl 2000); destruct (Z.ltb_spec 50000 tl);
      destruct (Z.ltb_spec 5 tc); destruct (Z.ltb_spec 10 ic);
      cbn [orb fst]; lia. }
  destruct (_recommend_processing_strategy ct tl tc ic s) as [sz strat].
  cbn [recommended_chunk_size]. exact H.
Qed.

(** X17.  For a file routed with success the upload loop chunks with a size
    between 200 and 2200 and an overlap of at most a quarter of the size and
    at most the configured overlap: the overlap is always smaller than the
    chunk size, whatever the configuration. *)
Theorem chunk_parameters_after_success (cfg : AppConfig) (pr : ProcessingResult) :
  success pr = true ->
  let size := fst (chunk_parameters cfg pr) in
  let overlap := snd (chunk_parameters cfg pr) in
  size = recommended_chunk_size (analyze_content pr) /\
  (200 <= size <= 2200)%Z /\
  (overlap <= cfg_chunk_overlap cfg)%Z /\
  (4 * overlap <= size)%Z /\
  (overlap < size)%Z /\
  ((0 <= cfg_chunk_overlap cfg)%Z -> (0 <= overlap)%Z).
Proof.
  intros Hs. unfold chunk_parameters. rewrite Hs. cbn [fst snd].
  pose proof (recommended_size_range pr) as Hr.
  set (size := recommended_chunk_size (analyze_content pr)) in *.
  assert (Hq : (4 * (size / 4) <= size)%Z) by (apply Z.mul_div_le; lia).
  assert (Hq0 : (0 <= size / 4)%Z) by (apply Z.div_pos; lia).
  repeat split; lia.
Qed.

(** X18.  A file whose extension [load_and_split] does not support makes its
    iteration of the upload loop raise [ValueError], also after the router
    handled it, and with it the whole batch: no items come out. *)
Theorem unsupported_upload_aborts_batch (cfg : AppConfig) (name : pystr)
    (file_bytes : bytes) :
  mem (Ingestion.extension name) Ingestion.SUPPORTED_EXTENSIONS = false ->
  (forall st,
     fst (upload_chunks cfg st name file_bytes)
       = Raise (Ingestion.ValueError
                  (str "Unsupported file type: " ++ Ingestion.extension name))) /\
  (forall uploaded_files st items,
     In (name, file_bytes) uploaded_files ->
     exists e, upload_items cfg st uploaded_files items = Raise e).
Proof.
  intros Hm.
  assert (Hone : forall st,
            fst (upload_chunks cfg st name file_bytes)
            = Raise (Ingestion.ValueError
                       (str "Unsupported file type: " ++ Ingestion.extension name))).
  { intros st. unfold upload_chunks.
    destruct (route_file_counts _handlers st name file_bytes) as [r [st' [Hr _]]].
    rewrite Hr. destruct (chunk_parameters cfg r) as [size overlap]. cbn [fst].
    unfold Ingestion.load_and_split. now rewrite Hm. }
  split; [exact Hone|].
  intros files. induction files as [|[n b] files IH]; intros st items Hin;
    [contradiction|].
  cbn [upload_items].
  destruct Hin as [Heq|Hin].
  - injection Heq as -> ->. specialize (Hone st).
    destruct (upload_chunks cfg st name file_bytes) as [[chunks|e] st'];
      cbn [fst] in Hone; [discriminate|]. now exists e.
  - destruct (upload_chunks cfg st n b) as [[chunks|e] st'].
    + now apply IH.
    + now exists e.
Qed.

End WithRuntime.

(** A successful text upload under the default configuration. *)
Lemma chunk_parameters_after_success_witness :
  success Demo.prose = true /\
  @chunk_parameters Demo.report_rt (mkConfig 800 120) Demo.prose = (200%Z, 50%Z) /\
  (50 < 200)%Z.
Proof.
  split; [reflexivity|].
  destruct (@chunk_parameters_after_success Demo.report_rt (mkConfig 800 120)
              Demo.prose eq_refl) as [_ [_ [_ [_ [Hlt _]]]]].
  assert (Hv : @chunk_parameters Demo.report_rt (mkConfig 800 120) Demo.prose
               = (200%Z, 50%Z)) by (vm_compute; reflexivity).
  split; [exact Hv|]. rewrite Hv in Hlt. exact Hlt.
Defined.

(** A batch with a [.doc] file between two text files. *)
Lemma unsupported_upload_aborts_batch_witness :
  exists e,
    @upload_items Demo.report_rt (mkConfig 800 120) initial_stats
      [(str "a.txt", Demo.ascii_bytes "alpha");
       (str "letter.doc", Demo.ascii_bytes "Dear all");
       (str "b.txt", Demo.ascii_bytes "beta")] [] = Raise e.
Proof.
  apply (proj2 (@unsupported_upload_aborts_batch Demo.report_rt (mkConfig 800 120)
                  (str "letter.doc") (Demo.ascii_bytes "Dear all") eq_refl)).
  right. left. reflexivity.
Defined.

(** A [.doc] file and a [.txt] file. *)
Lemma router_and_chunker_extensions_witness :
  @detect_file_type Demo.report_rt (str "letter.doc") = DOC /\
  @Ingestion.load_and_split Demo.report_rt (str "letter.doc")
    (Demo.ascii_bytes "Dear all") 800 120
    = Raise (Ingestion.ValueError (str "Unsupported file type: .doc")).
Proof.
  assert (Hd : @detect_file_type Demo.report_rt (str "letter.doc") = DOC)
    by (vm_compute; reflexivity).
  split; [exact Hd|].
  exact (proj1 (@router_and_chunker_extensions Demo.report_rt (str "letter.doc")
                  (Demo.ascii_bytes "Dear all") 800%Z 120%Z) Hd).
Defined.

End PipelineProperties.

(* ================================================================== *)
(** ** services/vectorstore.py: the listing of sources *)

Module ListSourcesProperties.
Import PyStrFacts VectorStore Vocabulary.

Lemma str_ltb_irrefl (a : pystr) : str_ltb a a = false.
Proof.
  induction a as [|x a IH]; [reflexivity|].
  simpl. now rewrite N.ltb_irrefl, N.eqb_refl, IH.
Qed.

Lemma str_ltb_trans (a b c : pystr) :
  str_ltb a b = true -> str_ltb b c = true -> str_ltb a c = true.
Proof.
  revert b c. induction a as [|x a IH]; intros b c Hab Hbc.
  - destruct b as [|y b]; [discriminate|]. destruct c; [discriminate | reflexivity].
  - destruct b as [|y b]; [discriminate|]. destruct c as [|z c]; [discriminate|].
    simpl in *.
    apply orb_true_iff in Hab. apply orb_true_iff in Hbc. apply orb_true_iff.
    destruct Hab as [Hab|Hab]; destruct Hbc as [Hbc|Hbc];
      rewrite ?andb_true_iff, ?N.ltb_lt, ?N.eqb_eq in *.
    + left. lia.
    + left. destruct Hbc as [-> _]. exact Hab.
    + left. destruct Hab as [-> _]. exact Hbc.
    + right. destruct Hab as [-> Hab]. destruct Hbc as [-> Hbc].
      split; [reflexivity|]. now apply IH with (b := b).
Qed.

Lemma str_ltb_total (a b : pystr) :
  PyStr.eqb a b = false -> str_ltb a b = false -> str_ltb b a = true.
Proof.
  revert b. induction a as [|x a IH]; intros b Hne Hlt.
  - destruct b; [|discriminate]. now rewrite (proj2 (eqb_eq [] []) eq_refl) in Hne.
  - destruct b as [|y b]; [reflexivity|].
    simpl in *. apply orb_false_iff in Hlt. destruct Hlt as [Hxy Hrest].
    apply N.ltb_ge in Hxy.
    destruct (N.eqb_spec x y) as [->|Hneq].
    + rewrite N.ltb_irrefl, N.eqb_refl. simpl. simpl in Hrest.
      apply IH; [|exact Hrest].
      destruct (PyStr.eqb a b) eqn:E; [|reflexivity].
      apply eqb_eq in E. subst b.
      now rewrite (proj2 (eqb_eq (y :: a) (y :: a)) eq_refl) in Hne.
    + apply orb_true_iff. left. apply N.ltb_lt. lia.
Qed.

Lemma insert_sorted_In (x y : pystr) (l : list pystr) :
  In x (insert_sorted y l) <-> x = y \/ In x l.
Proof.
  induction l as [|z l IH]; simpl.
  - intuition.
  - destruct (PyStr.eqb y z) eqn:E.
    + apply eqb_eq in E. subst z. simpl. intuition.
    + destruct (str_ltb y z); simpl; [intuition|]. rewrite IH. intuition.
Qed.

Lemma insert_sorted_sorted (y : pystr) (l : list pystr) :
  StronglySorted str_lt l -> StronglySorted str_lt (insert_sorted y l).
Proof.
  induction 1 as [|z l Hs IH Hall]; simpl.
  - constructor; constructor.
  - destruct (PyStr.eqb y z) eqn:E; [now constructor|].
    destruct (str_ltb y z) eqn:Hlt.
    + constructor; [now constructor|].
      constructor; [exact Hlt|].
      rewrite Forall_forall in *. intros w Hw.
      apply str_ltb_trans with (b := z); [exact Hlt | now apply Hall].
    + constructor; [exact IH|].
      rewrite Forall_forall in *. intros w Hw. apply insert_sorted_In in Hw.
      destruct Hw as [Hw|Hw]; [subst w|now apply Hall].
      apply str_ltb_total; [exact E | exact Hlt].
Qed.

Lemma sorted_set_from (l acc : list pystr) :
  StronglySorted str_lt acc ->
  StronglySorted str_lt (fold_left (fun acc x => insert_sorted x acc) l acc) /\
  (forall x, In x (fold_left (fun acc x => insert_sorted x acc) l acc)
             <-> In x l \/ In x acc).
Proof.
  revert acc. induction l as [|y l IH]; intros acc Hs; simpl.
  - split; [exact Hs | intuition].
  - destruct (IH (insert_sorted y acc) (insert_sorted_sorted y Hs)) as [H1 H2].
    split; [exact H1|]. intros x. rewrite H2, insert_sorted_In. intuition.
Qed.

Lemma sorted_NoDup (l : list pystr) : StronglySorted str_lt l -> NoDup l.
Proof.
  induction 1 as [|z l Hs IH Hall]; constructor; [|exact IH].
  intros Hin. rewrite Forall_forall in Hall. specialize (Hall z Hin).
  unfold str_lt in Hall. now rewrite str_ltb_irrefl in Hall.
Qed.

Section WithClient.
Context {qd : Qdrant}.

(** The loop over the points stops with a fault at the first point whose
    metadata is not a dict, and otherwise collects the sources in order. *)
Lemma collect_sources_spec (points : list point) (acc : list pystr) :
  collect_sources points acc =
  if existsb malformed points then Raise AttributeError
  else Ok (acc ++ flat_map (fun p => match point_source p with
                                     | Some s => [s]
                                     | None => []
                                     end) points).
Proof.
  revert acc. induction points as [|p points IH]; intros acc.
  - simpl. now rewrite app_nil_r.
  - cbn [collect_sources existsb flat_map]. unfold malformed at 1, point_source at 1.
    destruct (payload p) as [[[[s|]|]|]|]; cbn [orb]; rewrite ?IH.
    + destruct (truthy s); destruct (existsb malformed points); try reflexivity;
        cbn [app]; now rewrite <- ?app_assoc.
    + destruct (existsb malformed points); reflexivity.
    + reflexivity.
    + destruct (existsb malformed points); reflexivity.
    + destruct (existsb malformed points); reflexivity.
Qed.

(** X19.  [list_sources] returns each source once, in increasing order: when the
    scroll succeeds and every point has dict metadata (or none), the result
    is strictly sorted, free of duplicates, and holds exactly the non-empty
    sources of the scrolled points. *)
Theorem list_sources_sorted_unique (points : list point) :
  get_client = Ok tt ->
  client_scroll qdrant_collection 1000 = Ok points ->
  existsb malformed points = false ->
  exists l,
    list_sources = Ok l /\
    StronglySorted str_lt l /\
    NoDup l /\
    (forall s, In s l <-> exists p, In p points /\ point_source p = Some s) /\
    (forall s, In s l -> s <> []).
Proof.
  intros Hc Hs Hm. unfold list_sources. rewrite Hc. cbn [bind].
  rewrite Hs. cbn [bind]. rewrite collect_sources_spec, Hm. cbn [bind try_except app].
  eexists. split; [reflexivity|].
  destruct (@sorted_set_from
              (flat_map (fun p => match point_source p with
                                  | Some s => [s]
                                  | None => []
                                  end) points) [] (SSorted_nil _)) as [H1 H2].
  assert (Hin : forall s, In s (sorted_set (flat_map (fun p => match point_source p with
                                  | Some s => [s]
                                  | None => []
                                  end) points))
                          <-> exists p, In p points /\ point_source p = Some s).
  { intros s. unfold sorted_set. rewrite H2, in_flat_map. split.
    - intros [[p [Hp Hsp]]|[]]. exists p. split; [exact Hp|].
      destruct (point_source p) as [s'|]; [|contradiction].
      destruct Hsp as [->|[]]. reflexivity.
    - intros [p [Hp Hsp]]. left. exists p. split; [exact Hp|].
      rewrite Hsp. now left. }
  split; [exact H1|]. split; [now apply sorted_NoDup|]. split; [exact Hin|].
  intros s Hl. apply Hin in Hl. destruct Hl as [p [_ Hsp]].
  unfold point_source in Hsp.
  destruct (payload p) as [[[[s'|]|]|]|]; try discriminate.
  destruct (truthy s') eqn:Et; [|discriminate]. injection Hsp as <-.
  intros ->. discriminate.
Qed.

(** X20.  One scrolled point whose [metadata] is not a dict empties the listing:
    the fault of the loop is swallowed and the sources of all other points
    are lost with it. *)
Theorem list_sources_malformed_point (points : list point) :
  get_client = Ok tt ->
  client_scroll qdrant_collection 1000 = Ok points ->
  existsb malformed points = true ->
  list_sources = Ok [].
Proof.
  intros Hc Hs Hm. unfold list_sources. rewrite Hc. cbn [bind].
  rewrite Hs. cbn [bind]. rewrite collect_sources_spec, Hm. reflexivity.
Qed.

End WithClient.

(** Three points of two sources and a point without payload. *)
Lemma list_sources_sorted_unique_witness :
  @list_sources Samples.two_sources_store = Ok [str "notes.txt"; str "report.pdf"] /\
  NoDup [str "notes.txt"; str "report.pdf"].
Proof.
  destruct (@list_sources_sorted_unique Samples.two_sources_store
              [Samples.sourced "notes.txt"; mkPoint None; Samples.sourced "report.pdf";
               Samples.sourced "notes.txt"] eq_refl eq_refl eq_refl)
    as [l [Hl [_ [Hnd _]]]].
  assert (Hv : @list_sources Samples.two_sources_store
               = Ok [str "notes.txt"; str "report.pdf"]) by (vm_compute; reflexivity).
  split; [exact Hv|]. rewrite Hv in Hl. injection Hl as <-. exact Hnd.
Defined.

(** Two sourced points around a point with a non-dict [metadata]. *)
Lemma list_sources_malformed_point_witness :
  @list_sources Samples.malformed_store = Ok [].
Proof.
  apply (@list_sources_malformed_point Samples.malformed_store
           [Samples.sourced "notes.txt"; mkPoint (Some (Some MetaOther));
            Samples.sourced "report.pdf"]); reflexivity.
Defined.

End ListSourcesProperties.

(* ================================================================== *)
(** ** Routed results under the analyzer *)

Module RoutedAnalysisProperties.
Import PyStrFacts FileProcessors Router RouterProperties Analyzer AnalyzerClaims.

Section WithRuntime.
Context {rt : Runtime}.

(** Without tables and images the recommendation stays at 1300 or below. *)
Lemma recommend_without_artifacts (ct : ContentType) (tl : Z) (s : Q) :
  ct = TEXT_ONLY \/ ct = STRUCTURED_TEXT ->
  (fst (_recommend_processing_strategy ct tl 0 0 s) <= 1300)%Z /\
  snd (_recommend_processing_strategy ct tl 0 0 s)
    = match ct with TEXT_ONLY => str "text_only" | _ => str "structure_aware" end.
Proof.
  unfold _recommend_processing_strategy. rewrite !Z.gtb_ltb.
  intros [->| ->]; cbn [fst snd orb Z.ltb Z.compare];
    destruct (Z.ltb_spec tl 2000); destruct (Z.ltb_spec 50000 tl);
    split; try reflexivity; lia.
Qed.

(** X21.  A DOCX, text or Markdown file routed with success is analysed as text:
    [TEXT_ONLY] with strategy [text_only] or [STRUCTURED_TEXT] with strategy
    [structure_aware], with text and without tables or images, one page,
    and a recommended chunk size of at most 1300. *)
Theorem routed_text_file_analysis (st : stats) (filename : pystr)
    (file_bytes : bytes) (r : ProcessingResult) :
  detect_file_type filename <> PDF ->
  fst (route_file _handlers st filename file_bytes) = Ok r ->
  success r = true ->
  ((content_type (analyze_content r) = TEXT_ONLY /\
    recommended_strategy (analyze_content r) = str "text_only") \/
   (content_type (analyze_content r) = STRUCTURED_TEXT /\
    recommended_strategy (analyze_content r) = str "structure_aware")) /\
  has_text (analyze_content r) = true /\
  has_tables (analyze_content r) = false /\
  has_images (analyze_content r) = false /\
  page_count (analyze_content r) = VInt 1 /\
  (recommended_chunk_size (analyze_content r) <= 1300)%Z.
Proof.
  intros Hpdf Hr Hs.
  destruct (route_file_success_inv _ _ _ Hr Hs) as [h [Hh Hcall]].
  destruct (text_handlers_success filename file_bytes Hpdf Hh Hcall Hs)
    as [Hnb [Ht [Hi [Hpc _]]]].
  unfold analyze_content. rewrite Hs. cbn [negb].
  unfold nonblank in Hnb. rewrite Hnb, Ht, Hi, Hpc.
  cbn [List.length Nat.ltb Nat.leb].
  unfold _determine_content_type. cbn [negb andb].
  set (sc := get_structure_score _).
  set (tl := Z.of_nat (List.length (content r))).
  change (Z.of_nat 0) with 0%Z.
  destruct (Qlt_bool (3 # 10) sc).
  - destruct (recommend_without_artifacts tl sc (or_intror eq_refl)) as [H1 H2].
    destruct (_recommend_processing_strategy STRUCTURED_TEXT tl 0 0 sc) as [sz strat].
    cbn [fst snd] in H1, H2.
    cbn [content_type recommended_strategy has_text has_tables has_images
         page_count recommended_chunk_size].
    repeat split; auto.
  - destruct (recommend_without_artifacts tl sc (or_introl eq_refl)) as [H1 H2].
    destruct (_recommend_processing_strategy TEXT_ONLY tl 0 0 sc) as [sz strat].
    cbn [fst snd] in H1, H2.
    cbn [content_type recommended_strategy has_text has_tables has_images
         page_count recommended_chunk_size].
    repeat split; auto.
Qed.

(** X22.  A PDF in which the advanced extractor finds nothing (for one, a document
    without pages) is a success for the router, with empty content and
    [page_count] 1, and [EMPTY] for the analyzer, with the floor chunk size
    of 200. *)
Theorem empty_pdf_success_and_empty (filename : pystr) (file_bytes : bytes) :
  (mkdir_images = Ok tt -> fitz_open file_bytes = Ok [] ->
   read_pdf_with_images file_bytes filename = Ok ([], [], [])) /\
  (read_pdf_with_images file_bytes filename = Ok ([], [], []) ->
   exists r,
     _handle_pdf filename file_bytes = Ok r /\
     success r = true /\
     content r = [] /\
     dict_get (str "page_count") (metadata r) = Some (VInt 1) /\
     content_type (analyze_content r) = EMPTY /\
     confidence (analyze_content r) = 1%Q /\
     recommended_chunk_size (analyze_content r) = 200%Z).
Proof.
  split.
  - intros Hm Ho. unfold read_pdf_with_images. rewrite Hm, Ho. reflexivity.
  - intros H. unfold _handle_pdf. rewrite H.
    eexists. split; [reflexivity|]. repeat split.
Qed.

End WithRuntime.

(** A note routed and analysed. *)
Lemma routed_text_file_analysis_witness :
  exists r,
    fst (@route_file Demo.report_rt (@_handlers Demo.report_rt) initial_stats
           (str "notes.txt") (Demo.ascii_bytes "Plain text, 42 items.")) = Ok r /\
    success r = true /\
    has_text (@analyze_content Demo.report_rt r) = true /\
    page_count (@analyze_content Demo.report_rt r) = VInt 1.
Proof.
  destruct (fst (@route_file Demo.report_rt (@_handlers Demo.report_rt) initial_stats
                   (str "notes.txt") (Demo.ascii_bytes "Plain text, 42 items.")))
    as [r|e] eqn:Hr.
  - exists r. split; [reflexivity|].
    assert (Hs : success r = true).
    { pose proof Hr as Hv. vm_compute in Hv. injection Hv as <-. reflexivity. }
    split; [exact Hs|].
    destruct (@routed_text_file_analysis Demo.report_rt initial_stats (str "notes.txt")
                (Demo.ascii_bytes "Plain text, 42 items.") r)
      as [_ [H2 [_ [_ [H5 _]]]]].
    + vm_compute. discriminate.
    + exact Hr.
    + exact Hs.
    + split; assumption.
  - vm_compute in Hr. discriminate.
Defined.

(** A PDF without pages. *)
Lemma empty_pdf_success_and_empty_witness :
  exists r,
    @_handle_pdf (Demo.runtime (Ok []) Demo.no_match) (str "blank.pdf") [] = Ok r /\
    success r = true /\
    content_type (@analyze_content (Demo.runtime (Ok []) Demo.no_match) r) = EMPTY.
Proof.
  destruct (@empty_pdf_success_and_empty (Demo.runtime (Ok []) Demo.no_match)
              (str "blank.pdf") []) as [H1 H2].
  destruct (H2 (H1 eq_refl eq_refl)) as [r [Hr [Hs [_ [_ [He _]]]]]].
  exists r. auto.
Defined.

(** The report is read by the advanced extractor. *)
Lemma handle_pdf_fails_iff_both_raise_witness :
  exists r,
    @_handle_pdf Demo.report_rt (str "report.pdf") [] = Ok r /\
    success r = true /\ error r = [] /\ file_type r = PDF.
Proof.
  destruct (@handle_pdf_fails_iff_both_raise Demo.report_rt (str "report.pdf") [])
    as [r [Hr [_ Hok]]].
  exists r. split; [exact Hr|].
  assert (Hs : success r = true).
  { pose proof Hr as Hv. vm_compute in Hv. injection Hv as <-. reflexivity. }
  split; [exact Hs|]. exact (Hok Hs).
Defined.

End RoutedAnalysisProperties.

(* ================================================================== *)
(** ** The linker's search string and the extractor's token *)

Module LinkingClaims.
Import PyStrFacts FileProcessors Ingestion.

(** C2, as the specification words it, fails.  [pic.pdf] has one page with a
    single image and no text, so the extracted text is the image's token,
    [[Trang 1] Hình ảnh: pic_page1_img1.png].  With [chunk_size = 20] the
    splitter cuts it at the space in front of the file name: the token is
    split across the boundary and is a substring of neither chunk, and the
    image is attached to the second chunk all the same, because the linking
    loop looks for the file name [Path(img_path).name] only. *)
Lemma split_image_token_links_to_next_chunk :
  exists it0 it1,
    @read_pdf_with_images Samples.picture_rt [] (str "pic.pdf") =
      Ok (image_token 0 (str "pic_page1_img1.png"),
          [str "extracted_images/pic_page1_img1.png"], []) /\
    @load_and_split Samples.picture_rt (str "pic.pdf") [] 20%Z 0%Z = Ok [it0; it1] /\
    content it0 = str "[Trang 1] Hình ảnh:" /\
    content it1 = str "pic_page1_img1.png" /\
    ~ substring_of (image_token 0 (str "pic_page1_img1.png")) (content it0) /\
    ~ substring_of (image_token 0 (str "pic_page1_img1.png")) (content it1) /\
    image_attached (str "extracted_images/pic_page1_img1.png") it1.
Proof.
  do 2 eexists.
  split; [vm_compute; reflexivity|].
  split; [vm_compute; reflexivity|].
  split; [vm_compute; reflexivity|].
  split; [vm_compute; reflexivity|].
  split.
  { intros H. apply contains_iff in H. vm_compute in H. discriminate. }
  split.
  { intros H. apply contains_iff in H. vm_compute in H. discriminate. }
  eexists. split; [reflexivity|]. left. vm_compute. reflexivity.
Qed.

End LinkingClaims.

(* ================================================================== *)
(** ** Faults inside the router's own handlers *)

Module RouterFaultClaims.
Import PyStrFacts FileProcessors Router RouterClaims.

Section WithRuntime.
Context {rt : Runtime}.

(** A failed result built from a prefix and a fault message carries the
    message in its [error]. *)
Lemma failed_carries_message (t : FileType) (prefix msg : pystr) :
  success (failed t (prefix ++ msg)) = false /\
  error (failed t (prefix ++ msg)) = prefix ++ msg /\
  substring_of msg (error (failed t (prefix ++ msg))).
Proof.
  split; [reflexivity|]. split; [reflexivity|].
  exists prefix, []. simpl error. now rewrite app_nil_r.
Qed.

(** C5, as the code has it.  [route_file] returns a [ProcessingResult] for
    every file name and byte string and raises nothing, whatever the
    dispatch table holds.  With the router's own handlers a fault is handled
    inside the handler: a fault of the DOCX or of the Markdown extractor
    gives a failed result whose [error] ends with the fault message; when
    both PDF extractors raise, the failed result carries the message of the
    fallback reader; when only the advanced PDF extractor raises, the
    fallback reader's text is returned as a success with an empty [error],
    and the fault message is kept under ['fallback_reason'] in the
    metadata. *)
Theorem route_file_fault_outcomes (st : stats) (filename : pystr)
    (file_bytes : bytes) :
  (forall handlers, exists r,
     fst (route_file handlers st filename file_bytes) = Ok r) /\
  exists r,
    fst (route_file _handlers st filename file_bytes) = Ok r /\
    (forall e,
       detect_file_type filename = DOCX \/ detect_file_type filename = DOC ->
       read_docx file_bytes = Raise e ->
       success r = false /\
       error r = str "DOCX processing failed: " ++ exn_str e /\
       substring_of (exn_str e) (error r)) /\
    (forall e,
       detect_file_type filename = MD ->
       read_md file_bytes = Raise e ->
       success r = false /\
       error r = str "Markdown processing failed: " ++ exn_str e /\
       substring_of (exn_str e) (error r)) /\
    (forall e1 e2,
       detect_file_type filename = PDF ->
       read_pdf_with_images file_bytes filename = Raise e1 ->
       read_pdf file_bytes = Raise e2 ->
       success r = false /\
       error r = str "Both PDF processing methods failed: " ++ exn_str e2 /\
       substring_of (exn_str e2) (error r)) /\
    (forall e1 text,
       detect_file_type filename = PDF ->
       read_pdf_with_images file_bytes filename = Raise e1 ->
       read_pdf file_bytes = Ok text ->
       success r = true /\
       content r = text /\
       error r = [] /\
       dict_get (str "fallback_reason") (metadata r) = Some (VStr (exn_str e1))).
Proof.
  split.
  { intros handlers.
    destruct (route_file_never_raises handlers st filename file_bytes) as [r [Hr _]].
    now exists r. }
  unfold route_file.
  destruct (detect_file_type filename) eqn:Hd; cbn [FileType_eqb _handlers].
  - (* PDF *)
    destruct (_handle_pdf filename file_bytes) as [r0|e0] eqn:Hh.
    + exists r0. split; [reflexivity|].
      split; [intros e [H|H]; discriminate|].
      split; [intros e H; discriminate|].
      split.
      * intros e1 e2 _ H1 H2. unfold _handle_pdf in Hh. rewrite H1, H2 in Hh.
        injection Hh as <-.
        exact (failed_carries_message PDF (str "Both PDF processing methods failed: ") (exn_str e2)).
      * intros e1 text _ H1 H2. unfold _handle_pdf in Hh. rewrite H1, H2 in Hh.
        injection Hh as <-. repeat split.
    + destruct (@default_handlers_total rt PDF _ filename file_bytes eq_refl) as [r1 Hr1].
      congruence.
  - (* DOCX *)
    destruct (_handle_docx filename file_bytes) as [r0|e0] eqn:Hh.
    + exists r0. split; [reflexivity|].
      split.
      * intros e _ H. unfold _handle_docx in Hh. rewrite H in Hh.
        injection Hh as <-.
        exact (failed_carries_message DOCX (str "DOCX processing failed: ") (exn_str e)).
      * split; [intros e H; discriminate|].
        split; intros ? ? H; discriminate.
    + destruct (@default_handlers_total rt DOCX _ filename file_bytes eq_refl) as [r1 Hr1].
      congruence.
  - (* DOC *)
    destruct (_handle_docx filename file_bytes) as [r0|e0] eqn:Hh.
    + exists r0. split; [reflexivity|].
      split.
      * intros e _ H. unfold _handle_docx in Hh. rewrite H in Hh.
        injection Hh as <-.
        exact (failed_carries_message DOCX (str "DOCX processing failed: ") (exn_str e)).
      * split; [intros e H; discriminate|].
        split; intros ? ? H; discriminate.
    + destruct (@default_handlers_total rt DOC _ filename file_bytes eq_refl) as [r1 Hr1].
      congruence.
  - (* TXT *)
    destruct (_handle_txt filename file_bytes) as [r0|e0] eqn:Hh.
    + exists r0. split; [reflexivity|].
      split; [intros e [H|H]; discriminate|].
      split; [intros e H; discriminate|].
      split; intros ? ? H; discriminate.
    + destruct (@default_handlers_total rt TXT _ filename file_bytes eq_refl) as [r1 Hr1].
      congruence.
  - (* MD *)
    destruct (_handle_md filename file_bytes) as [r0|e0] eqn:Hh.
    + exists r0. split; [reflexivity|].
      split; [intros e [H|H]; discriminate|].
      split.
      * intros e _ H. unfold _handle_md in Hh. rewrite H in Hh.
        injection Hh as <-.
        exact (failed_carries_message MD (str "Markdown processing failed: ") (exn_str e)).
      * split; intros ? ? H; discriminate.
    + destruct (@default_handlers_total rt MD _ filename file_bytes eq_refl) as [r1 Hr1].
      congruence.
  - (* UNKNOWN *)
    eexists. split; [reflexivity|].
    split; [intros e [H|H]; discriminate|].
    split; [intros e H; discriminate|].
    split; intros ? ? H; discriminate.
Qed.

End WithRuntime.

(** C5, as the specification words it, fails.  For [scan.pdf] the advanced
    extractor raises inside the PDF handler ([fitz.open] cannot open the
    stream) and the fallback reader finds text: the fault is not converted
    into a failed result.  The result is a success with an empty [error];
    the fault message is in the metadata only. *)
Lemma advanced_extractor_fault_ends_as_success :
  exists r,
    @read_pdf_with_images Samples.fallback_rt [] (str "scan.pdf") =
      Raise (mkExn (str "FileDataError") (str "cannot open stream")) /\
    fst (@route_file Samples.fallback_rt (@_handlers Samples.fallback_rt)
           initial_stats (str "scan.pdf") []) = Ok r /\
    success r = true /\
    error r = [] /\
    ~ substring_of (str "cannot open stream") (error r) /\
    dict_get (str "fallback_reason") (metadata r) =
      Some (VStr (str "cannot open stream")).
Proof.
  eexists.
  split; [vm_compute; reflexivity|].
  split; [vm_compute; reflexivity|].
  split; [reflexivity|].
  split; [reflexivity|].
  split.
  { intros H. apply contains_iff in H. vm_compute in H. discriminate. }
  vm_compute. reflexivity.
Qed.

(** Two uploads that no library can read: [letter.docx], where the DOCX
    extractor raises, and [scan.pdf], where both PDF extractors raise. *)
Lemma route_file_fault_outcomes_witness :
  (exists r,
     fst (@route_file Samples.unreadable_rt (@_handlers Samples.unreadable_rt)
            initial_stats (str "letter.docx") []) = Ok r /\
     success r = false /\
     error r = str "DOCX processing failed: File is not a zip file") /\
  (exists r,
     fst (@route_file Samples.unreadable_rt (@_handlers Samples.unreadable_rt)
            initial_stats (str "scan.pdf") []) = Ok r /\
     success r = false /\
     error r = str "Both PDF processing methods failed: EOF marker not found").
Proof.
  split.
  - destruct (@route_file_fault_outcomes Samples.unreadable_rt initial_stats
                (str "letter.docx") [])
      as [_ [r [Hr [Hdocx _]]]].
    exists r. split; [exact Hr|].
    destruct (Hdocx (mkExn (str "BadZipFile") (str "File is not a zip file")))
      as [Hs [He _]].
    + left. vm_compute. reflexivity.
    + vm_compute. reflexivity.
    + split; [exact Hs|]. rewrite He. vm_compute. reflexivity.
  - destruct (@route_file_fault_outcomes Samples.unreadable_rt initial_stats
                (str "scan.pdf") [])
      as [_ [r [Hr [_ [_ [Hboth _]]]]]].
    exists r. split; [exact Hr|].
    destruct (Hboth (mkExn (str "FileDataError") (str "cannot open stream"))
                (mkExn (str "PdfReadError") (str "EOF marker not found")))
      as [Hs [He _]].
    + vm_compute. reflexivity.
    + vm_compute. reflexivity.
    + vm_compute. reflexivity.
    + split; [exact Hs|]. rewrite He. vm_compute. reflexivity.
Defined.

End RouterFaultClaims.
